(** * Task generation for student rosters: the two script variants

    A shallow embedding of [test5.py] (the simpler variant) and [test7.py]
    (the extended variant): the JSON post-processing of one model answer, the
    request cache, the title de-duplication and the per-row batch loop.

    Python values keep their shape: a [str] is a list of code points, a
    [dict] an association list in insertion order, the process-wide [CACHE]
    a finite map, an exception a value of [exn] returned on the left of a
    sum.  Library calls ([json.loads], [re.search], [str.strip],
    [hashlib.md5], [requests.post]) are modelled beside the code that uses
    them. *)

From Stdlib Require Import ZArith NArith List String Ascii Bool Lia.
From stdpp Require Import base decidable option list numbers countable gmap.
Import ListNotations.

#[local] Set Warnings "-register-all".

Local Open Scope N_scope.

(** ** Python strings *)

Module Py.

(** A [str] is a sequence of Unicode code points. *)
Definition str : Type := list N.

(** Decoding of a UTF-8 byte sequence, used to read the string literals of
    this file (which the source writes as Python literals). *)
Fixpoint utf8_decode (bs : list N) : str :=
  match bs with
  | [] => []
  | b :: r =>
    if b <? 128 then b :: utf8_decode r
    else if b <? 224 then
      match r with
      | b1 :: r' => ((b mod 32) * 64 + b1 mod 64) :: utf8_decode r'
      | _ => []
      end
    else if b <? 240 then
      match r with
      | b1 :: b2 :: r' =>
        ((b mod 16) * 4096 + (b1 mod 64) * 64 + b2 mod 64) :: utf8_decode r'
      | _ => []
      end
    else
      match r with
      | b1 :: b2 :: b3 :: r' =>
        ((b mod 8) * 262144 + (b1 mod 64) * 4096 + (b2 mod 64) * 64 + b3 mod 64)
          :: utf8_decode r'
      | _ => []
      end
  end.

(** [py "text"] is the Python literal ["text"]. *)
Definition py (s : string) : str :=
  utf8_decode (map N_of_ascii (list_ascii_of_string s)).

(** A literal that holds double quotes writes a backquote for each of them. *)
Definition pyq (s : string) : str :=
  map (fun c => if c =? 96 then 34 else c) (py s).

Definition NL : N := 10.
Definition CR : N := 13.
Definition SPACE : N := 32.

(** [c.isspace()] for a one-character string: what [str.strip()] removes. *)
Definition isspace (c : N) : bool :=
  ((9 <=? c) && (c <=? 13)) || ((28 <=? c) && (c <=? 32))
  || (c =? 133) || (c =? 160) || (c =? 5760)
  || ((8192 <=? c) && (c <=? 8202))
  || (c =? 8232) || (c =? 8233) || (c =? 8239) || (c =? 8287) || (c =? 12288).

(** [s.lstrip()] *)
Fixpoint lstrip (s : str) : str :=
  match s with
  | c :: r => if isspace c then lstrip r else s
  | [] => []
  end.

(** [s.rstrip()] *)
Fixpoint rstrip (s : str) : str :=
  match s with
  | [] => []
  | c :: r =>
    match rstrip r with
    | [] => if isspace c then [] else [c]
    | r' => c :: r'
    end
  end.

(** [s.strip()] *)
Definition strip (s : str) : str := rstrip (lstrip s).

(** [s.replace(old, new)] for one-character [old] and [new]. *)
Definition replace (old new : N) (s : str) : str :=
  map (fun c => if c =? old then new else c) s.

(** [s[:n]] *)
Definition slice_to (n : nat) (s : str) : str := take n s.

(** [s.encode("utf-8")]: [None] stands for [UnicodeEncodeError], raised on a
    surrogate code point. *)
Definition encode_char (c : N) : option (list N) :=
  if c <? 128 then Some [c]
  else if c <? 2048 then Some [192 + c / 64; 128 + c mod 64]
  else if (55296 <=? c) && (c <=? 57343) then None
  else if c <? 65536 then
    Some [224 + c / 4096; 128 + (c / 64) mod 64; 128 + c mod 64]
  else if c <? 1114112 then
    Some [240 + c / 262144; 128 + (c / 4096) mod 64; 128 + (c / 64) mod 64;
          128 + c mod 64]
  else None.

Fixpoint encode_utf8 (s : str) : option (list N) :=
  match s with
  | [] => Some []
  | c :: r =>
    match encode_char c, encode_utf8 r with
    | Some bs, Some rest => Some (bs ++ rest)
    | _, _ => None
    end
  end.

End Py.
Export Py.

(** ** Exceptions and values *)

(** What a subscript [x[i]] was applied with. *)
Inductive subscript :=
| Key (k : str)
| Index (i : Z).

(** The exceptions the two scripts can see, by their classes.
    [ValueError] stands for the class with its subclasses, which an
    [isinstance(e, ValueError)] cannot tell apart: json's
    [JSONDecodeError], [UnicodeEncodeError], the [InvalidHeader] of
    requests, the [ValueError] the interpreter raises for an int with too
    many digits ([ExceedsDigitLimit]), and the ones the scripts raise
    themselves, which carry the parts their f-string message is built
    from. *)
Inductive exn :=
| RecursionError
| KeyError (sub : subscript)
| IndexError
| TypeError
| AttributeError
| ZeroDivisionError
| ConnectionError
| Timeout
| HTTPError (status_code : Z)
| StreamlitAPIException
| ValueError (which : value_error)
with value_error :=
| JSONDecode
| UnicodeEncode
| InvalidHeader
| ExceedsDigitLimit
| ApiKeyNotSet
| CannotParse (student_name raw_text : str) (cause : exn)
| RequiredFieldsMissing (student_name raw_text : str)
| NotAJsonObject (student_name : str)
| JsonError (student_name raw_text : str) (cause : exn).

(** The two subclasses the scripts meet by name. *)
Abbreviation JSONDecodeError := (ValueError JSONDecode).
Abbreviation UnicodeEncodeError := (ValueError UnicodeEncode).

(** An exception raised by [m] is raised by the whole; otherwise [k] goes
    on with the value. *)
Notation "'let*' x := m 'in' k" :=
  (match m with inl e => inl e | inr x => k end)
  (at level 10, x pattern, m at level 100, k at level 200, only parsing).

(** The parts of the interpreter the scripts rely on and this development
    leaves open: the float type (what [float(s)] returns, whether a set
    takes two floats, or a float and an int, for the same element, and
    [str(x)] of a float), how many nested objects and arrays the decoder
    may enter before [RecursionError], and how many digits an int may have
    when it is read from or written to text (0 for no limit). *)
Class PyRuntime := {
  pyfloat : Type;
  float_of_str : str -> pyfloat;
  float_eqb : pyfloat -> pyfloat -> bool;
  float_eq_int : pyfloat -> Z -> bool;
  float_str : pyfloat -> str;
  recursion_limit : nat;
  int_max_str_digits : nat
}.

Section Values.
Context `{PyRuntime}.

(** What [json.loads] can return. *)
Inductive pyval :=
| PNone
| PBool (b : bool)
| PInt (n : Z)
| PFloat (x : pyfloat)
| PStr (s : str)
| PList (xs : list pyval)
| PDict (items : list (str * pyval)).

(** [d.get(k)] on the items of a dict. *)
Fixpoint dict_get (k : str) (d : list (str * pyval)) : option pyval :=
  match d with
  | [] => None
  | (k', v) :: d' => if decide (k = k') then Some v else dict_get k d'
  end.

(** [d[k] = v]: an existing key keeps its place. *)
Fixpoint dict_set (k : str) (v : pyval) (d : list (str * pyval)) : list (str * pyval) :=
  match d with
  | [] => [(k, v)]
  | (k', v') :: d' =>
    if decide (k = k') then (k', v) :: d' else (k', v') :: dict_set k v d'
  end.

(** [k in d] *)
Definition dict_has (k : str) (d : list (str * pyval)) : bool :=
  match dict_get k d with Some _ => true | None => false end.

(** [x[k]] for a string [k]. *)
Definition getitem_key (x : pyval) (k : str) : exn + pyval :=
  match x with
  | PDict d =>
    match dict_get k d with
    | Some v => inr v
    | None => inl (KeyError (Key k))
    end
  | _ => inl TypeError
  end.

(** [x[k] = v] for a string [k]. *)
Definition setitem (x : pyval) (k : str) (v : pyval) : exn + pyval :=
  match x with
  | PDict d => inr (PDict (dict_set k v d))
  | _ => inl TypeError
  end.

(** [x[0]] *)
Definition getitem_0 (x : pyval) : exn + pyval :=
  match x with
  | PList (v :: _) => inr v
  | PList [] => inl IndexError
  | PStr (c :: _) => inr (PStr [c])
  | PStr [] => inl IndexError
  | PDict _ => inl (KeyError (Index 0))
  | _ => inl TypeError
  end.

(** [x in choices] for a list [choices] of strings: only an equal string is
    a member. *)
Definition in_choices (x : option pyval) (choices : list str) : bool :=
  match x with
  | Some (PStr s) => bool_decide (s ∈ choices)
  | _ => false
  end.

(** The values a set or a tuple in a set can hold; a list or a dict raises
    [TypeError] when hashed. *)
Inductive hashable :=
| HNone
| HBool (b : bool)
| HInt (n : Z)
| HFloat (x : pyfloat)
| HStr (s : str).

Definition hash_of (v : pyval) : exn + hashable :=
  match v with
  | PNone => inr HNone
  | PBool b => inr (HBool b)
  | PInt n => inr (HInt n)
  | PFloat x => inr (HFloat x)
  | PStr s => inr (HStr s)
  | PList _ | PDict _ => inl TypeError
  end.

(** [a == b] on hashable values: numbers compare by value across [bool],
    [int] and [float]. *)
Definition py_eqb (a b : hashable) : bool :=
  match a, b with
  | HNone, HNone => true
  | HStr s, HStr t => bool_decide (s = t)
  | HBool x, HBool y => bool_decide (x = y)
  | HBool x, HInt n | HInt n, HBool x => (Z.b2z x =? n)%Z
  | HInt m, HInt n => (m =? n)%Z
  | HFloat x, HFloat y => float_eqb x y
  | HFloat x, HInt n | HInt n, HFloat x => float_eq_int x n
  | HFloat x, HBool b | HBool b, HFloat x => float_eq_int x (Z.b2z b)
  | _, _ => false
  end.

(** Decimal digits of a natural number, as [str(n)] prints them. *)
Fixpoint digits_of (fuel : nat) (n : N) (acc : str) : str :=
  match fuel with
  | O => acc
  | S fuel' =>
    let acc' := (48 + n mod 10) :: acc in
    if n <? 10 then acc' else digits_of fuel' (n / 10) acc'
  end.

Definition digits_of_int (z : Z) : str :=
  let n := Z.abs_N z in
  digits_of (S (N.to_nat (N.log2 n))) n [].

(** Whether a run of digits is longer than the interpreter converts. *)
Definition too_many_digits (digits : str) : bool :=
  ((0 <? int_max_str_digits) && (int_max_str_digits <? length digits))%nat.

(** [str(z)] for an int. *)
Definition str_of_int (z : Z) : exn + str :=
  let ds := digits_of_int z in
  if too_many_digits ds then inl (ValueError ExceedsDigitLimit)
  else inr (if (z <? 0)%Z then 45 :: ds else ds).

(** [str(x)], what an f-string inserts for [{x}]. *)
Definition str_of (h : hashable) : exn + str :=
  match h with
  | HNone => inr (py "None")
  | HBool true => inr (py "True")
  | HBool false => inr (py "False")
  | HInt n => str_of_int n
  | HFloat x => inr (float_str x)
  | HStr s => inr s
  end.

End Values.

(** ** [json.loads]

    The decoder of the standard library as its accelerated scanner runs it:
    one value between optional white space, objects as dicts (a repeated key
    keeps its first place and its last value), numbers with a fraction or an
    exponent as floats, [NaN], [Infinity] and [-Infinity] accepted, strings in
    strict mode.  Every syntax error is [JSONDecodeError]; positions and
    messages are not kept.  An int with more digits than the interpreter
    converts is a plain [ValueError]. *)

Module Json.
Section Decoder.
Context `{PyRuntime}.

(** The decoder's [WHITESPACE]: space, tab, line feed, carriage return. *)
Definition is_ws (c : N) : bool :=
  (c =? 32) || (c =? 9) || (c =? 10) || (c =? 13).

Fixpoint skip_ws (s : str) : str :=
  match s with
  | c :: r => if is_ws c then skip_ws r else s
  | [] => []
  end.

Definition is_digit (c : N) : bool := (48 <=? c) && (c <=? 57).

(** The text [s] is not at its end and its next character is [c]. *)
Definition next_is (c : N) (s : str) : bool :=
  match s with
  | x :: _ => x =? c
  | [] => false
  end.

(** The longest run of digits at the start of [s], and what follows it. *)
Fixpoint span_digits (s : str) : str * str :=
  match s with
  | c :: r =>
    if is_digit c then let '(ds, r') := span_digits r in (c :: ds, r')
    else ([], s)
  | [] => ([], [])
  end.

(** The integer part of the decoder's number pattern: an optional minus,
    then a lone zero or a digit from 1 to 9 followed by digits. *)
Definition match_integer (s : str) : option (str * str) :=
  let '(sign, s1) :=
    match s with
    | c :: r => if c =? 45 then ([45], r) else ([], s)
    | [] => ([], s)
    end in
  match s1 with
  | c :: r =>
    if c =? 48 then Some (sign ++ [c], r)
    else if is_digit c then
      let '(ds, r') := span_digits r in Some (sign ++ c :: ds, r')
    else None
  | [] => None
  end.

(** The optional fraction: a dot and at least one digit. *)
Definition match_frac (s : str) : str * str :=
  match s with
  | dot :: d :: r =>
    if (dot =? 46) && is_digit d
    then let '(ds, r') := span_digits r in (dot :: d :: ds, r')
    else ([], s)
  | _ => ([], s)
  end.

(** The optional exponent: e or E, an optional sign, at least one digit. *)
Definition match_exp (s : str) : str * str :=
  match s with
  | e :: r =>
    if (e =? 101) || (e =? 69) then
      match r with
      | d :: r1 =>
        if is_digit d then
          let '(ds, r') := span_digits r1 in (e :: d :: ds, r')
        else if (d =? 45) || (d =? 43) then
          match r1 with
          | d1 :: r2 =>
            if is_digit d1 then
              let '(ds, r') := span_digits r2 in (e :: d :: d1 :: ds, r')
            else ([], s)
          | [] => ([], s)
          end
        else ([], s)
      | [] => ([], s)
      end
    else ([], s)
  | [] => ([], s)
  end.

(** [int(s)] for a string of digits with an optional leading minus. *)
Definition int_of_str (s : str) : exn + Z :=
  let value ds := fold_left (fun acc c => acc * 10 + (c - 48)) ds 0 in
  let digits := if next_is 45 s then tail s else s in
  if too_many_digits digits then inl (ValueError ExceedsDigitLimit)
  else inr (if next_is 45 s then (- Z.of_N (value digits))%Z
            else Z.of_N (value digits)).

(** A number at the start of [s] and what follows it: an int, or a float
    when a fraction or an exponent follows the integer part. *)
Definition match_number (s : str) : option ((exn + pyval) * str) :=
  match match_integer s with
  | None => None
  | Some (int_part, r) =>
    let '(frac, r1) := match_frac r in
    let '(exp, r2) := match_exp r1 in
    match frac, exp with
    | [], [] => Some (let* n := int_of_str int_part in inr (PInt n), r2)
    | _, _ => Some (inr (PFloat (float_of_str (int_part ++ frac ++ exp))), r2)
    end
  end.

(** [s] without the prefix [p], when it starts with it. *)
Fixpoint strip_prefix (p s : str) : option str :=
  match p, s with
  | [], _ => Some s
  | a :: p', b :: s' => if a =? b then strip_prefix p' s' else None
  | _ :: _, [] => None
  end.

Definition hex_digit (c : N) : option N :=
  if is_digit c then Some (c - 48)
  else if (97 <=? c) && (c <=? 102) then Some (c - 87)
  else if (65 <=? c) && (c <=? 70) then Some (c - 55)
  else None.

Definition hex4 (a b c d : N) : option N :=
  match hex_digit a, hex_digit b, hex_digit c, hex_digit d with
  | Some x, Some y, Some z, Some w => Some (x * 4096 + y * 256 + z * 16 + w)
  | _, _, _, _ => None
  end.

(** The decoder's [BACKSLASH] table. *)
Definition unescape (c : N) : option N :=
  if c =? 34 then Some 34
  else if c =? 92 then Some 92
  else if c =? 47 then Some 47
  else if c =? 98 then Some 8
  else if c =? 102 then Some 12
  else if c =? 110 then Some 10
  else if c =? 114 then Some 13
  else if c =? 116 then Some 9
  else None.

Definition is_high_surrogate (c : N) : bool := (55296 <=? c) && (c <=? 56319).
Definition is_low_surrogate (c : N) : bool := (56320 <=? c) && (c <=? 57343).

Definition join_surrogates (hi lo : N) : N :=
  65536 + ((hi - 55296) * 1024 + (lo - 56320)).

Definition cons_char (c : N) (r : exn + (str * str)) : exn + (str * str) :=
  let* (cs, rest) := r in inr (c :: cs, rest).

(** [scanstring], from just after the opening quote: the decoded string
    and what follows the closing quote. *)
Fixpoint scanstring (s : str) : exn + (str * str) :=
  match s with
  | [] => inl JSONDecodeError
  | c :: r =>
    if c =? 34 then inr ([], r)
    else if c =? 92 then
      match r with
      | [] => inl JSONDecodeError
      | e :: r1 =>
        if e =? 117 then
          match r1 with
          | h1 :: h2 :: h3 :: h4 :: r2 =>
            match hex4 h1 h2 h3 h4 with
            | None => inl JSONDecodeError
            | Some uni =>
              if is_high_surrogate uni then
                match r2 with
                | b :: u :: g1 :: g2 :: g3 :: g4 :: r3 =>
                  if (b =? 92) && (u =? 117) then
                    match hex4 g1 g2 g3 g4 with
                    | None => inl JSONDecodeError
                    | Some uni2 =>
                      if is_low_surrogate uni2
                      then cons_char (join_surrogates uni uni2) (scanstring r3)
                      else cons_char uni (scanstring r2)
                    end
                  else cons_char uni (scanstring r2)
                | _ => cons_char uni (scanstring r2)
                end
              else cons_char uni (scanstring r2)
            end
          | _ => inl JSONDecodeError
          end
        else
          match unescape e with
          | Some u => cons_char u (scanstring r1)
          | None => inl JSONDecodeError
          end
      end
    else if c <? 32 then inl JSONDecodeError
    else cons_char c (scanstring r)
  end.

(** The elements of an array after its first bracket, [s] at an element.
    [k] bounds the number of elements by the length of the text. *)
Fixpoint parse_elements (scan : str -> exn + (pyval * str)) (k : nat)
    (s : str) (acc : list pyval) : exn + (pyval * str) :=
  match k with
  | O => inl JSONDecodeError
  | S k' =>
    let* (v, r) := scan s in
    let r1 := skip_ws r in
    if next_is 93 r1 then inr (PList (acc ++ [v]), tail r1)
    else if next_is 44 r1
    then parse_elements scan k' (skip_ws (tail r1)) (acc ++ [v])
    else inl JSONDecodeError
  end.

(** The members of an object after its brace, [s] at a key. *)
Fixpoint parse_members (scan : str -> exn + (pyval * str)) (k : nat)
    (s : str) (acc : list (str * pyval)) : exn + (pyval * str) :=
  match k with
  | O => inl JSONDecodeError
  | S k' =>
    if next_is 34 s then
      let* (key, r1) := scanstring (tail s) in
      let r2 := skip_ws r1 in
      if next_is 58 r2 then
        let* (v, r3) := scan (skip_ws (tail r2)) in
        let r4 := skip_ws r3 in
        if next_is 125 r4 then inr (PDict (dict_set key v acc), tail r4)
        else if next_is 44 r4
        then parse_members scan k' (skip_ws (tail r4)) (dict_set key v acc)
        else inl JSONDecodeError
      else inl JSONDecodeError
    else inl JSONDecodeError
  end.

(** [scan_once]: one JSON value at the start of [s].  [depth] counts the
    objects and arrays the interpreter still lets the decoder enter. *)
Fixpoint scan_once (depth : nat) (s : str) : exn + (pyval * str) :=
  match s with
  | [] => inl JSONDecodeError
  | c :: r =>
    if c =? 34 then
      let* (t, r1) := scanstring r in inr (PStr t, r1)
    else if c =? 123 then
      match depth with
      | O => inl RecursionError
      | S depth' =>
        let r1 := skip_ws r in
        if next_is 125 r1 then inr (PDict [], tail r1)
        else parse_members (scan_once depth') (length r1) r1 []
      end
    else if c =? 91 then
      match depth with
      | O => inl RecursionError
      | S depth' =>
        let r1 := skip_ws r in
        if next_is 93 r1 then inr (PList [], tail r1)
        else parse_elements (scan_once depth') (length r1) r1 []
      end
    else
      match strip_prefix (py "null") s, strip_prefix (py "true") s,
            strip_prefix (py "false") s with
      | Some r1, _, _ => inr (PNone, r1)
      | _, Some r1, _ => inr (PBool true, r1)
      | _, _, Some r1 => inr (PBool false, r1)
      | None, None, None =>
        match match_number s with
        | Some (number, r1) => let* v := number in inr (v, r1)
        | None =>
          match strip_prefix (py "NaN") s, strip_prefix (py "Infinity") s,
                strip_prefix (py "-Infinity") s with
          | Some r1, _, _ => inr (PFloat (float_of_str (py "nan")), r1)
          | _, Some r1, _ => inr (PFloat (float_of_str (py "inf")), r1)
          | _, _, Some r1 => inr (PFloat (float_of_str (py "-inf")), r1)
          | None, None, None => inl JSONDecodeError
          end
        end
      end
  end.

(** A scanner that, when it succeeds, has read at least one character. *)
Definition consumes (scan : str -> exn + (pyval * str)) : Prop :=
  forall s v r, scan s = inr (v, r) -> (length r < length s)%nat.


(** [json.loads(s)] for a [str]: a byte order mark is refused, then one
    value is read, with nothing but white space around it. *)
Definition loads (s : str) : exn + pyval :=
  if next_is 65279 s then inl JSONDecodeError
  else
    let* (v, r) := scan_once recursion_limit (skip_ws s) in
    match skip_ws r with
    | [] => inr v
    | _ :: _ => inl JSONDecodeError
    end.

End Decoder.
End Json.

(** ** [hashlib.md5] *)

Module Md5.

Definition add32 (a b : N) : N := (a + b) mod 4294967296.

Definition not32 (a : N) : N := N.lxor a 4294967295.

(** Rotation of a 32-bit word to the left. *)
Definition rotl32 (x c : N) : N :=
  N.lor (N.shiftl x c mod 4294967296) (N.shiftr x (32 - c)).

Definition shifts : list N :=
  [7; 12; 17; 22; 7; 12; 17; 22; 7; 12; 17; 22; 7; 12; 17; 22;
   5; 9; 14; 20; 5; 9; 14; 20; 5; 9; 14; 20; 5; 9; 14; 20;
   4; 11; 16; 23; 4; 11; 16; 23; 4; 11; 16; 23; 4; 11; 16; 23;
   6; 10; 15; 21; 6; 10; 15; 21; 6; 10; 15; 21; 6; 10; 15; 21].

(** The integer parts of [2^32 * abs(sin(i + 1))]. *)
Definition sines : list N :=
  [3614090360; 3905402710; 606105819; 3250441966;
   4118548399; 1200080426; 2821735955; 4249261313;
   1770035416; 2336552879; 4294925233; 2304563134;
   1804603682; 4254626195; 2792965006; 1236535329;
   4129170786; 3225465664; 643717713; 3921069994;
   3593408605; 38016083; 3634488961; 3889429448;
   568446438; 3275163606; 4107603335; 1163531501;
   2850285829; 4243563512; 1735328473; 2368359562;
   4294588738; 2272392833; 1839030562; 4259657740;
   2763975236; 1272893353; 4139469664; 3200236656;
   681279174; 3936430074; 3572445317; 76029189;
   3654602809; 3873151461; 530742520; 3299628645;
   4096336452; 1126891415; 2878612391; 4237533241;
   1700485571; 2399980690; 4293915773; 2240044497;
   1873313359; 4264355552; 2734768916; 1309151649;
   4149444226; 3174756917; 718787259; 3951481745].

(** The message followed by the bit 1, zeros up to 56 modulo 64 bytes, and
    its length in bits as 8 little-endian bytes. *)
Definition pad (msg : list N) : list N :=
  let len := N.of_nat (length msg) in
  let zeros := (119 - len mod 64) mod 64 in
  let bits := (8 * len) mod 18446744073709551616 in
  msg ++ [128] ++ repeat 0 (N.to_nat zeros)
      ++ map (fun i => N.shiftr bits (8 * i) mod 256) [0; 1; 2; 3; 4; 5; 6; 7].

(** Little-endian 32-bit words of a byte string. *)
Fixpoint words (bs : list N) : list N :=
  match bs with
  | b0 :: b1 :: b2 :: b3 :: r =>
    (b0 + 256 * b1 + 65536 * b2 + 16777216 * b3) :: words r
  | _ => []
  end.

Definition state : Type := N * N * N * N.

Definition step (block : list N) (st : state) (i : nat) : state :=
  let '(a, b, c, d) := st in
  let '(f, g) :=
    if (i <? 16)%nat then (N.lor (N.land b c) (N.land (not32 b) d), i)
    else if (i <? 32)%nat then
      (N.lor (N.land d b) (N.land (not32 d) c), ((5 * i + 1) mod 16)%nat)
    else if (i <? 48)%nat then
      (N.lxor b (N.lxor c d), ((3 * i + 5) mod 16)%nat)
    else (N.lxor c (N.lor b (not32 d)), ((7 * i) mod 16)%nat) in
  let sum := add32 (add32 (add32 f a) (nth i sines 0)) (nth g block 0) in
  (d, add32 b (rotl32 sum (nth i shifts 0)), b, c).

Definition compress (st : state) (block : list N) : state :=
  let '(a0, b0, c0, d0) := st in
  let '(a, b, c, d) := fold_left (step block) (seq 0 64) st in
  (add32 a0 a, add32 b0 b, add32 c0 c, add32 d0 d).

Fixpoint blocks (n : nat) (ws : list N) (st : state) : state :=
  match n with
  | O => st
  | S n' =>
    match ws with
    | [] => st
    | _ => blocks n' (drop 16 ws) (compress st (take 16 ws))
    end
  end.

Definition digest (msg : list N) : list N :=
  let ws := words (pad msg) in
  let '(a, b, c, d) :=
    blocks (length ws) ws (1732584193, 4023233417, 2562383102, 271733878) in
  flat_map (fun w => map (fun i => N.shiftr w (8 * i) mod 256) [0; 1; 2; 3])
           [a; b; c; d].

Definition hex (n : N) : N := if n <? 10 then 48 + n else 87 + n.

(** [hashlib.md5(msg).hexdigest()] *)
Definition hexdigest (msg : list N) : str :=
  flat_map (fun b => [hex (b / 16); hex (b mod 16)]) (digest msg).

End Md5.

(** ** The chat-completion request and its answer *)

(** What [requests.post] is called with. *)
Record request := {
  url : str;
  authorization : str;
  model : str;
  system_content : str;
  user_content : str;
  timeout : Z
}.

(** What a call of [requests.post] does.  It raises before anything is
    sent, for an authorization header that holds a line break
    ([InvalidHeader]) or a character outside Latin-1
    ([UnicodeEncodeError]); it raises for want of an answer
    ([ConnectionError], [Timeout]); or it returns a response, with a
    status code and a body. *)
Inductive http_outcome :=
| HeaderRefused
| HeaderNotLatin1
| NoResponse
| TimedOut
| Response (status_code : Z) (body : str).

Definition join_lines (ls : list str) : str :=
  match ls with
  | [] => []
  | l :: ls' => l ++ flat_map (fun x => NL :: x) ls'
  end.

Section Answer.
Context `{PyRuntime}.

(** [response.raise_for_status()] and then
    [response.json()["choices"][0]["message"]["content"].strip()]. *)
Definition raw_text_of (o : http_outcome) : exn + str :=
  match o with
  | HeaderRefused => inl (ValueError InvalidHeader)
  | HeaderNotLatin1 => inl UnicodeEncodeError
  | NoResponse => inl ConnectionError
  | TimedOut => inl Timeout
  | Response status_code body =>
    if ((400 <=? status_code) && (status_code <? 600))%Z
    then inl (HTTPError status_code)
    else
      let* envelope := Json.loads body in
      let* choices := getitem_key envelope (py "choices") in
      let* choice := getitem_0 choices in
      let* msg := getitem_key choice (py "message") in
      let* content := getitem_key msg (py "content") in
      match content with
      | PStr s => inr (strip s)
      | _ => inl AttributeError
      end
  end.

End Answer.

(** ** The batch loop of the button handler

    Both scripts run the same [for] loop over [df_students.iterrows()]: a
    [try] around the call of [generate_task_json] appends the task to
    [results], the [except] clause appends a line to [errors]; then, outside
    the [try], the progress bar is set to [(idx + 1) / total], where [idx]
    is the label of the row in the index of the roster. *)

(** The label of a row.  [pd.read_csv] numbers the rows from 0; when the
    data rows of the file have one field more than its header, their first
    field becomes the label instead: an integer (a Boolean counts as 0 or
    1) or a text.  Labels that are floats are left out. *)
Inductive index_label :=
| IntLabel (i : Z)
| StrLabel (s : str).

(** One row of the roster: its label, and its cells as [str(...)] renders
    them. *)
Record student := {
  idx : index_label;
  student_name_cell : str;
  role_cell : str
}.

(** [progress_bar.progress((idx + 1) / total)].  [idx + 1] raises
    [TypeError] for a text.  For an integer the quotient is a float, which
    Streamlit takes from 0.0 to 1.0 and refuses with
    [StreamlitAPIException] outside: it is in that range when
    [0 <= idx + 1 <= total], and otherwise outside it by [1 / total] or
    more, which neither the rounding of the division nor the tolerance of
    Streamlit (1e-9) makes up for in a roster of fewer than 10^9 rows.
    [None] when the call returns. *)
Definition progress (idx : index_label) (total : nat) : option exn :=
  match idx with
  | StrLabel _ => Some TypeError
  | IntLabel i =>
    match total with
    | O => Some ZeroDivisionError
    | S _ =>
      if ((0 <=? i + 1) && (i + 1 <=? Z.of_nat total))%Z then None
      else Some StreamlitAPIException
    end
  end.

(** A line of [errors]: the parts of [f"{student_name} ({role_ru}): {e}"]. *)
Record error_line := {
  failed_student : str;
  failed_role : str;
  raised : exn
}.

(** The handler's [role_mapping]. *)
Definition role_mapping : gmap str str :=
  list_to_map
    [(py "Analyst", py "Аналитик");
     (py "Tester", py "Тестировщик");
     (py "Manager", py "Менеджер");
     (py "Designer", py "Дизайнер")].

(** [role_mapping.get(r, r)] *)
Definition role_ru_of (r : str) : str := default r (role_mapping !! r).

Section Batch.
Context `{PyRuntime}.
Context {St : Type}.

(** What the loop has built so far, and the exception that has ended it,
    if one has. *)
Record tally := {
  results : list pyval;
  errors : list error_line;
  process : St;
  uncaught : option exn
}.

(** The [try] statement of the loop body: [call] is the generator applied
    to the stripped name and role of the row. *)
Definition loop_body (call : str -> str -> St -> (exn + pyval) * St)
    (acc : tally) (row : student) : tally :=
  let student_name := strip (student_name_cell row) in
  let role_ru := strip (role_ru_of (role_cell row)) in
  match call student_name role_ru (process acc) with
  | (inr task_json, s) =>
    {| results := results acc ++ [task_json]; errors := errors acc;
       process := s; uncaught := uncaught acc |}
  | (inl e, s) =>
    {| results := results acc;
       errors := errors acc
         ++ [{| failed_student := student_name; failed_role := role_ru; raised := e |}];
       process := s; uncaught := uncaught acc |}
  end.

(** The loop over the rows: after the [try] statement of a row comes the
    call of the progress bar, and an exception it raises is caught by
    nothing: the loop ends there, with what it has built. *)
Fixpoint for_rows (call : str -> str -> St -> (exn + pyval) * St)
    (total : nat) (students : list student) (acc : tally) : tally :=
  match students with
  | [] => acc
  | row :: rest =>
    let acc' := loop_body call acc row in
    match progress (idx row) total with
    | Some e =>
      {| results := results acc'; errors := errors acc';
         process := process acc'; uncaught := Some e |}
    | None => for_rows call total rest acc'
    end
  end.

(** [total = len(df_students)], and the loop from empty lists. *)
Definition for_each_row (call : str -> str -> St -> (exn + pyval) * St)
    (students : list student) (s : St) : tally :=
  for_rows call (length students) students
           {| results := []; errors := []; process := s; uncaught := None |}.

(** The rows the loop gets to, when [total] is the number passed to the
    progress bar: those up to the first whose progress call raises, that
    row included. *)
Fixpoint reached (total : nat) (students : list student) : list student :=
  match students with
  | [] => []
  | row :: rest =>
    row :: match progress (idx row) total with
           | Some _ => []
           | None => reached total rest
           end
  end.

(** No progress call of the roster raises. *)
Definition progress_accepted (students : list student) : bool :=
  forallb (fun row =>
             match progress (idx row) (length students) with
             | None => true
             | Some _ => false
             end)
          students.

(** The rows are numbered from [k] on. *)
Fixpoint numbered_from (k : nat) (students : list student) : bool :=
  match students with
  | [] => true
  | row :: rest =>
    match idx row with
    | IntLabel i => (i =? Z.of_nat k)%Z && numbered_from (S k) rest
    | StrLabel _ => false
    end
  end.

(** The index [pd.read_csv] gives by default: the rows numbered from 0. *)
Definition default_index (students : list student) : bool :=
  numbered_from 0 students.

(** The outcome of every row, in roster order: each call starts from the
    process the call before it left. *)
Fixpoint row_outcomes (call : str -> str -> St -> (exn + pyval) * St)
    (students : list student) (s : St) : list (exn + pyval) :=
  match students with
  | [] => []
  | row :: rest =>
    let '(outcome, s') :=
      call (strip (student_name_cell row)) (strip (role_ru_of (role_cell row))) s in
    outcome :: row_outcomes call rest s'
  end.

(** The tasks among a list of outcomes, in order. *)
Definition successes (outcomes : list (exn + pyval)) : list pyval :=
  omap (fun o => match o with inr task => Some task | inl _ => None end) outcomes.

(** The error lines of the rows whose outcome is an exception, in order. *)
Definition failures (students : list student) (outcomes : list (exn + pyval))
    : list error_line :=
  omap (fun '(row, o) =>
          match o with
          | inl e =>
            Some {| failed_student := strip (student_name_cell row);
                    failed_role := strip (role_ru_of (role_cell row));
                    raised := e |}
          | inr _ => None
          end)
       (zip students outcomes).

End Batch.
Arguments tally {_} St.

(** All of [fields] are keys of the record [r]. *)
Definition has_fields `{PyRuntime} (fields : list str) (r : pyval) : bool :=
  match r with
  | PDict d => forallb (fun k => dict_has k d) fields
  | _ => false
  end.

(** The fields [normalize_json_result] always writes or defaults. *)
Definition normalized_fields : list str :=
  [py "status"; py "priority"; py "role"; py "executor"; py "author"].

(** The seven fields of a task of the extended variant. *)
Definition task_fields : list str :=
  py "title" :: py "description" :: normalized_fields.

(** Every record in the cache has all of [fields]. *)
Definition cache_holds `{PyRuntime} (fields : list str) (cache : gmap str pyval) : Prop :=
  forall key r, cache !! key = Some r -> has_fields fields r = true.

(** ** The extended variant, [test7.py] *)

Module Test7.
Section Script.
Context `{PyRuntime}.

Definition STATUS_CHOICES : list str :=
  [py "new"; py "in_progress"; py "completed"; py "cancelled"].

Definition PRIORITY_CHOICES : list str :=
  [py "low"; py "medium"; py "high"; py "critical"].

(** [s.replace('\n', ' ').replace('\r', ' ').strip()] *)
Definition without_line_breaks (s : str) : str :=
  strip (replace CR SPACE (replace NL SPACE s)).

(** What the loop of [normalize_json_result] leaves under a key, given what
    [data.get(key)] was: a string loses its line breaks, anything else stays. *)
Definition cleaned (v : option pyval) : option pyval :=
  match v with
  | Some (PStr s) => Some (PStr (without_line_breaks s))
  | other => other
  end.

(** The loop body of [normalize_json_result] for one [key]. *)
Definition strip_line_breaks (d : list (str * pyval)) (key : str) : list (str * pyval) :=
  match dict_get key d with
  | Some (PStr s) => dict_set key (PStr (without_line_breaks s)) d
  | _ => d
  end.

Definition normalize_json_result (data : pyval) (student_name role_ru : str)
    : exn + pyval :=
  match data with
  | PDict d =>
    let d := dict_set (py "role") (PStr role_ru) d in
    let d := dict_set (py "executor") (PStr student_name) d in
    let d := dict_set (py "author") (PStr (py "AI")) d in
    let d :=
      if in_choices (dict_get (py "status") d) STATUS_CHOICES then d
      else dict_set (py "status") (PStr (py "new")) d in
    let d :=
      if in_choices (dict_get (py "priority") d) PRIORITY_CHOICES then d
      else dict_set (py "priority") (PStr (py "medium")) d in
    inr (PDict (fold_left strip_line_breaks [py "title"; py "description"] d))
  | _ => inl (ValueError (NotAJsonObject student_name))
  end.

(** The text of the leftmost match of the pattern [({.*})] with [re.DOTALL]
    is found in two steps.  First, the part of [s] up to and including its
    last closing brace: what the greedy [.*}] matches. *)
Fixpoint through_last_brace (s : str) : option str :=
  match s with
  | [] => None
  | c :: r =>
    match through_last_brace r with
    | Some t => Some (c :: t)
    | None => if c =? 125 then Some [c] else None
    end
  end.

(** Then [re.search]: the leftmost opening brace that a closing one follows. *)
Fixpoint re_search (text : str) : option str :=
  match text with
  | [] => None
  | c :: r =>
    if c =? 123 then
      match through_last_brace r with
      | Some t => Some (c :: t)
      | None => re_search r
      end
    else re_search r
  end.

Definition extract_json_from_text (text : str) : str :=
  match re_search text with
  | Some group1 => group1
  | None => text
  end.

Definition cache_key (document_text student_name role_ru model : str) : exn + str :=
  let key_base :=
    slice_to 1000 document_text ++ py "||" ++ student_name ++ py "||"
      ++ role_ru ++ py "||" ++ model in
  match encode_utf8 key_base with
  | Some bytes => inr (Md5.hexdigest bytes)
  | None => inl UnicodeEncodeError
  end.

Definition system_prompt : str :=
  join_lines [
    pyq "Ты — ассистент по генерации индивидуальных задач для студентов, работающих над проектом в команде. Для каждого студента придумай одну уникальную задачу, подходящую именно для его роли (например, Аналитик, Тестировщик, Менеджер, Дизайнер). Используй специфику роли:";
    pyq "- Аналитик: задачи по анализу требований, ТЗ, исследованию предметной области.";
    pyq "- Тестировщик: задачи по тестированию, написанию тест-кейсов, поиску багов, отчётности о дефектах.";
    pyq "- Менеджер: задачи по координации, контролю сроков, коммуникации, распределению задач.";
    pyq "- Дизайнер: задачи по макетам, прототипам, UI/UX, подготовке графических материалов.";
    pyq "Ответ — строго ОДИН JSON без текста вокруг. Поля:";
    pyq "{`title`: `Коротко, до 5 слов`,`description`: `Подробное, без \n, структурированное описание, на русском`,`status`: `new | in_progress | completed | cancelled`,`priority`: `low | medium | high | critical`,`role`: `роль на русском`,`executor`: `полное имя студента`,`author`: `AI`}";
    pyq "Никаких пояснений, ровно один JSON. Не повторяй формулировки между студентами, особенно title и description."
  ].

Definition user_prompt (document_text student_name role_ru : str) : str :=
  py "Техническое задание:" ++ [NL] ++ document_text ++ [NL; NL]
  ++ py "Студент: " ++ student_name ++ [NL]
  ++ py "Роль: " ++ role_ru ++ [NL]
  ++ py "Придумай индивидуальную задачу, максимально подходящую для этой роли. "
  ++ py "Задача должна быть уникальной (не совпадать с предыдущими), релевантной компетенциям студента и подробно описанной. "
  ++ py "Верни строго валидный JSON. Без комментариев и постороннего текста!".

(** The process: the module-level [CACHE] and the calls of
    [requests.post] made so far, each by its request; a call counts whether
    it returns a response or raises. *)
Record world := {
  CACHE : gmap str pyval;
  sent : list request
}.

(** The process when the script starts: [CACHE = {}], nothing sent. *)
Definition fresh : world := {| CACHE := ∅; sent := [] |}.

(** The set [used_titles]: tuples [(title, description)], compared with
    [==] component by component, in the order they were added. *)
Definition title_set : Type := list (hashable * hashable).

Definition tuple_eqb (a b : hashable * hashable) : bool :=
  py_eqb (fst a) (fst b) && py_eqb (snd a) (snd b).

(** [x in s] *)
Definition set_mem (x : hashable * hashable) (s : title_set) : bool :=
  existsb (tuple_eqb x) s.

(** [s.add(x)] *)
Definition set_add (x : hashable * hashable) (s : title_set) : title_set :=
  if set_mem x s then s else s ++ [x].

(** The remote service: its answer to a request, which may depend on the
    requests it has seen before. *)
Variable remote : list request -> request -> http_outcome.

(** Lines 106 to 111: the title made unique within the batch. *)
Definition make_title_unique (data : pyval) (role_ru : str)
    (used_titles : title_set) : exn + (pyval * title_set) :=
  let* title := getitem_key data (py "title") in
  let* description := getitem_key data (py "description") in
  let* t := hash_of title in
  let* d := hash_of description in
  if set_mem (t, d) used_titles then
    let* text := str_of t in
    let title' := text ++ py " [" ++ role_ru ++ py "]" in
    let* data' := setitem data (py "title") (PStr title') in
    inr (data', set_add (HStr title', d) used_titles)
  else inr (data, set_add (t, d) used_titles).

(** Lines 84 to 95: the request for one student. *)
Definition chat_request (document_text student_name role_ru api_key model : str)
    : request :=
  {| url := py "https://api.mistral.ai/v1/chat/completions";
     authorization := py "Bearer " ++ api_key;
     model := model;
     system_content := system_prompt;
     user_content := user_prompt document_text student_name role_ru;
     timeout := 90 |}.

(** Lines 97 to 103: the answer of the service read as JSON. *)
Definition parse_answer (student_name : str) (o : http_outcome) : exn + pyval :=
  let* raw_text := raw_text_of o in
  let raw_json := extract_json_from_text raw_text in
  match Json.loads raw_json with
  | inl e => inl (ValueError (JsonError student_name raw_text e))
  | inr data => inr data
  end.

(** [generate_task_json]: the outcome, the set [used_titles] and the process
    after the call.  [used_titles] is [None] when the caller passes none. *)
Definition generate_task_json (document_text student_name role_ru api_key model : str)
    (used_titles : option title_set) (w : world)
    : (exn + pyval) * option title_set * world :=
  match cache_key document_text student_name role_ru model with
  | inl e => (inl e, used_titles, w)
  | inr key =>
    match CACHE w !! key with
    | Some cached => (inr cached, used_titles, w)
    | None =>
      let req := chat_request document_text student_name role_ru api_key model in
      let w1 := {| CACHE := CACHE w; sent := sent w ++ [req] |} in
      match parse_answer student_name (remote (sent w) req) with
      | inl e => (inl e, used_titles, w1)
      | inr data =>
        match normalize_json_result data student_name role_ru with
        | inl e => (inl e, used_titles, w1)
        | inr data =>
          match used_titles with
          | None =>
            (inr data, None,
             {| CACHE := <[key := data]> (CACHE w1); sent := sent w1 |})
          | Some used =>
            match make_title_unique data role_ru used with
            | inl e => (inl e, used_titles, w1)
            | inr (data', used') =>
              (inr data', Some used',
               {| CACHE := <[key := data']> (CACHE w1); sent := sent w1 |})
            end
          end
        end
      end
    end
  end.

(** A call of [generate_task_json], by its arguments. *)
Record call := {
  call_document_text : str;
  call_student_name : str;
  call_role_ru : str;
  call_api_key : str;
  call_model : str;
  call_used_titles : option title_set
}.

(** The process after a sequence of calls, whatever they returned. *)
Definition after_calls (cs : list call) (w : world) : world :=
  fold_left
    (fun w c =>
       snd (generate_task_json (call_document_text c) (call_student_name c)
              (call_role_ru c) (call_api_key c) (call_model c)
              (call_used_titles c) w))
    cs w.

(** The loop of the handler: [used_titles = set()] before the first row. *)
Definition call_for_row (document_text api_key model_choice : str)
    (student_name role_ru : str) (s : title_set * world)
    : (exn + pyval) * (title_set * world) :=
  let '(used_titles, w) := s in
  let '(outcome, used', w') :=
    generate_task_json document_text student_name role_ru api_key
                       model_choice (Some used_titles) w in
  (outcome, (default used_titles used', w')).

Definition generate_button (document_text api_key model_choice : str)
    (students : list student) (w : world) : tally (title_set * world) :=
  for_each_row (call_for_row document_text api_key model_choice) students ([], w).

End Script.
End Test7.

(** ** The simpler variant, [test5.py] *)

Module Test5.
Section Script.
Context `{PyRuntime}.

Variable remote : list request -> request -> http_outcome.

Definition system_prompt : str :=
  join_lines [
    pyq "Ты — ассистент, который на основе технического задания формирует одну задачу для конкретного студента.";
    pyq "Тебе необходимо вернуть строго один JSON-объект (никаких текстовых описаний) с точно шестью полями:";
    pyq "  {";
    pyq "    `title`: `<короткий заголовок, не более 5 слов, без лишних символов>`,";
    pyq "    `description`: `<подробное описание задачи на литературном русском>`,";
    pyq "    `status`: `Todo`,";
    pyq "    `role`: `<роль студента на русском, напр. Аналитик>`,";
    pyq "    `executor`: `<полное имя студента>`,";
    pyq "    `author`: `AI`";
    pyq "  }";
    pyq "Критерии:";
    pyq "- title: не более пяти слов, без кавычек внутри, без переносов строк.";
    pyq "- description: литературный русский, может быть длинным, но без символов '\n' внутри.";
    pyq "- status всегда `Todo`.";
    pyq "- role — слово на русском.";
    pyq "- executor — строка с полным именем студента.";
    pyq "- author — строка `AI`.";
    pyq "Никаких дополнительных полей, никаких комментариев, ровно один JSON."
  ].

Definition user_prompt (document_text student_name role_ru : str) : str :=
  py "Техническое задание:" ++ [NL] ++ document_text ++ [NL; NL]
  ++ py "Студент: " ++ student_name ++ [NL]
  ++ py "Роль: " ++ role_ru ++ [NL]
  ++ py "Пожалуйста, верни JSON с задачей.".

Definition required_fields : list str :=
  [py "title"; py "description"; py "status"; py "role"; py "executor";
   py "author"].

(** Lines 46 to 88: the request for one student. *)
Definition chat_request (document_text student_name role_ru api_key model : str)
    : request :=
  {| url := py "https://api.mistral.ai/v1/chat/completions";
     authorization := py "Bearer " ++ api_key;
     model := model;
     system_content := system_prompt;
     user_content := user_prompt document_text student_name role_ru;
     timeout := 60 |}.

(** [generate_task_json]: the outcome and the requests sent after the
    call; this script keeps no other state. *)
Definition generate_task_json (document_text student_name role_ru api_key model : str)
    (sent : list request) : (exn + pyval) * list request :=
  match api_key with
  | [] => (inl (ValueError ApiKeyNotSet), sent)
  | _ :: _ =>
    let req := chat_request document_text student_name role_ru api_key model in
    let sent1 := sent ++ [req] in
    match raw_text_of (remote sent req) with
    | inl e => (inl e, sent1)
    | inr raw_text =>
      match Json.loads raw_text with
      | inl JSONDecodeError =>
        (inl (ValueError (CannotParse student_name raw_text JSONDecodeError)), sent1)
      | inl e => (inl e, sent1)
      | inr data =>
        match data with
        | PDict d =>
          if forallb (fun k => dict_has k d) required_fields
          then (inr data, sent1)
          else (inl (ValueError (RequiredFieldsMissing student_name raw_text)), sent1)
        | _ => (inl AttributeError, sent1)
        end
      end
    end
  end.

Definition call_for_row (document_text api_key model_choice : str)
    (student_name role_ru : str) (sent : list request)
    : (exn + pyval) * list request :=
  generate_task_json document_text student_name role_ru api_key model_choice sent.

Definition generate_button (document_text api_key model_choice : str)
    (students : list student) (sent : list request) : tally (list request) :=
  for_each_row (call_for_row document_text api_key model_choice) students sent.

End Script.
End Test5.

(** ** The document reader and the button handler

    [extract_text_from_docx] and the handler of the button are the same text
    in both scripts, up to the call of [generate_task_json] in the loop. *)

(** An uploaded DOCX file: [None] when [docx.Document] cannot open it,
    otherwise the texts of its paragraphs, in order. *)
Definition docx_file : Type := option (list str).

(** [extract_text_from_docx]: the stripped texts of the paragraphs that are
    not blank, joined by line feeds; the empty string for a file that cannot
    be opened (the message shown then is display only). *)
Definition extract_text_from_docx (file : docx_file) : str :=
  match file with
  | None => []
  | Some doc_paragraphs =>
    let paragraphs :=
      map strip (filter (fun text => strip text <> []) doc_paragraphs) in
    join_lines paragraphs
  end.

(** What [pd.read_csv] returns: the column labels and the rows, each with
    its label in the index and its cells as [str(...)] renders them. *)
Record dataframe := {
  columns : list str;
  table_rows : list (index_label * list str)
}.

(** [df.empty]: no row or no column. *)
Definition df_empty (df : dataframe) : bool :=
  match table_rows df, columns df with
  | [], _ | _, [] => true
  | _, _ => false
  end.

(** [row[label]] for a label among the columns. *)
Definition cell (df : dataframe) (row : list str) (label : str) : str :=
  match list_find (fun c => c = label) (columns df) with
  | Some (i, _) => default [] (row !! i)
  | None => []
  end.

(** The rows the loop iterates over, by their labels and their two
    cells. *)
Definition students_of (df : dataframe) : list student :=
  map (fun '(label, row) =>
         {| idx := label;
            student_name_cell := cell df row (py "student_name");
            role_cell := cell df row (py "role") |})
      (table_rows df).

(** What the page holds when the script runs: whether the button was
    pressed, the two uploads ([None] for none; for the CSV, [Some None] when
    [pd.read_csv] raises), the key typed in the sidebar, the environment
    variable and the model chosen. *)
Record inputs := {
  button_pressed : bool;
  uploaded_docx : option docx_file;
  uploaded_csv : option (option dataframe);
  api_key_input : str;
  MISTRAL_API_KEY : option str;
  model_choice : str
}.

(** What the handler shows in the end: nothing, one of its five error
    messages, the outcome of the batch, or, when the loop has ended with an
    exception, that exception in place of any outcome. *)
Inductive shown `{PyRuntime} :=
| NothingToDo
| DocxMissing
| CsvMissing
| ApiKeyMissing
| NoTextInDocx
| WrongCsvStructure
| GenerationFinished (results : list pyval) (errors : list error_line)
| Uncaught (e : exn).

(** [api_key_input.strip() or os.getenv("MISTRAL_API_KEY", "")] *)
Definition effective_api_key (i : inputs) : str :=
  match strip (api_key_input i) with
  | [] => default [] (MISTRAL_API_KEY i)
  | key => key
  end.

Section Handler.
Context `{PyRuntime} {St T : Type}.

(** The loop of the script, for a document, a key, a model and a roster,
    and the process it leaves. *)
Variable batch : str -> str -> str -> list student -> St -> tally T.
Variable process_of : T -> St.

(** The handler, from [if generate_button:] to the end of the loop: what
    is shown and the process afterwards. *)
Definition button_handler (i : inputs) (s : St) : shown * St :=
  if negb (button_pressed i) then (NothingToDo, s)
  else
    match uploaded_docx i, uploaded_csv i with
    | None, _ => (DocxMissing, s)
    | Some _, None => (CsvMissing, s)
    | Some docx, Some csv =>
      let api_key := effective_api_key i in
      match api_key with
      | [] => (ApiKeyMissing, s)
      | _ :: _ =>
        let document_text := extract_text_from_docx docx in
        match document_text with
        | [] => (NoTextInDocx, s)
        | _ :: _ =>
          let df_students :=
            default {| columns := []; table_rows := [] |} csv in
          if df_empty df_students
             || negb (bool_decide (py "student_name" ∈ columns df_students))
             || negb (bool_decide (py "role" ∈ columns df_students))
          then (WrongCsvStructure, s)
          else
            let t :=
              batch document_text api_key (model_choice i)
                    (students_of df_students) s in
            match uncaught t with
            | Some e => (Uncaught e, process_of (process t))
            | None =>
              (GenerationFinished (results t) (errors t), process_of (process t))
            end
        end
      end
    end.

End Handler.

(** The handler of the extended variant: the batch starts with an empty
    set of used titles, which is dropped when the loop ends. *)
Definition extended_handler `{PyRuntime}
    (remote : list request -> request -> http_outcome)
    (i : inputs) (w : Test7.world) : shown * Test7.world :=
  button_handler (Test7.generate_button remote) snd i w.

(** The handler of the simpler variant. *)
Definition simple_handler `{PyRuntime}
    (remote : list request -> request -> http_outcome)
    (i : inputs) (sent : list request) : shown * list request :=
  button_handler (Test5.generate_button remote) id i sent.

(** The key set [normalize_json_result] leaves: [k] is added at the end of
    [keys] when it is not among them. *)
Definition with_key (keys : list str) (k : str) : list str :=
  if bool_decide (k ∈ keys) then keys else keys ++ [k].

(** ** Data for the closed examples *)

Module Demo.

(** An interpreter for closed examples: a float is kept as the text it was
    read from, and equals only a float read from the same text. *)
Definition text_floats : PyRuntime :=
  {| pyfloat := str;
     float_of_str := fun s => s;
     float_eqb := fun a b => bool_decide (a = b);
     float_eq_int := fun _ _ => false;
     float_str := fun s => s;
     recursion_limit := 1000;
     int_max_str_digits := 4300 |}.

(** A stub of the remote service for closed examples: status 200 and the
    envelope around [content], whatever the request. *)
Definition json_escape (s : str) : str :=
  flat_map (fun c =>
              if c =? 34 then [92; 34]
              else if c =? 92 then [92; 92]
              else if c =? 10 then [92; 110]
              else [c]) s.

Definition answering (content : str) : list request -> request -> http_outcome :=
  fun _ _ =>
    Response 200
      (pyq "{`choices`:[{`message`:{`content`:`" ++ json_escape content
         ++ pyq "`}}]}").

Definition document : str := py "Build a reporting dashboard".
Definition api_key : str := py "secret".
Definition model : str := py "mistral-small".


(** A bare object with a title that holds a line break. *)
Definition bare_answer : str :=
  pyq "{`title`:`Collect\nrequirements `,`description`:`D`,`status`:`new`,`priority`:`high`}".

(** A bare object with the six fields of the simpler variant and a status
    of its own. *)
Definition done_answer : str :=
  pyq "{`title`:`X`,`description`:`Y`,`status`:`Done`,`role`:`R`,`executor`:`E`,`author`:`AI`}".

(** An answer with no field at all. *)
Definition empty_answer : str := py "{}".

(** Two documents that differ after their first 1000 characters. *)
Definition long_document (last : N) : str := repeat 97 1000 ++ [last].

(** A service that answers its second request with status 500. *)
Definition second_fails (content : str) : list request -> request -> http_outcome :=
  fun sent req =>
    if (length sent =? 1)%nat then Response 500 [] else answering content sent req.

Definition roster : list student :=
  [{| idx := IntLabel 0;
      student_name_cell := py "Иван Иванов"; role_cell := py "Analyst" |};
   {| idx := IntLabel 1;
      student_name_cell := py " Мария Петрова "; role_cell := py "Tester" |};
   {| idx := IntLabel 2;
      student_name_cell := py "Alex"; role_cell := py "Architect" |}].


(** A service that cannot be reached. *)
Definition unreachable : list request -> request -> http_outcome :=
  fun _ _ => NoResponse.

End Demo.

(** * Properties *)

(** Two key literals differ. *)
Ltac key_ne := let E := fresh in intro E; vm_compute in E; discriminate E.

(** ** The decoder always stops, and not on its bounds *)

Section DecoderFacts.
Context `{PyRuntime}.

Lemma skip_ws_length (s : str) : (length (Json.skip_ws s) <= length s)%nat.
Proof.
  induction s as [|c s IH]; simpl; [done|].
  destruct (Json.is_ws c); simpl; lia.
Qed.

Lemma tail_length (s : str) : (length (tail s) <= length s)%nat.
Proof. destruct s; simpl; lia. Qed.

Lemma next_is_length (c : N) (s : str) :
  Json.next_is c s = true -> (length (tail s) < length s)%nat.
Proof. destruct s; simpl; [done|lia]. Qed.

Lemma span_digits_length (s : str) :
  (length (snd (Json.span_digits s)) <= length s)%nat.
Proof.
  induction s as [|c s IH]; simpl; [done|].
  destruct (Json.is_digit c); simpl; [|lia].
  destruct (Json.span_digits s). simpl in *. lia.
Qed.

Lemma strip_prefix_length (p s r : str) :
  Json.strip_prefix p s = Some r -> (length r + length p = length s)%nat.
Proof.
  revert s. induction p as [|a p IH]; intros [|b s]; simpl; try done.
  - by intros [= <-].
  - by intros [= <-].
  - destruct (a =? b); [|done]. intros Hr%IH. lia.
Qed.

Lemma match_frac_length (s : str) :
  (length (snd (Json.match_frac s)) <= length s)%nat.
Proof.
  unfold Json.match_frac. destruct s as [|dot [|d r]]; simpl; try lia.
  destruct (_ && _); simpl; [|lia].
  pose proof (span_digits_length r). destruct (Json.span_digits r). simpl in *. lia.
Qed.

Lemma match_exp_length (s : str) :
  (length (snd (Json.match_exp s)) <= length s)%nat.
Proof.
  unfold Json.match_exp.
  repeat case_match; simpl; try lia;
    match goal with
    | Hd : Json.span_digits ?r = (_, ?r') |- _ =>
      pose proof (span_digits_length r) as Hlen; rewrite Hd in Hlen;
      simpl in *; lia
    end.
Qed.

Lemma match_number_length (s r : str) (v : exn + pyval) :
  Json.match_number s = Some (v, r) -> (length r < length s)%nat.
Proof.
  unfold Json.match_number.
  destruct (Json.match_integer s) as [[int_part r0]|] eqn:Hint; [|done].
  assert (Hr0 : (length r0 < length s)%nat).
  { unfold Json.match_integer in Hint.
    destruct s as [|c s]; [done|].
    destruct (c =? 45).
    - destruct s as [|c' s]; [done|].
      destruct (c' =? 48); [injection Hint as _ <-; simpl; lia|].
      destruct (Json.is_digit c'); [|done].
      pose proof (span_digits_length s). destruct (Json.span_digits s).
      injection Hint as _ <-. simpl in *. lia.
    - destruct (c =? 48); [injection Hint as _ <-; simpl; lia|].
      destruct (Json.is_digit c); [|done].
      pose proof (span_digits_length s). destruct (Json.span_digits s).
      injection Hint as _ <-. simpl in *. lia. }
  pose proof (match_frac_length r0) as Hfrac.
  destruct (Json.match_frac r0) as [frac r1].
  pose proof (match_exp_length r1) as Hexp.
  destruct (Json.match_exp r1) as [exp r2]. simpl in *.
  intros Hres. assert (r = r2) as -> by (repeat case_match; congruence). lia.
Qed.

Lemma cons_char_length (c : N) (res : exn + (str * str)) (t r : str) (n : nat) :
  Json.cons_char c res = inr (t, r) ->
  (forall t' r', res = inr (t', r') -> (length r' < n)%nat) ->
  (length r < n)%nat.
Proof.
  unfold Json.cons_char. destruct res as [e|[t' r']]; [done|].
  intros [= _ <-] Hres. by eapply Hres.
Qed.

Lemma scanstring_length_bounded (n : nat) (s t r : str) :
  (length s <= n)%nat -> Json.scanstring s = inr (t, r) ->
  (length r < length s)%nat.
Proof.
  revert s t r. induction n as [|n IH]; intros s t r Hn.
  - destruct s; [done | simpl in Hn; lia].
  - destruct s as [|c s]; [done|]. cbn [Json.scanstring].
    repeat case_match; try done;
      try (intros [= _ <-]; simpl; lia);
      intros Hres;
      (eapply cons_char_length; [exact Hres|]);
      intros t' r' Hrec; apply IH in Hrec; simpl in *; lia.
Qed.

Lemma scanstring_length (s t r : str) :
  Json.scanstring s = inr (t, r) -> (length r < length s)%nat.
Proof. by apply (scanstring_length_bounded (length s)). Qed.

Lemma parse_elements_length (scan : str -> exn + (pyval * str)) (k : nat)
    (s r : str) (acc : list pyval) (v : pyval) :
  Json.consumes scan ->
  Json.parse_elements scan k s acc = inr (v, r) -> (length r < length s)%nat.
Proof.
  intros Hscan. revert s acc. induction k as [|k IH]; intros s acc; [done|].
  cbn [Json.parse_elements].
  destruct (scan s) as [e|[v0 r0]] eqn:Hv; [done|]. apply Hscan in Hv.
  pose proof (skip_ws_length r0) as Hws.
  pose proof (tail_length (Json.skip_ws r0)) as Htl.
  cbn zeta. destruct (Json.next_is 93 _).
  - intros [= _ <-]. lia.
  - destruct (Json.next_is 44 _); [|done].
    intros Hrec%IH.
    pose proof (skip_ws_length (tail (Json.skip_ws r0))). lia.
Qed.

Lemma parse_members_length (scan : str -> exn + (pyval * str)) (k : nat)
    (s r : str) (acc : list (str * pyval)) (v : pyval) :
  Json.consumes scan ->
  Json.parse_members scan k s acc = inr (v, r) -> (length r < length s)%nat.
Proof.
  intros Hscan. revert s acc. induction k as [|k IH]; intros s acc; [done|].
  cbn [Json.parse_members].
  destruct (Json.next_is 34 s) eqn:Hquote; [|done].
  apply next_is_length in Hquote.
  destruct (Json.scanstring (tail s)) as [e|[key r1]] eqn:Hkey; [done|].
  apply scanstring_length in Hkey.
  pose proof (skip_ws_length r1) as Hws1. cbn zeta.
  destruct (Json.next_is 58 _); [|done].
  pose proof (tail_length (Json.skip_ws r1)) as Htl1.
  pose proof (skip_ws_length (tail (Json.skip_ws r1))) as Hws2.
  destruct (scan _) as [e|[v0 r3]] eqn:Hv; [done|]. apply Hscan in Hv.
  pose proof (skip_ws_length r3) as Hws3.
  pose proof (tail_length (Json.skip_ws r3)) as Htl3.
  destruct (Json.next_is 125 _).
  - intros [= _ <-]. lia.
  - destruct (Json.next_is 44 _); [|done].
    intros Hrec%IH.
    pose proof (skip_ws_length (tail (Json.skip_ws r3))). lia.
Qed.

Lemma scan_scalar_length (s r : str) (v : pyval) :
  match Json.strip_prefix (py "null") s, Json.strip_prefix (py "true") s,
        Json.strip_prefix (py "false") s with
  | Some r1, _, _ => inr (PNone, r1)
  | _, Some r1, _ => inr (PBool true, r1)
  | _, _, Some r1 => inr (PBool false, r1)
  | None, None, None =>
    match Json.match_number s with
    | Some (number, r1) => let* v := number in inr (v, r1)
    | None =>
      match Json.strip_prefix (py "NaN") s, Json.strip_prefix (py "Infinity") s,
            Json.strip_prefix (py "-Infinity") s with
      | Some r1, _, _ => inr (PFloat (float_of_str (py "nan")), r1)
      | _, Some r1, _ => inr (PFloat (float_of_str (py "inf")), r1)
      | _, _, Some r1 => inr (PFloat (float_of_str (py "-inf")), r1)
      | None, None, None => @inl exn (pyval * str) JSONDecodeError
      end
    end
  end = inr (v, r) ->
  (length r < length s)%nat.
Proof.
  repeat case_match; try done; intros Heq; simplify_eq;
    repeat match goal with
           | Hp : Json.strip_prefix ?p _ = Some _ |- _ =>
             apply strip_prefix_length in Hp;
             let n := eval vm_compute in (length p) in
             change (length p) with n in Hp
           | Hn : Json.match_number _ = Some _ |- _ =>
             apply match_number_length in Hn
           end; lia.
Qed.

Lemma scan_once_consumes (depth : nat) : Json.consumes (Json.scan_once depth).
Proof.
  induction depth as [|depth IH]; intros s v r;
    (destruct s as [|c s]; [done|]); cbn [Json.scan_once];
    pose proof (skip_ws_length s) as Hws;
    pose proof (tail_length (Json.skip_ws s)) as Htl;
    (destruct (c =? 34);
     [destruct (Json.scanstring s) as [e|[t r1]] eqn:Hs; [done|];
      apply scanstring_length in Hs; intros [= _ <-]; simpl; lia|]);
    (destruct (c =? 123); [|destruct (c =? 91)]);
    try done; try apply scan_scalar_length.
  - cbn zeta. destruct (Json.next_is 125 _); [intros [= _ <-]; simpl; lia|].
    intros Hm%parse_members_length; [simpl; lia | exact IH].
  - cbn zeta. destruct (Json.next_is 93 _); [intros [= _ <-]; simpl; lia|].
    intros He%parse_elements_length; [simpl; lia | exact IH].
Qed.

Lemma scan_once_end (depth : nat) : Json.scan_once depth [] = inl JSONDecodeError.
Proof. by destruct depth. Qed.

(** The bound on the number of members is never what stops the loop: any
    bound of at least the length of the text gives the same result. *)
Lemma parse_members_fuel (scan : str -> exn + (pyval * str)) (k k' : nat)
    (s : str) (acc : list (str * pyval)) :
  Json.consumes scan ->
  (length s <= k)%nat -> (length s <= k')%nat ->
  Json.parse_members scan k s acc = Json.parse_members scan k' s acc.
Proof.
  intros Hscan. revert k' s acc.
  induction k as [|k IH]; intros k' s acc Hk Hk'.
  - destruct s; [|simpl in Hk; lia]. by destruct k'.
  - destruct k' as [|k'].
    { destruct s; [done | simpl in Hk'; lia]. }
    cbn [Json.parse_members].
    destruct (Json.next_is 34 s) eqn:Hquote; [|done].
    apply next_is_length in Hquote.
    destruct (Json.scanstring (tail s)) as [e|[key r1]] eqn:Hkey; [done|].
    apply scanstring_length in Hkey.
    pose proof (skip_ws_length r1) as Hws1. cbn zeta.
    destruct (Json.next_is 58 _); [|done].
    pose proof (tail_length (Json.skip_ws r1)) as Htl1.
    pose proof (skip_ws_length (tail (Json.skip_ws r1))) as Hws2.
    destruct (scan _) as [e|[v0 r3]] eqn:Hv; [done|]. apply Hscan in Hv.
    pose proof (skip_ws_length r3) as Hws3.
    pose proof (tail_length (Json.skip_ws r3)) as Htl3.
    destruct (Json.next_is 125 _); [done|].
    destruct (Json.next_is 44 _); [|done].
    pose proof (skip_ws_length (tail (Json.skip_ws r3))).
    apply IH; lia.
Qed.

Lemma parse_elements_fuel (scan : str -> exn + (pyval * str)) (k k' : nat)
    (s : str) (acc : list pyval) :
  Json.consumes scan -> scan [] = inl JSONDecodeError ->
  (length s <= k)%nat -> (length s <= k')%nat ->
  Json.parse_elements scan k s acc = Json.parse_elements scan k' s acc.
Proof.
  intros Hscan Hend. revert k' s acc.
  induction k as [|k IH]; intros k' s acc Hk Hk'.
  - destruct s; [|simpl in Hk; lia]. destruct k'; [done|].
    cbn [Json.parse_elements]. by rewrite Hend.
  - destruct k' as [|k'].
    { destruct s; [|simpl in Hk'; lia]. cbn [Json.parse_elements].
      by rewrite Hend. }
    cbn [Json.parse_elements].
    destruct (scan s) as [e|[v0 r0]] eqn:Hv; [done|]. apply Hscan in Hv.
    pose proof (skip_ws_length r0) as Hws.
    pose proof (tail_length (Json.skip_ws r0)) as Htl.
    cbn zeta. destruct (Json.next_is 93 _); [done|].
    destruct (Json.next_is 44 _); [|done].
    pose proof (skip_ws_length (tail (Json.skip_ws r0))).
    apply IH; lia.
Qed.

(** The loops of [scan_once] are given the length of the text as their
    bound; a larger one would change nothing. *)
Lemma scan_once_members_bound (depth k : nat) (s : str) :
  (length s <= k)%nat ->
  Json.parse_members (Json.scan_once depth) k s []
  = Json.parse_members (Json.scan_once depth) (length s) s [].
Proof.
  intros Hk. apply parse_members_fuel; [apply scan_once_consumes | lia | lia].
Qed.

Lemma scan_once_elements_bound (depth k : nat) (s : str) :
  (length s <= k)%nat ->
  Json.parse_elements (Json.scan_once depth) k s []
  = Json.parse_elements (Json.scan_once depth) (length s) s [].
Proof.
  intros Hk.
  apply parse_elements_fuel;
    [apply scan_once_consumes | apply scan_once_end | lia | lia].
Qed.

End DecoderFacts.


(** ** Strings and dicts *)

Section StringFacts.

Lemma elem_of_lstrip (c : N) (s : str) : c ∈ lstrip s -> c ∈ s.
Proof.
  induction s as [|a s IH]; simpl; [done|].
  destruct (isspace a); [|done].
  intros Hc. right. by apply IH.
Qed.

Lemma elem_of_rstrip (c : N) (s : str) : c ∈ rstrip s -> c ∈ s.
Proof.
  induction s as [|a s IH]; simpl; [done|].
  destruct (rstrip s) as [|b r] eqn:E.
  - destruct (isspace a); [by intros ?%elem_of_nil|].
    intros ->%list_elem_of_singleton. left.
  - intros [->|Hc]%elem_of_cons; [left|right; by apply IH].
Qed.

Lemma elem_of_strip (c : N) (s : str) : c ∈ strip s -> c ∈ s.
Proof. intros Hc. by apply elem_of_lstrip, elem_of_rstrip. Qed.

Lemma replace_removes (old new : N) (s : str) :
  old ≠ new -> old ∉ replace old new s.
Proof.
  intros Hne [c [Hc Hin]]%list_elem_of_fmap.
  destruct (N.eqb_spec c old); simpl in *; naive_solver.
Qed.

Lemma replace_keeps_out (c old new : N) (s : str) :
  c ≠ new -> c ∉ s -> c ∉ replace old new s.
Proof.
  intros Hne Hout [a [Ha Hin]]%list_elem_of_fmap.
  destruct (N.eqb_spec a old); simpl in *; naive_solver.
Qed.

Lemma head_lstrip (c : N) (s : str) : head (lstrip s) = Some c -> isspace c = false.
Proof.
  induction s as [|a s IH]; simpl; [done|].
  destruct (isspace a) eqn:E; [done|].
  simpl. intros [= <-]. exact E.
Qed.

Lemma head_rstrip (c : N) (s : str) :
  head (rstrip s) = Some c -> head s = Some c.
Proof.
  destruct s as [|a s]; simpl; [done|].
  destruct (rstrip s); [destruct (isspace a)|]; simpl; congruence.
Qed.

Lemma last_rstrip (c : N) (s : str) : last (rstrip s) = Some c -> isspace c = false.
Proof.
  induction s as [|a s IH]; simpl; [done|].
  destruct (rstrip s) as [|b r] eqn:E.
  - destruct (isspace a) eqn:Ha; simpl; [done|]. by intros [= <-].
  - rewrite last_cons. destruct (last (b :: r)) eqn:El.
    + intros [= <-]. by apply IH.
    + by apply last_None in El.
Qed.

Lemma strip_trimmed (c : N) (s : str) :
  head (strip s) = Some c \/ last (strip s) = Some c -> isspace c = false.
Proof.
  unfold strip. intros [Hh|Hl].
  - by apply head_rstrip, head_lstrip in Hh.
  - by apply last_rstrip in Hl.
Qed.

Lemma without_line_breaks_clean (s : str) :
  (NL ∉ Test7.without_line_breaks s) /\ (CR ∉ Test7.without_line_breaks s).
Proof.
  unfold Test7.without_line_breaks. split; intros Hin%elem_of_strip; revert Hin.
  - apply replace_keeps_out; [done|]. by apply replace_removes.
  - by apply replace_removes.
Qed.

End StringFacts.

Section DictFacts.
Context `{PyRuntime}.

Lemma dict_get_set_eq k v (d : list (str * pyval)) :
  dict_get k (dict_set k v d) = Some v.
Proof.
  induction d as [|[k' v'] d IH]; simpl.
  - by rewrite decide_True.
  - destruct (decide (k = k')) as [->|Hne]; simpl.
    + by rewrite decide_True.
    + by rewrite decide_False.
Qed.

Lemma dict_get_set_ne k k' v (d : list (str * pyval)) :
  k ≠ k' -> dict_get k' (dict_set k v d) = dict_get k' d.
Proof.
  intros Hne. induction d as [|[k0 v0] d IH]; simpl.
  - by rewrite decide_False.
  - destruct (decide (k = k0)) as [->|Hk]; simpl.
    + by rewrite !decide_False.
    + destruct (decide (k' = k0)); [done | apply IH].
Qed.

Lemma strip_line_breaks_other key k (d : list (str * pyval)) :
  key ≠ k -> dict_get k (Test7.strip_line_breaks d key) = dict_get k d.
Proof.
  intros Hne. unfold Test7.strip_line_breaks.
  destruct (dict_get key d) as [[]|]; try done.
  by apply dict_get_set_ne.
Qed.

Lemma strip_line_breaks_same key (d : list (str * pyval)) :
  dict_get key (Test7.strip_line_breaks d key) = Test7.cleaned (dict_get key d).
Proof.
  unfold Test7.strip_line_breaks, Test7.cleaned.
  destruct (dict_get key d) as [[]|] eqn:E; try done.
  apply dict_get_set_eq.
Qed.

End DictFacts.

Section Normalization.
Context `{PyRuntime}.

Ltac choice_member :=
  match goal with
  | |- _ ∈ _ => apply (bool_decide_unpack _); vm_compute; exact I
  end.

Ltac dict_frame :=
  repeat first
    [ rewrite strip_line_breaks_other by key_ne
    | rewrite strip_line_breaks_same
    | rewrite dict_get_set_eq
    | rewrite dict_get_set_ne by key_ne ].

(** Every field of the normalized record, in terms of the parsed answer. *)
Lemma normalize_fields (d : list (str * pyval)) (student_name role_ru : str) :
  exists r,
    Test7.normalize_json_result (PDict d) student_name role_ru = inr (PDict r)
    /\ dict_get (py "role") r = Some (PStr role_ru)
    /\ dict_get (py "executor") r = Some (PStr student_name)
    /\ dict_get (py "author") r = Some (PStr (py "AI"))
    /\ dict_get (py "status") r =
         (if in_choices (dict_get (py "status") d) Test7.STATUS_CHOICES
          then dict_get (py "status") d else Some (PStr (py "new")))
    /\ dict_get (py "priority") r =
         (if in_choices (dict_get (py "priority") d) Test7.PRIORITY_CHOICES
          then dict_get (py "priority") d else Some (PStr (py "medium")))
    /\ dict_get (py "title") r = Test7.cleaned (dict_get (py "title") d)
    /\ dict_get (py "description") r = Test7.cleaned (dict_get (py "description") d).
Proof.
  unfold Test7.normalize_json_result.
  set (d3 := dict_set (py "author") _ _).
  assert (Hs3 : dict_get (py "status") d3 = dict_get (py "status") d)
    by (subst d3; dict_frame; reflexivity).
  assert (Hp3 : dict_get (py "priority") d3 = dict_get (py "priority") d)
    by (subst d3; dict_frame; reflexivity).
  rewrite Hs3.
  set (d4 := if in_choices (dict_get (py "status") d) _ then d3 else _).
  assert (Hp4 : dict_get (py "priority") d4 = dict_get (py "priority") d)
    by (subst d4; case_match; dict_frame; exact Hp3).
  rewrite Hp4.
  set (d5 := if in_choices (dict_get (py "priority") d) _ then d4 else _).
  eexists. split; [reflexivity|]. cbn [fold_left].
  subst d5 d4 d3.
  repeat split; repeat case_match; dict_frame; reflexivity.
Qed.

(** C2: whatever the parsed answer holds under role, executor and author,
    or if it holds nothing there, the normalized record has the student's
    name as executor, the localized role as role and "AI" as author. *)
Theorem normalize_forces_identity_fields (d : list (str * pyval)) (student_name role_ru : str) :
  exists r,
    Test7.normalize_json_result (PDict d) student_name role_ru = inr (PDict r)
    /\ dict_get (py "executor") r = Some (PStr student_name)
    /\ dict_get (py "role") r = Some (PStr role_ru)
    /\ dict_get (py "author") r = Some (PStr (py "AI")).
Proof.
  destruct (normalize_fields d student_name role_ru)
    as (r & Hr & Hrole & Hexec & Hauthor & _).
  exists r. auto.
Qed.

(** C6: the status of the normalized record is one of [STATUS_CHOICES]: the
    status of the answer when that is one of them, "new" when it is anything
    else or missing.  Likewise its priority is one of [PRIORITY_CHOICES],
    "medium" when the answer has no valid one. *)
Theorem normalize_status_priority_in_enum (d : list (str * pyval)) (student_name role_ru : str) :
  exists r,
    Test7.normalize_json_result (PDict d) student_name role_ru = inr (PDict r)
    /\ (exists s,
          dict_get (py "status") r = Some (PStr s)
          /\ s ∈ Test7.STATUS_CHOICES
          /\ (if in_choices (dict_get (py "status") d) Test7.STATUS_CHOICES
              then dict_get (py "status") d = Some (PStr s)
              else s = py "new"))
    /\ (exists p,
          dict_get (py "priority") r = Some (PStr p)
          /\ p ∈ Test7.PRIORITY_CHOICES
          /\ (if in_choices (dict_get (py "priority") d) Test7.PRIORITY_CHOICES
              then dict_get (py "priority") d = Some (PStr p)
              else p = py "medium")).
Proof.
  destruct (normalize_fields d student_name role_ru)
    as (r & Hr & _ & _ & _ & Hstatus & Hpriority & _).
  exists r. split; [exact Hr|]. rewrite Hstatus, Hpriority. split.
  - destruct (in_choices (dict_get (py "status") d) _) eqn:Hin.
    + destruct (dict_get (py "status") d) as [[]|]; try discriminate Hin.
      apply bool_decide_eq_true in Hin. eauto.
    + exists (py "new"). repeat split. choice_member.
  - destruct (in_choices (dict_get (py "priority") d) _) eqn:Hin.
    + destruct (dict_get (py "priority") d) as [[]|]; try discriminate Hin.
      apply bool_decide_eq_true in Hin. eauto.
    + exists (py "medium"). repeat split. choice_member.
Qed.


(** C7: a title or a description that the answer gives as a string comes out
    of the normalization with every line feed and carriage return replaced by
    a space and the white space at both ends removed: it holds no line feed
    and no carriage return, and neither begins nor ends with white space. *)
Theorem normalize_removes_newlines (d : list (str * pyval))
    (student_name role_ru key s : str) :
  key = py "title" \/ key = py "description" ->
  dict_get key d = Some (PStr s) ->
  exists r t,
    Test7.normalize_json_result (PDict d) student_name role_ru = inr (PDict r)
    /\ dict_get key r = Some (PStr t)
    /\ t = strip (replace CR SPACE (replace NL SPACE s))
    /\ (NL ∉ t) /\ (CR ∉ t)
    /\ (forall c, head t = Some c \/ last t = Some c -> isspace c = false).
Proof.
  intros Hkey Hget.
  destruct (normalize_fields d student_name role_ru)
    as (r & Hr & _ & _ & _ & _ & _ & Htitle & Hdescription).
  exists r, (Test7.without_line_breaks s).
  split; [exact Hr|]. split.
  - destruct Hkey as [-> | ->]; [rewrite Htitle | rewrite Hdescription];
      by rewrite Hget.
  - split; [reflexivity|].
    destruct (without_line_breaks_clean s) as [Hnl Hcr].
    repeat split; [exact Hnl | exact Hcr |].
    intros c. apply strip_trimmed.
Qed.

End Normalization.

(** ** The request cache of the extended variant *)

Section Cache.
Context `{PyRuntime}.
Variable remote : list request -> request -> http_outcome.

#[local] Abbreviation generate := (Test7.generate_task_json remote).

(** A record the cache holds under the computed key is what the call
    returns; nothing else happens. *)
Lemma generate_hit (document_text student_name role_ru api_key model key : str)
    (used_titles : option Test7.title_set) (w : Test7.world) (cached : pyval) :
  Test7.cache_key document_text student_name role_ru model = inr key ->
  Test7.CACHE w !! key = Some cached ->
  generate document_text student_name role_ru api_key model used_titles w
  = (inr cached, used_titles, w).
Proof.
  intros Hkey Hcached. unfold Test7.generate_task_json.
  by rewrite Hkey, Hcached.
Qed.

(** A call never changes or removes an entry the cache already holds. *)
Lemma generate_keeps_entries (document_text student_name role_ru api_key model : str)
    (used_titles : option Test7.title_set) (w : Test7.world) (k : str) (r : pyval) :
  Test7.CACHE w !! k = Some r ->
  Test7.CACHE
    (snd (generate document_text student_name role_ru api_key model used_titles w))
    !! k = Some r.
Proof.
  intros Hk. unfold Test7.generate_task_json.
  repeat case_match; simpl; try exact Hk;
    (rewrite lookup_insert_ne; [exact Hk | congruence]).
Qed.

Lemma after_calls_keeps_entries (cs : list Test7.call) (w : Test7.world)
    (k : str) (r : pyval) :
  Test7.CACHE w !! k = Some r ->
  Test7.CACHE (Test7.after_calls remote cs w) !! k = Some r.
Proof.
  revert w. induction cs as [|c cs IH]; intros w Hk; [exact Hk|].
  apply IH. by apply generate_keeps_entries.
Qed.

(** A returned record is in the cache afterwards, under the key of the call. *)
Lemma generate_caches_result (document_text student_name role_ru api_key model : str)
    (used_titles used_titles' : option Test7.title_set) (w w' : Test7.world)
    (r : pyval) :
  generate document_text student_name role_ru api_key model used_titles w
  = (inr r, used_titles', w') ->
  exists key,
    Test7.cache_key document_text student_name role_ru model = inr key
    /\ Test7.CACHE w' !! key = Some r.
Proof.
  unfold Test7.generate_task_json. intros Hcall.
  destruct (Test7.cache_key _ _ _ _) as [e|key]; [by inversion Hcall|].
  exists key. split; [reflexivity|].
  repeat case_match; inversion Hcall; subst; simpl;
    first [assumption | apply lookup_insert_eq].
Qed.

Lemma cache_key_prefix (doc1 doc2 student_name role_ru model : str) :
  slice_to 1000 doc1 = slice_to 1000 doc2 ->
  Test7.cache_key doc1 student_name role_ru model
  = Test7.cache_key doc2 student_name role_ru model.
Proof. intros Hprefix. unfold Test7.cache_key. by rewrite Hprefix. Qed.

(** C1: two calls that agree on the first 1000 characters of the document,
    the student name, the role and the model.  Once the first has returned a
    record, the second returns the same record, whatever calls were made in
    between, and leaves the process as it found it: the cache is unchanged
    and no request is added to the ones sent. *)
Theorem second_call_returns_cached_record
    (doc1 doc2 student_name role_ru model key1 key2 : str)
    (used1 used1' used2 : option Test7.title_set) (w w1 : Test7.world)
    (between : list Test7.call) (r : pyval) :
  slice_to 1000 doc1 = slice_to 1000 doc2 ->
  generate doc1 student_name role_ru key1 model used1 w = (inr r, used1', w1) ->
  let w2 := Test7.after_calls remote between w1 in
  generate doc2 student_name role_ru key2 model used2 w2 = (inr r, used2, w2).
Proof.
  intros Hprefix Hfirst w2.
  destruct (generate_caches_result _ _ _ _ _ _ _ _ _ _ Hfirst) as (key & Hkey & Hr).
  apply generate_hit with (key := key).
  - by rewrite <- (cache_key_prefix doc1 doc2).
  - by apply after_calls_keeps_entries.
Qed.

(** C10: when the cache holds the computed key, the call returns the cached
    record as it is and hands back the used-title set and the process
    unchanged: no pair is looked up or added, no suffix is appended, no
    request is sent. *)
Theorem cache_hit_leaves_used_titles
    (document_text student_name role_ru api_key model key : str)
    (used_titles : option Test7.title_set) (w : Test7.world) (cached : pyval) :
  Test7.cache_key document_text student_name role_ru model = inr key ->
  Test7.CACHE w !! key = Some cached ->
  generate document_text student_name role_ru api_key model used_titles w
  = (inr cached, used_titles, w).
Proof. apply generate_hit. Qed.

End Cache.

(** ** The batch loop *)

Section BatchFacts.
Context `{PyRuntime} {St : Type}.
Variable call : str -> str -> St -> (exn + pyval) * St.

Lemma row_outcomes_length (students : list student) (s : St) :
  length (row_outcomes call students s) = length students.
Proof.
  revert s. induction students as [|row rest IH]; intros s; simpl; [done|].
  destruct (call _ _ s) as [o s']. simpl. by rewrite IH.
Qed.

(** The loop adds to [results] and [errors] what the rows' outcomes say. *)
Lemma loop_appends (students : list student) (acc : tally St) :
  let t := fold_left (loop_body call) students acc in
  results t
  = results acc ++ successes (row_outcomes call students (process acc))
  /\ errors t
    = errors acc ++ failures students (row_outcomes call students (process acc)).
Proof.
  revert acc. induction students as [|row rest IH]; intros acc; simpl.
  - by rewrite !app_nil_r.
  - unfold loop_body at 2 4.
    destruct (call _ _ (process acc)) as [[e|task] s'];
      match goal with
      | |- context [fold_left _ rest ?a] => destruct (IH a) as [Hr He]
      end;
      simpl in *; unfold successes, failures in *; simpl;
      rewrite Hr, He, <- ?app_assoc; done.
Qed.

Lemma outcomes_split (students : list student) (outcomes : list (exn + pyval)) :
  length outcomes = length students ->
  (length (successes outcomes) + length (failures students outcomes))%nat
  = length students.
Proof.
  revert outcomes. induction students as [|row rest IH];
    intros [|o outcomes] Hlen; simpl in *; try done.
  injection Hlen as Hlen. specialize (IH _ Hlen).
  destruct o as [e|task].
  - change (successes (inl e :: outcomes)) with (successes outcomes).
    change (failures (row :: rest) (inl e :: outcomes))
      with ({| failed_student := strip (student_name_cell row);
               failed_role := strip (role_ru_of (role_cell row));
               raised := e |} :: failures rest outcomes).
    rewrite length_cons. lia.
  - change (successes (inr task :: outcomes)) with (task :: successes outcomes).
    change (failures (row :: rest) (inr task :: outcomes))
      with (failures rest outcomes).
    rewrite length_cons. lia.
Qed.

(** The loop is the fold of its [try] statement over the rows it gets
    to. *)
Lemma for_rows_reached (total : nat) (students : list student) (acc : tally St) :
  let t := for_rows call total students acc in
  let t' := fold_left (loop_body call) (reached total students) acc in
  results t = results t' /\ errors t = errors t' /\ process t = process t'.
Proof.
  revert acc. induction students as [|row rest IH]; intros acc; [done|].
  cbn [for_rows reached]. destruct (progress (idx row) total) as [e|].
  - by cbn [fold_left results errors process].
  - cbn [fold_left]. apply IH.
Qed.

Lemma loop_body_uncaught (acc : tally St) (row : student) :
  uncaught (loop_body call acc row) = uncaught acc.
Proof. unfold loop_body. by destruct (call _ _ _) as [[e|task] s']. Qed.

(** The loop gets to every row when no progress call raises, and then ends
    with no exception. *)
Lemma reached_all (total : nat) (students : list student) :
  forallb (fun row => match progress (idx row) total with
                      | None => true
                      | Some _ => false
                      end) students = true ->
  reached total students = students.
Proof.
  induction students as [|row rest IH]; [done|]. cbn [forallb reached].
  destruct (progress (idx row) total); [done|]. intros Hrest.
  by rewrite IH.
Qed.

Lemma for_rows_all (total : nat) (students : list student) (acc : tally St) :
  forallb (fun row => match progress (idx row) total with
                      | None => true
                      | Some _ => false
                      end) students = true ->
  uncaught (for_rows call total students acc) = uncaught acc.
Proof.
  revert acc. induction students as [|row rest IH]; intros acc; [done|].
  cbn [forallb for_rows]. destruct (progress (idx row) total); [done|].
  intros Hrest. by rewrite IH, loop_body_uncaught.
Qed.

Lemma reached_prefix (total : nat) (students : list student) :
  reached total students `prefix_of` students.
Proof.
  induction students as [|row rest IH]; [done|]. cbn [reached].
  destruct (progress (idx row) total).
  - by exists rest.
  - by apply prefix_cons.
Qed.

(** The rows of the default index are accepted. *)
Lemma numbered_from_accepted (total k : nat) (students : list student) :
  (k + length students <= total)%nat ->
  numbered_from k students = true ->
  forallb (fun row => match progress (idx row) total with
                      | None => true
                      | Some _ => false
                      end) students = true.
Proof.
  revert k. induction students as [|row rest IH]; intros k Hk; [done|].
  cbn [numbered_from forallb length] in *.
  destruct (idx row) as [i|label]; [|done].
  intros [Hi Hrest]%andb_true_iff. apply Z.eqb_eq in Hi as ->.
  rewrite (IH (S k)) by (done || lia). rewrite andb_true_r.
  unfold progress. destruct total as [|total]; [lia|].
  destruct (_ && _)%bool eqn:Hrange; [done|].
  apply andb_false_iff in Hrange as [Hlow%Z.leb_gt|Hhigh%Z.leb_gt]; lia.
Qed.

Lemma default_index_accepted (students : list student) :
  default_index students = true -> progress_accepted students = true.
Proof. apply numbered_from_accepted. simpl. lia. Qed.

Lemma for_each_row_outcomes (students : list student) (s : St) :
  let t := for_each_row call students s in
  let rows := reached (length students) students in
  let outcomes := row_outcomes call rows s in
  (length (results t) + length (errors t))%nat = length rows
  /\ length outcomes = length rows
  /\ results t = successes outcomes
  /\ errors t = failures rows outcomes.
Proof.
  intros t rows outcomes.
  destruct (for_rows_reached (length students) students
              {| results := []; errors := []; process := s; uncaught := None |})
    as (Hresults & Herrors & _).
  destruct (loop_appends rows
              {| results := []; errors := []; process := s; uncaught := None |})
    as [Hr He]. simpl in Hr, He.
  assert (Hlen := row_outcomes_length rows s).
  repeat split; try done; unfold t, for_each_row.
  - rewrite Hresults, Herrors. fold rows. rewrite Hr, He. by apply outcomes_split.
  - rewrite Hresults. exact Hr.
  - rewrite Herrors. exact He.
Qed.

(** When no progress call raises, the loop gets to every row. *)
Lemma for_each_row_accepted (students : list student) (s : St) :
  progress_accepted students = true ->
  let t := for_each_row call students s in
  let outcomes := row_outcomes call students s in
  uncaught t = None
  /\ (length (results t) + length (errors t))%nat = length students
  /\ length outcomes = length students
  /\ results t = successes outcomes
  /\ errors t = failures students outcomes.
Proof.
  intros Haccepted t outcomes.
  pose proof (for_each_row_outcomes students s) as Hrows.
  cbv zeta in Hrows. rewrite (reached_all _ _ Haccepted) in Hrows.
  split; [|exact Hrows].
  unfold t, for_each_row. by rewrite for_rows_all.
Qed.

End BatchFacts.

Section BatchLoop.
Context `{PyRuntime}.
Variable remote : list request -> request -> http_outcome.


End BatchLoop.

(** ** What a returned record holds *)

Section Records.
Context `{PyRuntime}.
Variable remote : list request -> request -> http_outcome.

Lemma dict_has_set (k k' : str) (v : pyval) (d : list (str * pyval)) :
  dict_has k d = true -> dict_has k (dict_set k' v d) = true.
Proof.
  unfold dict_has. destruct (decide (k' = k)) as [->|Hne].
  - by rewrite dict_get_set_eq.
  - by rewrite dict_get_set_ne.
Qed.

Lemma has_fields_set (fields : list str) (k : str) (v : pyval)
    (d : list (str * pyval)) :
  has_fields fields (PDict d) = true ->
  has_fields fields (PDict (dict_set k v d)) = true.
Proof.
  unfold has_fields. rewrite !forallb_forall.
  intros Hall f Hf. by apply dict_has_set, Hall.
Qed.

(** The simpler variant returns the parsed answer itself, and only when it
    is a dict with the six required keys. *)
Lemma simple_generate_returns_answer
    (document_text student_name role_ru api_key model : str)
    (sent sent' : list request) (r : pyval) :
  Test5.generate_task_json remote document_text student_name role_ru api_key
                           model sent = (inr r, sent') ->
  exists raw_text d,
    raw_text_of
      (remote sent (Test5.chat_request document_text student_name role_ru api_key model))
    = inr raw_text
    /\ Json.loads raw_text = inr r
    /\ r = PDict d
    /\ has_fields Test5.required_fields r = true.
Proof.
  unfold Test5.generate_task_json. intros Hcall.
  repeat case_match; inversion Hcall; subst.
  eexists _, _. repeat split; done.
Qed.

(** What a call of the extended variant that returns a record did: it
    found the record in the cache, or it sent one request, normalized the
    parsed answer, made the title unique when given a set, and stored the
    record. *)
Lemma generate_returns
    (document_text student_name role_ru api_key model : str)
    (used_titles used_titles' : option Test7.title_set) (w w' : Test7.world)
    (r : pyval) :
  Test7.generate_task_json remote document_text student_name role_ru api_key
                           model used_titles w = (inr r, used_titles', w') ->
  exists key,
    Test7.cache_key document_text student_name role_ru model = inr key
    /\ ((Test7.CACHE w !! key = Some r /\ used_titles' = used_titles /\ w' = w)
        \/ (exists data normalized,
              let req := Test7.chat_request document_text student_name role_ru
                                            api_key model in
              Test7.CACHE w !! key = None
              /\ Test7.parse_answer student_name (remote (Test7.sent w) req)
                 = inr data
              /\ Test7.normalize_json_result data student_name role_ru
                 = inr normalized
              /\ match used_titles with
                 | None => r = normalized /\ used_titles' = None
                 | Some used =>
                   exists used',
                     Test7.make_title_unique normalized role_ru used
                     = inr (r, used')
                     /\ used_titles' = Some used'
                 end
              /\ w' = {| Test7.CACHE := <[key := r]> (Test7.CACHE w);
                         Test7.sent := Test7.sent w ++ [req] |})).
Proof.
  unfold Test7.generate_task_json. intros Hcall.
  destruct (Test7.cache_key _ _ _ _) as [e|key]; [by inversion Hcall|].
  exists key. split; [reflexivity|].
  destruct (Test7.CACHE w !! key) as [cached|] eqn:Hlookup.
  - left. by inversion Hcall.
  - right.
    destruct (Test7.parse_answer _ _) as [e|data] eqn:Hanswer;
      [by inversion Hcall|].
    destruct (Test7.normalize_json_result _ _ _) as [e|normalized] eqn:Hnorm;
      [by inversion Hcall|].
    exists data, normalized. cbn zeta.
    destruct used_titles as [used|].
    + destruct (Test7.make_title_unique _ _ _) as [e|[data' used']] eqn:Huniq;
        inversion Hcall; subst. repeat split; eauto.
    + inversion Hcall; subst. repeat split; eauto.
Qed.

Lemma normalize_has_fields (data normalized : pyval) (student_name role_ru : str) :
  Test7.normalize_json_result data student_name role_ru = inr normalized ->
  has_fields normalized_fields normalized = true.
Proof.
  destruct data as [| | | | |xs|d]; try discriminate.
  destruct (normalize_fields d student_name role_ru)
    as (r & Hr & Hrole & Hexec & Hauthor & Hstatus & Hpriority & _).
  rewrite Hr. intros [= <-].
  unfold has_fields, normalized_fields, dict_has. cbn [forallb].
  rewrite Hrole, Hexec, Hauthor, Hstatus, Hpriority.
  repeat case_match; try done;
    repeat match goal with
           | Hin : in_choices ?x _ = true, Hx : ?x = None |- _ =>
             rewrite Hx in Hin; discriminate Hin
           end.
Qed.

Lemma make_title_unique_has_fields (data data' : pyval) (role_ru : str)
    (used used' : Test7.title_set) :
  Test7.make_title_unique data role_ru used = inr (data', used') ->
  has_fields normalized_fields data = true ->
  has_fields task_fields data' = true.
Proof.
  unfold Test7.make_title_unique, getitem_key, setitem.
  destruct data as [| | | | |xs|d]; try discriminate.
  destruct (dict_get (py "title") d) as [title|] eqn:Htitle; [|discriminate].
  destruct (dict_get (py "description") d) as [description|] eqn:Hdesc;
    [|discriminate].
  intros Huniq Hfields.
  assert (Hall : has_fields task_fields (PDict d) = true).
  { unfold task_fields, has_fields, dict_has in *. cbn [forallb].
    by rewrite Htitle, Hdesc. }
  repeat case_match; inversion Huniq; subst; try done.
  by apply has_fields_set.
Qed.

End Records.

(** ** Title de-duplication *)

Section Dedup.
Context `{PyRuntime}.
Variable remote : list request -> request -> http_outcome.

Lemma py_eqb_str (a : str) (h : hashable) : py_eqb (HStr a) h = true -> h = HStr a.
Proof.
  destruct h; simpl; try discriminate.
  by intros ->%bool_decide_eq_true.
Qed.

Lemma py_eqb_str_refl (a : str) : py_eqb (HStr a) (HStr a) = true.
Proof. simpl. by apply bool_decide_eq_true. Qed.

(** For a pair of strings, [in] on the set is membership of that very pair. *)
Lemma set_mem_strings (a b : str) (used : Test7.title_set) :
  Test7.set_mem (HStr a, HStr b) used = true <-> (HStr a, HStr b) ∈ used.
Proof.
  unfold Test7.set_mem. rewrite existsb_exists. split.
  - intros ([x y] & Hin & Heq). unfold Test7.tuple_eqb in Heq. simpl in Heq.
    apply andb_true_iff in Heq as [Hx Hy].
    apply py_eqb_str in Hx, Hy. subst. by apply list_elem_of_In.
  - intros Hin. exists (HStr a, HStr b). split; [by apply list_elem_of_In|].
    unfold Test7.tuple_eqb. simpl. by rewrite !bool_decide_eq_true_2.
Qed.

Lemma set_add_elem (x y : hashable * hashable) (used : Test7.title_set) :
  y ∈ used -> y ∈ Test7.set_add x used.
Proof.
  unfold Test7.set_add. destruct (Test7.set_mem x used); [done|].
  intros Hy. apply elem_of_app. by left.
Qed.

Lemma set_add_strings (a b : str) (used : Test7.title_set) :
  (HStr a, HStr b) ∈ Test7.set_add (HStr a, HStr b) used.
Proof.
  unfold Test7.set_add.
  destruct (Test7.set_mem (HStr a, HStr b) used) eqn:Hmem.
  - by apply set_mem_strings.
  - apply elem_of_app. right. by apply list_elem_of_singleton.
Qed.

(** A pair of strings not seen before: the record is kept as it is. *)
Lemma make_title_unique_fresh (r : list (str * pyval)) (role_ru t s : str)
    (used : Test7.title_set) :
  dict_get (py "title") r = Some (PStr t) ->
  dict_get (py "description") r = Some (PStr s) ->
  Test7.set_mem (HStr t, HStr s) used = false ->
  Test7.make_title_unique (PDict r) role_ru used
  = inr (PDict r, used ++ [(HStr t, HStr s)]).
Proof.
  intros Ht Hs Hmem. unfold Test7.make_title_unique, getitem_key, Test7.set_add.
  rewrite Ht, Hs. simpl. by rewrite Hmem.
Qed.

(** A pair of strings seen before: the role goes into the title. *)
Lemma make_title_unique_seen (r : list (str * pyval)) (role_ru t s : str)
    (used : Test7.title_set) :
  dict_get (py "title") r = Some (PStr t) ->
  dict_get (py "description") r = Some (PStr s) ->
  Test7.set_mem (HStr t, HStr s) used = true ->
  let title' := t ++ py " [" ++ role_ru ++ py "]" in
  Test7.make_title_unique (PDict r) role_ru used
  = inr (PDict (dict_set (py "title") (PStr title') r),
         Test7.set_add (HStr title', HStr s) used).
Proof.
  intros Ht Hs Hmem. unfold Test7.make_title_unique, getitem_key, setitem.
  rewrite Ht, Hs. simpl. by rewrite Hmem.
Qed.

(** A call that misses the cache, by what its steps return. *)
Lemma generate_miss (document_text student_name role_ru api_key model key : str)
    (used used' : Test7.title_set) (w : Test7.world) (data normalized r : pyval) :
  let req := Test7.chat_request document_text student_name role_ru api_key model in
  Test7.cache_key document_text student_name role_ru model = inr key ->
  Test7.CACHE w !! key = None ->
  Test7.parse_answer student_name (remote (Test7.sent w) req) = inr data ->
  Test7.normalize_json_result data student_name role_ru = inr normalized ->
  Test7.make_title_unique normalized role_ru used = inr (r, used') ->
  Test7.generate_task_json remote document_text student_name role_ru api_key
                           model (Some used) w
  = (inr r, Some used',
     {| Test7.CACHE := <[key := r]> (Test7.CACHE w);
        Test7.sent := Test7.sent w ++ [req] |}).
Proof.
  intros req Hkey Hmiss Hanswer Hnorm Huniq. unfold Test7.generate_task_json.
  fold req. by rewrite Hkey, Hmiss, Hanswer, Hnorm, Huniq.
Qed.

Lemma suffix_changes_title (t x : str) : x <> [] -> t <> t ++ x.
Proof.
  intros Hx Heq. apply (f_equal length) in Heq. rewrite length_app in Heq.
  destruct x; [done|]. simpl in Heq. lia.
Qed.

(** A call of the loop takes no pair out of the set of used titles. *)
Lemma call_for_row_keeps_used
    (document_text api_key model_choice student_name role_ru : str)
    (s : Test7.title_set * Test7.world) (p : hashable * hashable) :
  p ∈ fst s ->
  p ∈ fst (snd (Test7.call_for_row remote document_text api_key model_choice
                                   student_name role_ru s)).
Proof.
  destruct s as [used w]. unfold Test7.call_for_row. cbn [fst].
  destruct (Test7.generate_task_json _ _ _ _ _ _ _ _)
    as [[[e|r] used'] w'] eqn:Hcall; cbn [fst snd]; intros Hp.
  - assert (used' = Some used) as ->; [|done].
    revert Hcall. unfold Test7.generate_task_json.
    repeat case_match; intros Hcall; by simplify_eq.
  - destruct (generate_returns remote _ _ _ _ _ _ _ _ _ _ Hcall)
      as (key & _ & [(_ & -> & _) | Hmiss]); [done|].
    destruct Hmiss as (data & normalized & _ & _ & _ & (used1 & Huniq & ->) & _).
    cbn [default]. revert Huniq. unfold Test7.make_title_unique.
    repeat case_match; intros Huniq; simplify_eq; by apply set_add_elem.
Qed.

(** The set of used titles and the process after the calls of the loop for
    some rows, given by their names and roles. *)
Lemma rows_keep_used (document_text api_key model_choice : str)
    (rows : list (str * str)) (s : Test7.title_set * Test7.world)
    (p : hashable * hashable) :
  p ∈ fst s ->
  p ∈ fst (fold_left
             (fun st row =>
                snd (Test7.call_for_row remote document_text api_key
                                        model_choice (fst row) (snd row) st))
             rows s).
Proof.
  revert s. induction rows as [|row rows IH]; intros s Hp; [done|].
  cbn [fold_left]. by apply IH, call_for_row_keeps_used.
Qed.

(** C5, as the code has it: two rows of one batch whose answers carry the
    same title and description, both strings, where the first of the two is
    the first row of the batch with that pair and both calls miss the
    cache; any rows may come between them.  The first record keeps the
    title, the second gets the title of the first followed by its own role
    in brackets, and the set then holds both pairs, which differ. *)
Theorem duplicate_title_gets_role_suffix
    (document_text api_key model name1 role1 name2 role2 key1 key2 : str)
    (between : list (str * str))
    (used0 : Test7.title_set) (w0 : Test7.world)
    (d1 d2 : list (str * pyval)) (t s : str) :
  let call := Test7.call_for_row remote document_text api_key model in
  let req1 := Test7.chat_request document_text name1 role1 api_key model in
  let req2 := Test7.chat_request document_text name2 role2 api_key model in
  let title := Test7.without_line_breaks t in
  let description := Test7.without_line_breaks s in
  let title2 := title ++ py " [" ++ role2 ++ py "]" in
  let after_first := snd (call name1 role1 (used0, w0)) in
  let before_second :=
    fold_left (fun st row => snd (call (fst row) (snd row) st)) between
              after_first in
  Test7.cache_key document_text name1 role1 model = inr key1 ->
  Test7.cache_key document_text name2 role2 model = inr key2 ->
  Test7.CACHE w0 !! key1 = None ->
  Test7.CACHE (snd before_second) !! key2 = None ->
  Test7.parse_answer name1 (remote (Test7.sent w0) req1) = inr (PDict d1) ->
  Test7.parse_answer name2 (remote (Test7.sent (snd before_second)) req2)
  = inr (PDict d2) ->
  dict_get (py "title") d1 = Some (PStr t) ->
  dict_get (py "description") d1 = Some (PStr s) ->
  dict_get (py "title") d2 = Some (PStr t) ->
  dict_get (py "description") d2 = Some (PStr s) ->
  Test7.set_mem (HStr title, HStr description) used0 = false ->
  exists r1 r2 used2 w2,
    call name1 role1 (used0, w0) = (inr (PDict r1), after_first)
    /\ call name2 role2 before_second = (inr (PDict r2), (used2, w2))
    /\ dict_get (py "title") r1 = Some (PStr title)
    /\ dict_get (py "title") r2 = Some (PStr title2)
    /\ (HStr title, HStr description) ∈ used2
    /\ (HStr title2, HStr description) ∈ used2
    /\ Test7.tuple_eqb (HStr title, HStr description) (HStr title2, HStr description)
       = false.
Proof.
  intros call req1 req2 title description title2 after_first before_second
         Hkey1 Hkey2 Hmiss1 Hmiss2 Hanswer1 Hanswer2 Ht1 Hs1 Ht2 Hs2 Hfresh.
  destruct (normalize_fields d1 name1 role1)
    as (r1 & Hr1 & _ & _ & _ & _ & _ & Htitle1 & Hdesc1).
  destruct (normalize_fields d2 name2 role2)
    as (r2 & Hr2 & _ & _ & _ & _ & _ & Htitle2 & Hdesc2).
  rewrite Ht1 in Htitle1. rewrite Hs1 in Hdesc1.
  rewrite Ht2 in Htitle2. rewrite Hs2 in Hdesc2.
  simpl in Htitle1, Hdesc1, Htitle2, Hdesc2.
  set (used1 := used0 ++ [(HStr title, HStr description)]).
  assert (Hfirst : call name1 role1 (used0, w0)
                   = (inr (PDict r1),
                      (used1,
                       {| Test7.CACHE := <[key1 := PDict r1]> (Test7.CACHE w0);
                          Test7.sent := Test7.sent w0 ++ [req1] |}))).
  { unfold call, Test7.call_for_row.
    rewrite (generate_miss document_text name1 role1 api_key model key1
               used0 used1 w0 (PDict d1) (PDict r1) (PDict r1)); try done.
    by apply make_title_unique_fresh. }
  assert (Hseen : (HStr title, HStr description) ∈ fst before_second).
  { apply rows_keep_used. unfold after_first. rewrite Hfirst. cbn [snd fst].
    apply elem_of_app. right. by apply list_elem_of_singleton. }
  destruct before_second as [used1' w1'] eqn:Hbefore. cbn [fst snd] in *.
  exists r1, (dict_set (py "title") (PStr title2) r2),
    (Test7.set_add (HStr title2, HStr description) used1'),
    {| Test7.CACHE :=
         <[key2 := PDict (dict_set (py "title") (PStr title2) r2)]>
           (Test7.CACHE w1');
       Test7.sent := Test7.sent w1' ++ [req2] |}.
  split; [|split].
  - unfold after_first. by rewrite Hfirst.
  - unfold call, Test7.call_for_row.
    rewrite (generate_miss document_text name2 role2 api_key model key2
               used1' (Test7.set_add (HStr title2, HStr description) used1')
               w1' (PDict d2) (PDict r2)
               (PDict (dict_set (py "title") (PStr title2) r2))); try done.
    apply make_title_unique_seen; try done. by apply set_mem_strings.
  - repeat split.
    + exact Htitle1.
    + apply dict_get_set_eq.
    + by apply set_add_elem.
    + apply set_add_strings.
    + unfold Test7.tuple_eqb. simpl. apply andb_false_iff. left.
      apply bool_decide_eq_false. apply suffix_changes_title.
      vm_compute. discriminate.
Qed.

End Dedup.

(** ** An answer wrapped in prose *)

Section Prose.
Context `{PyRuntime}.
Variable remote : list request -> request -> http_outcome.





Lemma through_last_brace_none (z : str) :
  125 ∉ z -> Test7.through_last_brace z = None.
Proof.
  induction z as [|a z IH]; simpl; [done|].
  intros Hout. apply not_elem_of_cons in Hout as [Ha Hz].
  rewrite (IH Hz). destruct (N.eqb_spec a 125); [congruence|done].
Qed.

Lemma through_last_brace_object (body z : str) :
  125 ∉ z -> Test7.through_last_brace (body ++ 125 :: z) = Some (body ++ [125]).
Proof.
  intros Hz. induction body as [|b body IH]; simpl.
  - by rewrite through_last_brace_none.
  - by rewrite IH.
Qed.

(** The pattern finds the object when no brace opens before it and none
    closes after it. *)
Lemma re_search_object (a body z : str) :
  123 ∉ a -> 125 ∉ z ->
  Test7.re_search (a ++ 123 :: body ++ 125 :: z) = Some (123 :: body ++ [125]).
Proof.
  intros Ha Hz. induction a as [|x a IH]; simpl.
  - by rewrite through_last_brace_object.
  - apply not_elem_of_cons in Ha as [Hx Ha].
    destruct (N.eqb_spec x 123); [congruence|]. by apply IH.
Qed.

Lemma strip_prefix_other_head (p : str) (a c : N) (rest : str) :
  head p = Some a -> (c =? a) = false ->
  Json.strip_prefix p (c :: rest) = None.
Proof.
  destruct p as [|x p]; simpl; [done|].
  intros [= ->] Hc. by rewrite N.eqb_sym, Hc.
Qed.



End Prose.

(** ** The fields of a returned record *)

Section Fields.
Context `{PyRuntime}.
Variable remote : list request -> request -> http_outcome.

Lemma task_fields_normalized (r : pyval) :
  has_fields task_fields r = true -> has_fields normalized_fields r = true.
Proof.
  unfold task_fields, has_fields. destruct r; try done.
  cbn [forallb]. intros Hall.
  apply andb_true_iff in Hall as [_ Hall].
  by apply andb_true_iff in Hall as [_ Hall].
Qed.

Lemma cache_holds_insert (fields : list str) (cache : gmap str pyval)
    (key : str) (r : pyval) :
  cache_holds fields cache -> has_fields fields r = true ->
  cache_holds fields (<[key := r]> cache).
Proof.
  intros Hcache Hr k c. destruct (decide (key = k)) as [->|Hne].
  - rewrite lookup_insert_eq. by intros [= <-].
  - rewrite lookup_insert_ne by done. apply Hcache.
Qed.

(** A returned record has the five normalized fields when the cache held
    only such records, and the cache still does afterwards. *)
Lemma generate_keeps_normalized
    (document_text student_name role_ru api_key model : str)
    (used_titles used_titles' : option Test7.title_set)
    (w w' : Test7.world) (r : pyval) :
  cache_holds normalized_fields (Test7.CACHE w) ->
  Test7.generate_task_json remote document_text student_name role_ru
                           api_key model used_titles w
  = (inr r, used_titles', w') ->
  has_fields normalized_fields r = true
  /\ cache_holds normalized_fields (Test7.CACHE w').
Proof.
  intros Hcache Hcall.
  destruct (generate_returns _ _ _ _ _ _ _ _ _ _ _ Hcall)
    as (key & Hkey & [(Hhit & _ & ->) | Hmiss]).
  - split; [by apply (Hcache key) | exact Hcache].
  - destruct Hmiss as (data & normalized & _ & _ & Hnorm & Hused & ->).
    apply normalize_has_fields in Hnorm.
    assert (Hr : has_fields normalized_fields r = true).
    { destruct used_titles as [used|].
      - destruct Hused as (used' & Huniq & _).
        by eapply task_fields_normalized, make_title_unique_has_fields.
      - by destruct Hused as [-> _]. }
    split; [exact Hr | by apply cache_holds_insert].
Qed.

(** With a used-title set, and a cache of records with all seven fields,
    a returned record has all seven, and the cache still holds only such. *)
Lemma generate_keeps_complete
    (document_text student_name role_ru api_key model : str)
    (used : Test7.title_set) (used_titles' : option Test7.title_set)
    (w w' : Test7.world) (r : pyval) :
  cache_holds task_fields (Test7.CACHE w) ->
  Test7.generate_task_json remote document_text student_name role_ru
                           api_key model (Some used) w
  = (inr r, used_titles', w') ->
  has_fields task_fields r = true
  /\ cache_holds task_fields (Test7.CACHE w').
Proof.
  intros Hcache Hcall.
  destruct (generate_returns _ _ _ _ _ _ _ _ _ _ _ Hcall)
    as (key & Hkey & [(Hhit & _ & ->) | Hmiss]).
  - split; [by apply (Hcache key) | exact Hcache].
  - destruct Hmiss as (data & normalized & _ & _ & Hnorm & Hused & ->).
    apply normalize_has_fields in Hnorm.
    destruct Hused as (used' & Huniq & _).
    assert (Hr : has_fields task_fields r = true)
      by (by eapply make_title_unique_has_fields).
    split; [exact Hr | by apply cache_holds_insert].
Qed.

(** A failed call leaves the cache as it was. *)
Lemma generate_failure_keeps_cache
    (document_text student_name role_ru api_key model : str)
    (used_titles used_titles' : option Test7.title_set)
    (w w' : Test7.world) (e : exn) :
  Test7.generate_task_json remote document_text student_name role_ru
                           api_key model used_titles w
  = (inl e, used_titles', w') ->
  Test7.CACHE w' = Test7.CACHE w.
Proof.
  unfold Test7.generate_task_json.
  repeat case_match; intros Hcall; by simplify_eq.
Qed.

(** Every task of a batch has all seven fields, when the batch starts from
    a cache of such records: the empty cache of a fresh process, or the
    cache an earlier batch left. *)
Lemma batch_tasks_complete (document_text api_key model_choice : str)
    (students : list student) (w : Test7.world) :
  cache_holds task_fields (Test7.CACHE w) ->
  Forall (fun r => has_fields task_fields r = true)
         (results (Test7.generate_button remote document_text api_key
                                         model_choice students w)).
Proof.
  intros Hcache. unfold Test7.generate_button.
  destruct (for_each_row_outcomes
              (Test7.call_for_row remote document_text api_key model_choice)
              students ([], w)) as (_ & _ & Hresults & _).
  rewrite Hresults. clear Hresults.
  generalize (@nil (hashable * hashable)) as used.
  revert w Hcache. generalize (reached (length students) students) as rows.
  induction rows as [|row rest IH]; intros w Hcache used.
  - constructor.
  - cbn [row_outcomes]. unfold Test7.call_for_row at 1.
    destruct (Test7.generate_task_json _ _ _ _ _ _ _ _)
      as [[[e|r] used'] w'] eqn:Hcall.
    + apply generate_failure_keeps_cache in Hcall.
      apply IH. by rewrite Hcall.
    + destruct (generate_keeps_complete _ _ _ _ _ _ _ _ _ _ Hcache Hcall)
        as [Hr Hcache'].
      unfold successes. cbn [omap list_omap]. constructor; [exact Hr|].
      by apply IH.
Qed.

(** C8, as the code has it: a record the simpler variant returns has its
    six fields.  In the extended variant a returned record has status,
    priority, role, executor and author, as long as the cache held only such
    records before the call, as the empty cache of a fresh process does; it
    also has title and description when the call was given a used-title set
    and the cache held only records with all seven fields.  Either property
    of the cache is kept by the call.  A call without a used-title set that
    misses the cache returns a record that has a title exactly when the
    object of the answer has one, and a description exactly when that
    object has one. *)
Theorem returned_record_fields
    (document_text student_name role_ru api_key model : str) :
  (forall (sent sent' : list request) (r : pyval),
      Test5.generate_task_json remote document_text student_name role_ru
                               api_key model sent = (inr r, sent') ->
      has_fields Test5.required_fields r = true)
  /\ (forall (used_titles used_titles' : option Test7.title_set)
             (w w' : Test7.world) (r : pyval),
        cache_holds normalized_fields (Test7.CACHE w) ->
        Test7.generate_task_json remote document_text student_name role_ru
                                 api_key model used_titles w
        = (inr r, used_titles', w') ->
        has_fields normalized_fields r = true
        /\ cache_holds normalized_fields (Test7.CACHE w'))
  /\ (forall (used : Test7.title_set) (used_titles' : option Test7.title_set)
             (w w' : Test7.world) (r : pyval),
        cache_holds task_fields (Test7.CACHE w) ->
        Test7.generate_task_json remote document_text student_name role_ru
                                 api_key model (Some used) w
        = (inr r, used_titles', w') ->
        has_fields task_fields r = true
        /\ cache_holds task_fields (Test7.CACHE w'))
  /\ (forall (used_titles' : option Test7.title_set) (w w' : Test7.world)
             (r : pyval) (key : str),
        Test7.cache_key document_text student_name role_ru model = inr key ->
        Test7.CACHE w !! key = None ->
        Test7.generate_task_json remote document_text student_name role_ru
                                 api_key model None w
        = (inr r, used_titles', w') ->
        exists answer record,
          Test7.parse_answer student_name
            (remote (Test7.sent w)
                    (Test7.chat_request document_text student_name role_ru
                                        api_key model))
          = inr (PDict answer)
          /\ r = PDict record
          /\ dict_has (py "title") record = dict_has (py "title") answer
          /\ dict_has (py "description") record
             = dict_has (py "description") answer).
Proof.
  split; [|split; [|split]].
  - intros sent sent' r Hcall.
    by destruct (simple_generate_returns_answer _ _ _ _ _ _ _ _ _ Hcall)
      as (raw_text & d & _ & _ & _ & Hfields).
  - intros *. apply generate_keeps_normalized.
  - intros *. apply generate_keeps_complete.
  - intros used_titles' w w' r key Hkey Hmiss Hcall.
    destruct (generate_returns _ _ _ _ _ _ _ _ _ _ _ Hcall)
      as (key' & Hkey' & [(Hhit & _) | Hmissed]).
    { rewrite Hkey in Hkey'. injection Hkey' as <-. congruence. }
    destruct Hmissed as (data & normalized & _ & Hanswer & Hnorm & [-> _] & _).
    destruct data as [| | | | | |answer]; try discriminate.
    destruct (normalize_fields answer student_name role_ru)
      as (record & Hrecord & _ & _ & _ & _ & _ & Htitle & Hdesc).
    rewrite Hrecord in Hnorm. injection Hnorm as <-.
    exists answer, record. repeat split; try done; unfold dict_has.
    + rewrite Htitle. unfold Test7.cleaned. by repeat case_match.
    + rewrite Hdesc. unfold Test7.cleaned. by repeat case_match.
Qed.

(** C9, as the code has it: the simpler variant returns the parsed answer
    unchanged, so the status of a returned record is present and is the
    value the model's answer carries, whatever it is. *)
Theorem simple_variant_status_from_answer
    (document_text student_name role_ru api_key model : str)
    (sent sent' : list request) (r : pyval) :
  Test5.generate_task_json remote document_text student_name role_ru api_key
                           model sent = (inr r, sent') ->
  exists raw_text status,
    raw_text_of
      (remote sent (Test5.chat_request document_text student_name role_ru api_key model))
    = inr raw_text
    /\ Json.loads raw_text = inr r
    /\ getitem_key r (py "status") = inr status.
Proof.
  intros Hcall.
  destruct (simple_generate_returns_answer _ _ _ _ _ _ _ _ _ Hcall)
    as (raw_text & d & Hraw & Hloads & -> & Hfields).
  unfold has_fields, Test5.required_fields, dict_has in Hfields.
  cbn [forallb] in Hfields.
  destruct (dict_get (py "status") d) as [status|] eqn:Hstatus.
  - exists raw_text, status. repeat split; try done.
    unfold getitem_key. by rewrite Hstatus.
  - by rewrite !andb_false_r in Hfields.
Qed.

End Fields.

(** * Further properties of the code *)

(** ** The object pattern *)

Section Extraction.

Lemma through_last_brace_some (z t : str) :
  Test7.through_last_brace z = Some t ->
  exists m z', z = m ++ 125 :: z' /\ (125 ∉ z') /\ t = m ++ [125].
Proof.
  revert t. induction z as [|c z IH]; intros t; simpl; [done|].
  destruct (Test7.through_last_brace z) as [t'|] eqn:E.
  - intros [= <-]. destruct (IH _ eq_refl) as (m & z' & -> & Hz & ->).
    by exists (c :: m), z'.
  - destruct (N.eqb_spec c 125) as [->|]; [|done].
    intros [= <-]. exists [], z. repeat split.
    clear IH. induction z as [|a z IH]; [by intros ?%elem_of_nil|].
    simpl in E. destruct (Test7.through_last_brace z); [done|].
    destruct (N.eqb_spec a 125); [done|].
    apply not_elem_of_cons. split; [congruence | by apply IH].
Qed.

Lemma through_last_brace_found (m z : str) :
  is_Some (Test7.through_last_brace (m ++ 125 :: z)).
Proof.
  induction m as [|c m IH]; simpl.
  - destruct (Test7.through_last_brace z); eauto.
  - destruct IH as [t ->]. eauto.
Qed.

Lemma re_search_some (text g : str) :
  Test7.re_search text = Some g ->
  exists a m z,
    text = a ++ 123 :: m ++ 125 :: z /\ (123 ∉ a) /\ (125 ∉ z)
    /\ g = 123 :: m ++ [125].
Proof.
  induction text as [|c text IH]; simpl; [done|].
  destruct (N.eqb_spec c 123) as [->|Hc].
  - destruct (Test7.through_last_brace text) as [t|] eqn:E.
    + intros [= <-].
      apply through_last_brace_some in E as (m & z & -> & Hz & ->).
      exists [], m, z. repeat split; [by intros ?%elem_of_nil | done].
    + intros Hg. destruct (IH Hg) as (a & m & z & -> & _).
      destruct (through_last_brace_found (a ++ 123 :: m) z) as [t Ht].
      rewrite <- app_assoc in Ht. simpl in Ht. congruence.
  - intros Hg. destruct (IH Hg) as (a & m & z & -> & Ha & Hz & ->).
    exists (c :: a), m, z. repeat split; [|done].
    apply not_elem_of_cons. by split.
Qed.

Lemma re_search_found (a m z : str) :
  is_Some (Test7.re_search (a ++ 123 :: m ++ 125 :: z)).
Proof.
  induction a as [|c a IH]; simpl.
  - destruct (through_last_brace_found m z) as [t ->]. eauto.
  - destruct (c =? 123); [|exact IH].
    destruct (through_last_brace_found (a ++ 123 :: m) z) as [t Ht].
    rewrite <- app_assoc in Ht. simpl in Ht. rewrite Ht. eauto.
Qed.

(** X1: what [extract_json_from_text] returns for any text.  When some
    opening brace has a closing brace after it, the result runs from the
    first opening brace of the text to its last closing brace, both
    included; otherwise the result is the text itself. *)
Theorem extract_json_spans_outer_braces (text : str) :
  (exists a m z,
      text = a ++ 123 :: m ++ 125 :: z /\ (123 ∉ a) /\ (125 ∉ z)
      /\ Test7.extract_json_from_text text = 123 :: m ++ [125])
  \/ ((forall a m z, text <> a ++ 123 :: m ++ 125 :: z)
      /\ Test7.extract_json_from_text text = text).
Proof.
  unfold Test7.extract_json_from_text.
  destruct (Test7.re_search text) as [g|] eqn:E.
  - left. apply re_search_some in E as (a & m & z & ? & ? & ? & ?).
    by exists a, m, z.
  - right. split; [|done]. intros a m z ->.
    destruct (re_search_found a m z) as [g Hg]. congruence.
Qed.

(** X2: extracting twice is extracting once. *)
Theorem extract_json_idempotent (text : str) :
  Test7.extract_json_from_text (Test7.extract_json_from_text text)
  = Test7.extract_json_from_text text.
Proof.
  unfold Test7.extract_json_from_text at 2 3.
  destruct (Test7.re_search text) as [g|] eqn:E.
  - apply re_search_some in E as (a & m & z & _ & _ & _ & ->).
    unfold Test7.extract_json_from_text.
    assert (Hg : Test7.re_search ([] ++ 123 :: m ++ 125 :: [])
                 = Some (123 :: m ++ [125])).
    { apply re_search_object; by intros ?%elem_of_nil. }
    cbn [app] in Hg. by rewrite Hg.
  - unfold Test7.extract_json_from_text. by rewrite E.
Qed.

End Extraction.

(** ** Normalizing again, and the order of the keys *)

Section Renormalization.
Context `{PyRuntime}.

Lemma lstrip_trimmed (s : str) :
  (forall c, head s = Some c -> isspace c = false) -> lstrip s = s.
Proof.
  destruct s as [|a s]; simpl; [done|].
  intros Hhead. by rewrite (Hhead a).
Qed.

Lemma rstrip_trimmed (s : str) :
  (forall c, last s = Some c -> isspace c = false) -> rstrip s = s.
Proof.
  induction s as [|a s IH]; simpl; [done|].
  intros Hlast. destruct s as [|b s].
  - simpl. by rewrite (Hlast a).
  - rewrite IH; [done|]. intros c Hc. apply Hlast. by rewrite last_cons, Hc.
Qed.

Lemma strip_idempotent (s : str) : strip (strip s) = strip s.
Proof.
  unfold strip at 1.
  rewrite (lstrip_trimmed (strip s)), rstrip_trimmed; [done| |];
    intros c Hc; apply (strip_trimmed c s); auto.
Qed.

Lemma replace_absent (old new : N) (s : str) :
  old ∉ s -> replace old new s = s.
Proof.
  induction s as [|a s IH]; simpl; [done|].
  intros [Ha Hs]%not_elem_of_cons.
  destruct (N.eqb_spec a old); [congruence|]. by rewrite IH.
Qed.

Lemma without_line_breaks_idempotent (s : str) :
  Test7.without_line_breaks (Test7.without_line_breaks s)
  = Test7.without_line_breaks s.
Proof.
  destruct (without_line_breaks_clean s) as [Hnl Hcr].
  unfold Test7.without_line_breaks at 1.
  rewrite (replace_absent NL), (replace_absent CR) by done.
  apply strip_idempotent.
Qed.

Lemma dict_set_same (k : str) (v : pyval) (d : list (str * pyval)) :
  dict_get k d = Some v -> dict_set k v d = d.
Proof.
  induction d as [|[k' v'] d IH]; simpl; [done|].
  destruct (decide (k = k')) as [->|Hne].
  - by intros [= ->].
  - intros Hget. by rewrite IH.
Qed.

Lemma strip_line_breaks_cleaned (key : str) (d : list (str * pyval)) :
  (forall s, dict_get key d = Some (PStr s) -> Test7.without_line_breaks s = s) ->
  Test7.strip_line_breaks d key = d.
Proof.
  intros Hclean. unfold Test7.strip_line_breaks.
  destruct (dict_get key d) as [[]|] eqn:E; try done.
  rewrite Hclean by done. by apply dict_set_same.
Qed.

Lemma cleaned_is_clean (v : option pyval) (s : str) :
  Test7.cleaned v = Some (PStr s) -> Test7.without_line_breaks s = s.
Proof.
  destruct v as [[]|]; simpl; try discriminate.
  intros [= <-]. apply without_line_breaks_idempotent.
Qed.

(** X3: a record that [normalize_json_result] has returned is left as it
    is when it is normalized again for the same student and role. *)
Theorem normalize_idempotent (data normalized : pyval) (student_name role_ru : str) :
  Test7.normalize_json_result data student_name role_ru = inr normalized ->
  Test7.normalize_json_result normalized student_name role_ru = inr normalized.
Proof.
  destruct data as [| | | | |xs|d]; try discriminate.
  destruct (normalize_fields d student_name role_ru)
    as (r & -> & Hrole & Hexec & Hauthor & Hstatus & Hpriority & Htitle & Hdesc).
  intros [= <-]. unfold Test7.normalize_json_result.
  rewrite (dict_set_same (py "role")), (dict_set_same (py "executor")),
    (dict_set_same (py "author")) by done.
  assert (Hs : in_choices (dict_get (py "status") r) Test7.STATUS_CHOICES = true).
  { rewrite Hstatus.
    destruct (in_choices (dict_get (py "status") d) _) eqn:E; [exact E|].
    by vm_compute. }
  assert (Hp : in_choices (dict_get (py "priority") r) Test7.PRIORITY_CHOICES = true).
  { rewrite Hpriority.
    destruct (in_choices (dict_get (py "priority") d) _) eqn:E; [exact E|].
    by vm_compute. }
  rewrite Hs, Hp. cbn [fold_left].
  rewrite (strip_line_breaks_cleaned (py "title")),
    (strip_line_breaks_cleaned (py "description")); [done| |].
  - intros s Hget. apply (cleaned_is_clean (dict_get (py "description") d)).
    by rewrite <- Hdesc.
  - intros s Hget. apply (cleaned_is_clean (dict_get (py "title") d)).
    by rewrite <- Htitle.
Qed.

Lemma elem_of_keys (k : str) (d : list (str * pyval)) :
  k ∈ map fst d <-> is_Some (dict_get k d).
Proof.
  induction d as [|[k' v'] d IH]; simpl.
  - split; [by intros ?%elem_of_nil | by intros [? ?]].
  - rewrite elem_of_cons, IH. destruct (decide (k = k')) as [->|Hne]; simpl.
    + split; eauto.
    + split; [by intros [?|?] | by right].
Qed.

Lemma keys_dict_set (k : str) (v : pyval) (d : list (str * pyval)) :
  map fst (dict_set k v d) = with_key (map fst d) k.
Proof.
  unfold with_key. induction d as [|[k' v'] d IH]; cbn [map fst dict_set].
  - rewrite bool_decide_eq_false_2; [done | by intros ?%elem_of_nil].
  - destruct (decide (k = k')) as [->|Hne]; cbn [map fst].
    + clear IH. rewrite bool_decide_eq_true_2; [done | left].
    + rewrite IH. destruct (decide (k ∈ map fst d)) as [Hin|Hout].
      * by rewrite !bool_decide_eq_true_2 by first [done | by right].
      * by rewrite !bool_decide_eq_false_2
          by first [done | by intros [?|?]%elem_of_cons].
Qed.

Lemma keys_strip_line_breaks (key : str) (d : list (str * pyval)) :
  map fst (Test7.strip_line_breaks d key) = map fst d.
Proof.
  unfold Test7.strip_line_breaks.
  destruct (dict_get key d) as [[]|] eqn:E; try done.
  rewrite keys_dict_set. unfold with_key.
  rewrite bool_decide_eq_true_2; [done|]. apply elem_of_keys. by rewrite E.
Qed.

Lemma keys_unless_choice (k : str) (v : pyval) (choices : list str)
    (d : list (str * pyval)) :
  map fst (if in_choices (dict_get k d) choices then d else dict_set k v d)
  = with_key (map fst d) k.
Proof.
  destruct (in_choices (dict_get k d) choices) eqn:E; [|apply keys_dict_set].
  unfold with_key. rewrite bool_decide_eq_true_2; [done|].
  apply elem_of_keys. by destruct (dict_get k d).
Qed.

(** X4: [normalize_json_result] removes no key and moves none: the keys of
    the answer stay in their order, and those of role, executor, author,
    status and priority that the answer lacks follow them, in this order.
    A missing title or description is not added, and what the answer holds
    under any other key is kept. *)
Theorem normalize_keeps_key_order (d : list (str * pyval)) (student_name role_ru : str) :
  exists r,
    Test7.normalize_json_result (PDict d) student_name role_ru = inr (PDict r)
    /\ map fst r
       = fold_left with_key
           [py "role"; py "executor"; py "author"; py "status"; py "priority"]
           (map fst d)
    /\ (forall k, k ∉ task_fields -> dict_get k r = dict_get k d).
Proof.
  eexists. split; [reflexivity|]. split.
  - cbn [fold_left]. rewrite !keys_strip_line_breaks, !keys_unless_choice.
    by rewrite !keys_dict_set.
  - intros k Hk. cbn [fold_left].
    assert (Hne : forall f, f ∈ task_fields -> f <> k) by (intros f Hf ->; done).
    assert (Hfield : forall f, In f task_fields -> f <> k)
      by (intros f Hf; by apply Hne, list_elem_of_In).
    unfold task_fields, normalized_fields in Hfield. simpl in Hfield.
    rewrite !strip_line_breaks_other by (apply Hfield; tauto).
    repeat case_match; rewrite ?dict_get_set_ne by (apply Hfield; tauto); done.
Qed.

End Renormalization.

(** ** Calls that fail *)

Section Failures.
Context `{PyRuntime}.
Variable remote : list request -> request -> http_outcome.

Lemma failed_call_unchanged
    (document_text student_name role_ru api_key model : str)
    (used_titles used_titles' : option Test7.title_set)
    (w w' : Test7.world) (e : exn) :
  Test7.generate_task_json remote document_text student_name role_ru
                           api_key model used_titles w
  = (inl e, used_titles', w') ->
  used_titles' = used_titles /\ Test7.CACHE w' = Test7.CACHE w.
Proof.
  unfold Test7.generate_task_json.
  repeat case_match; intros Hcall; by simplify_eq.
Qed.

(** X5: a call of the extended variant that raises leaves the set of used
    titles and the cache as they were; at most its one request has been
    sent. *)
Theorem failed_call_keeps_titles_and_cache
    (document_text student_name role_ru api_key model : str)
    (used_titles used_titles' : option Test7.title_set)
    (w w' : Test7.world) (e : exn) :
  Test7.generate_task_json remote document_text student_name role_ru
                           api_key model used_titles w
  = (inl e, used_titles', w') ->
  used_titles' = used_titles
  /\ Test7.CACHE w' = Test7.CACHE w
  /\ (Test7.sent w' = Test7.sent w
      \/ Test7.sent w'
         = Test7.sent w
           ++ [Test7.chat_request document_text student_name role_ru
                                  api_key model]).
Proof.
  unfold Test7.generate_task_json. destruct w as [cache sent].
  repeat case_match; intros Hcall; simplify_eq; simpl; auto.
Qed.

(** X6: an answer that is an object without a title, for a key the cache
    does not hold.  With a set of used titles the call raises the
    [KeyError] of [data["title"]] after the request, and stores nothing;
    without one it returns the record, still without a title, and stores
    it. *)
Theorem answer_without_title
    (document_text student_name role_ru api_key model key : str)
    (used : Test7.title_set) (w : Test7.world) (d : list (str * pyval)) :
  let req := Test7.chat_request document_text student_name role_ru api_key model in
  let w1 := {| Test7.CACHE := Test7.CACHE w; Test7.sent := Test7.sent w ++ [req] |} in
  Test7.cache_key document_text student_name role_ru model = inr key ->
  Test7.CACHE w !! key = None ->
  Test7.parse_answer student_name (remote (Test7.sent w) req) = inr (PDict d) ->
  dict_get (py "title") d = None ->
  Test7.generate_task_json remote document_text student_name role_ru
                           api_key model (Some used) w
  = (inl (KeyError (Key (py "title"))), Some used, w1)
  /\ exists r,
      Test7.generate_task_json remote document_text student_name role_ru
                               api_key model None w
      = (inr (PDict r), None,
         {| Test7.CACHE := <[key := PDict r]> (Test7.CACHE w);
            Test7.sent := Test7.sent w ++ [req] |})
      /\ dict_get (py "title") r = None.
Proof.
  intros req w1 Hkey Hmiss Hanswer Htitle.
  destruct (normalize_fields d student_name role_ru)
    as (r & Hr & _ & _ & _ & _ & _ & Ht & _).
  rewrite Htitle in Ht. simpl in Ht.
  unfold Test7.generate_task_json. fold req.
  rewrite Hkey, Hmiss, Hanswer, Hr. split.
  - unfold Test7.make_title_unique, getitem_key. by rewrite Ht.
  - by exists r.
Qed.

(** X7: the role is appended once, whatever the set holds.  A record whose
    title and description the set has seen gets the title with the role in
    brackets even when the set has seen that title too: the set stays as it
    is, and two records of the batch carry the same title. *)
Theorem suffixed_title_may_repeat (r : list (str * pyval)) (role_ru t s : str)
    (used : Test7.title_set) :
  let title' := t ++ py " [" ++ role_ru ++ py "]" in
  dict_get (py "title") r = Some (PStr t) ->
  dict_get (py "description") r = Some (PStr s) ->
  (HStr t, HStr s) ∈ used ->
  (HStr title', HStr s) ∈ used ->
  Test7.make_title_unique (PDict r) role_ru used
  = inr (PDict (dict_set (py "title") (PStr title') r), used).
Proof.
  intros title' Ht Hs Hseen Hseen'.
  rewrite (make_title_unique_seen r role_ru t s used Ht Hs)
    by (by apply set_mem_strings).
  unfold Test7.set_add. fold title'.
  by rewrite (proj2 (set_mem_strings title' s used)).
Qed.

End Failures.

(** ** The requests of a batch *)

Section Requests.
Context `{PyRuntime}.
Variable remote : list request -> request -> http_outcome.

(** The process after one pass of the loop is the one the call leaves. *)
Lemma loop_body_process {St : Type} (call : str -> str -> St -> (exn + pyval) * St)
    (acc : tally St) (row : student) :
  process (loop_body call acc row)
  = snd (call (strip (student_name_cell row))
              (strip (role_ru_of (role_cell row))) (process acc)).
Proof. unfold loop_body. by repeat case_match. Qed.

(** The requests a call of the extended variant adds. *)
Lemma generate_sent (document_text student_name role_ru api_key model : str)
    (used_titles : option Test7.title_set) (w : Test7.world) :
  let w' :=
    snd (Test7.generate_task_json remote document_text student_name role_ru
                                  api_key model used_titles w) in
  Test7.sent w' = Test7.sent w
  \/ Test7.sent w'
     = Test7.sent w
       ++ [Test7.chat_request document_text student_name role_ru api_key model].
Proof.
  unfold Test7.generate_task_json. repeat case_match; simpl; auto.
Qed.

#[local] Abbreviation row_request7 document_text api_key model_choice :=
  (fun row : student =>
     Test7.chat_request document_text (strip (student_name_cell row))
                        (strip (role_ru_of (role_cell row))) api_key model_choice).

Lemma call_for_row_sent (document_text api_key model_choice : str)
    (row : student) (s : Test7.title_set * Test7.world) :
  let s' :=
    snd (Test7.call_for_row remote document_text api_key model_choice
           (strip (student_name_cell row)) (strip (role_ru_of (role_cell row))) s) in
  Test7.sent (snd s') = Test7.sent (snd s)
  \/ Test7.sent (snd s')
     = Test7.sent (snd s) ++ [row_request7 document_text api_key model_choice row].
Proof.
  destruct s as [used w]. unfold Test7.call_for_row.
  pose proof (generate_sent document_text (strip (student_name_cell row))
                (strip (role_ru_of (role_cell row))) api_key model_choice
                (Some used) w) as Hsent.
  destruct (Test7.generate_task_json _ _ _ _ _ _ _ _) as [[o used'] w'].
  exact Hsent.
Qed.

Lemma loop_requests (document_text api_key model_choice : str)
    (students : list student) (acc : tally (Test7.title_set * Test7.world)) :
  exists asked,
    sublist asked students
    /\ Test7.sent
         (snd (process
                 (fold_left
                    (loop_body (Test7.call_for_row remote document_text api_key
                                                   model_choice))
                    students acc)))
       = Test7.sent (snd (process acc))
         ++ map (row_request7 document_text api_key model_choice) asked.
Proof.
  revert acc. induction students as [|row rest IH]; intros acc; cbn [fold_left].
  - exists []. split; [constructor|]. by rewrite app_nil_r.
  - destruct (IH (loop_body (Test7.call_for_row remote document_text api_key
                               model_choice) acc row))
      as (asked & Hsub & Hsent).
    rewrite Hsent, loop_body_process.
    destruct (call_for_row_sent document_text api_key model_choice row
                (process acc)) as [-> | ->].
    + exists asked. split; [by constructor|done].
    + exists (row :: asked). split; [by constructor|].
      by rewrite <- app_assoc.
Qed.

(** X8: the loop of the extended variant sends at most one request for a
    row, in roster order, each with the document, the key and the model of
    the batch and the stripped name and the localized role of its row;
    the requests sent before stay first. *)
Theorem batch_requests_follow_roster (document_text api_key model_choice : str)
    (students : list student) (w : Test7.world) :
  let t := Test7.generate_button remote document_text api_key model_choice
                                 students w in
  exists asked,
    sublist asked students
    /\ Test7.sent (snd (process t))
       = Test7.sent w
         ++ map (fun row =>
                   Test7.chat_request document_text
                     (strip (student_name_cell row))
                     (strip (role_ru_of (role_cell row)))
                     api_key model_choice)
                asked.
Proof.
  intros t.
  destruct (for_rows_reached
              (Test7.call_for_row remote document_text api_key model_choice)
              (length students) students
              {| results := []; errors := []; process := ([], w);
                 uncaught := None |}) as (_ & _ & Hprocess).
  destruct (loop_requests document_text api_key model_choice
              (reached (length students) students)
              {| results := []; errors := []; process := ([], w);
                 uncaught := None |}) as (asked & Hsub & Hsent).
  exists asked. split.
  - destruct (reached_prefix (length students) students) as [rest Hrest].
    rewrite Hrest. by apply sublist_inserts_r.
  - unfold t, Test7.generate_button, for_each_row.
    unfold Test7.title_set in *. rewrite Hprocess. exact Hsent.
Qed.

Lemma simple_loop_requests (document_text api_key model_choice : str)
    (students : list student) (acc : tally (list request)) :
  api_key <> [] ->
  process (fold_left
             (loop_body (Test5.call_for_row remote document_text api_key
                                            model_choice))
             students acc)
  = process acc
    ++ map (fun row =>
              Test5.chat_request document_text
                (strip (student_name_cell row))
                (strip (role_ru_of (role_cell row)))
                api_key model_choice)
           students.
Proof.
  intros Hkey. revert acc.
  induction students as [|row rest IH]; intros acc; cbn [fold_left map].
  - by rewrite app_nil_r.
  - rewrite IH, loop_body_process.
    unfold Test5.call_for_row, Test5.generate_task_json.
    destruct api_key as [|c key]; [done|].
    repeat case_match; simpl; by rewrite <- app_assoc.
Qed.

(** X9: the loop of the simpler variant, given a key, sends exactly one
    request for every row it gets to, in roster order, whatever the answers
    are: for the rows up to the first whose progress call raises, that row
    included, and so for every row of the roster when no progress call
    raises. *)
Theorem simple_batch_sends_one_request_per_row
    (document_text api_key model_choice : str)
    (students : list student) (sent : list request) :
  api_key <> [] ->
  let t := Test5.generate_button remote document_text api_key model_choice
                                 students sent in
  let request_of row :=
    Test5.chat_request document_text (strip (student_name_cell row))
                       (strip (role_ru_of (role_cell row)))
                       api_key model_choice in
  process t = sent ++ map request_of (reached (length students) students)
  /\ (progress_accepted students = true ->
      process t = sent ++ map request_of students).
Proof.
  intros Hkey t request_of.
  assert (Hsent : process t
                  = sent ++ map request_of (reached (length students) students)).
  { destruct (for_rows_reached
                (Test5.call_for_row remote document_text api_key model_choice)
                (length students) students
                {| results := []; errors := []; process := sent;
                   uncaught := None |}) as (_ & _ & Hprocess).
    unfold t, Test5.generate_button, for_each_row. rewrite Hprocess.
    apply (simple_loop_requests document_text api_key model_choice
             (reached (length students) students)
             {| results := []; errors := []; process := sent;
                uncaught := None |} Hkey). }
  split; [exact Hsent|].
  intros Haccepted. rewrite Hsent.
  by rewrite (reached_all _ _ Haccepted).
Qed.

End Requests.

(** ** A service that gives no answer, and a roster with a row twice *)

Section Outage.
Context `{PyRuntime}.
Variable remote : list request -> request -> http_outcome.

#[local] Abbreviation call7 document_text api_key model_choice :=
  (Test7.call_for_row remote document_text api_key model_choice).

(** Without a usable answer a call returns what the cache holds or
    raises, and the cache stays as it is. *)
Lemma call_without_answer (document_text api_key model_choice name role : str)
    (s : Test7.title_set * Test7.world) :
  (forall h r, exists e, raw_text_of (remote h r) = inl e) ->
  let '(o, s') := call7 document_text api_key model_choice name role s in
  Test7.CACHE (snd s') = Test7.CACHE (snd s)
  /\ match o with
     | inr task => exists key, Test7.CACHE (snd s) !! key = Some task
     | inl _ => True
     end.
Proof.
  intros Hdown. destruct s as [used w].
  unfold Test7.call_for_row, Test7.generate_task_json, Test7.parse_answer.
  destruct (Test7.cache_key _ _ _ _) as [e|key]; [done|].
  destruct (Test7.CACHE w !! key) as [cached|] eqn:Hhit; [by eauto|].
  destruct (Hdown (Test7.sent w)
              (Test7.chat_request document_text name role api_key model_choice))
    as [e ->].
  done.
Qed.

Lemma loop_cache_without_answer (document_text api_key model_choice : str)
    (students : list student) (acc : tally (Test7.title_set * Test7.world)) :
  (forall h r, exists e, raw_text_of (remote h r) = inl e) ->
  Test7.CACHE
    (snd (process
            (fold_left (loop_body (call7 document_text api_key model_choice))
                       students acc)))
  = Test7.CACHE (snd (process acc)).
Proof.
  intros Hdown. revert acc.
  induction students as [|row rest IH]; intros acc; cbn [fold_left]; [done|].
  rewrite IH, loop_body_process.
  pose proof (call_without_answer document_text api_key model_choice
                (strip (student_name_cell row))
                (strip (role_ru_of (role_cell row))) (process acc) Hdown)
    as Hcall.
  destruct (call7 _ _ _ _ _ _) as [o s']. by destruct Hcall.
Qed.

Lemma outcomes_without_answer (document_text api_key model_choice : str)
    (students : list student) (s : Test7.title_set * Test7.world) :
  (forall h r, exists e, raw_text_of (remote h r) = inl e) ->
  Forall (fun task => exists key, Test7.CACHE (snd s) !! key = Some task)
         (successes
            (row_outcomes (call7 document_text api_key model_choice) students s)).
Proof.
  intros Hdown. revert s.
  induction students as [|row rest IH]; intros s; cbn [row_outcomes].
  - constructor.
  - pose proof (call_without_answer document_text api_key model_choice
                  (strip (student_name_cell row))
                  (strip (role_ru_of (role_cell row))) s Hdown)
      as Hcall.
    destruct (call7 _ _ _ _ _ _) as [[e|task] s'];
      destruct Hcall as [Hsame Hcached];
      specialize (IH s'); rewrite Hsame in IH.
    + exact IH.
    + unfold successes. cbn [omap list_omap]. by constructor.
Qed.

Lemma simple_outcomes_without_answer (document_text api_key model_choice : str)
    (students : list student) (sent : list request) :
  (forall h r, exists e, raw_text_of (remote h r) = inl e) ->
  successes
    (row_outcomes (Test5.call_for_row remote document_text api_key model_choice)
                  students sent)
  = [].
Proof.
  intros Hdown. revert sent.
  induction students as [|row rest IH]; intros sent; cbn [row_outcomes]; [done|].
  destruct (Test5.call_for_row _ _ _ _ _ _ _) as [[e|task] sent'] eqn:Hcall.
  - apply IH.
  - exfalso. revert Hcall.
    unfold Test5.call_for_row, Test5.generate_task_json.
    destruct api_key as [|c key]; [done|].
    destruct (Hdown sent
                (Test5.chat_request document_text
                   (strip (student_name_cell row))
                   (strip (role_ru_of (role_cell row))) (c :: key)
                   model_choice)) as [e ->].
    done.
Qed.

(** X10: a service that gives no usable answer: no response, an error
    status, or a body that is not the expected envelope.  The batch of the
    extended variant then yields only records its cache already held and
    leaves the cache as it was; starting from an empty cache it yields no
    task and one error line for every row the loop gets to.  The batch of
    the simpler variant yields no task and one error line for every row the
    loop gets to.  These are the rows up to the first whose progress call
    raises, that row included: all rows of the roster when none does. *)
Theorem batch_without_service (document_text api_key model_choice : str)
    (students : list student) (w : Test7.world) (sent : list request) :
  (forall h r, exists e, raw_text_of (remote h r) = inl e) ->
  let t7 := Test7.generate_button remote document_text api_key model_choice
                                  students w in
  let t5 := Test5.generate_button remote document_text api_key model_choice
                                  students sent in
  let rows := reached (length students) students in
  Test7.CACHE (snd (process t7)) = Test7.CACHE w
  /\ Forall (fun task => exists key, Test7.CACHE w !! key = Some task) (results t7)
  /\ (Test7.CACHE w = ∅ ->
      results t7 = [] /\ length (errors t7) = length rows)
  /\ results t5 = [] /\ length (errors t5) = length rows
  /\ (progress_accepted students = true -> rows = students).
Proof.
  intros Hdown t7 t5 rows.
  destruct (for_each_row_outcomes (call7 document_text api_key model_choice)
              students ([], w)) as (Hcount7 & _ & Hresults7 & _).
  destruct (for_each_row_outcomes
              (Test5.call_for_row remote document_text api_key model_choice)
              students sent) as (Hcount5 & _ & Hresults5 & _).
  fold rows in Hcount7, Hresults7, Hcount5, Hresults5.
  pose proof (outcomes_without_answer document_text api_key model_choice
                rows ([], w) Hdown) as Htasks.
  rewrite <- Hresults7 in Htasks. simpl in Htasks.
  rewrite simple_outcomes_without_answer in Hresults5 by done.
  rewrite Hresults5 in Hcount5. simpl in Hcount5.
  split; [|split; [exact Htasks|split; [|split; [exact Hresults5|split;
    [exact Hcount5|]]]]].
  - destruct (for_rows_reached (call7 document_text api_key model_choice)
                (length students) students
                {| results := []; errors := []; process := ([], w);
                   uncaught := None |}) as (_ & _ & Hprocess).
    unfold t7, Test7.generate_button, for_each_row.
    unfold Test7.title_set in *. rewrite Hprocess.
    apply (loop_cache_without_answer document_text api_key model_choice rows
             {| results := []; errors := []; process := ([], w);
                uncaught := None |} Hdown).
  - intros Hempty.
    change (for_each_row _ _ _) with t7 in Htasks, Hcount7.
    destruct (results t7) as [|task tasks]; [done|].
    inversion Htasks as [|? ? (key & Hkey) _].
    by rewrite Hempty, lookup_empty in Hkey.
  - apply reached_all.
Qed.

End Outage.

Section Repeats.
Context `{PyRuntime}.
Variable remote : list request -> request -> http_outcome.

#[local] Abbreviation call7 document_text api_key model_choice :=
  (Test7.call_for_row remote document_text api_key model_choice).

Lemma call_for_row_keeps_entries (document_text api_key model_choice name role : str)
    (s : Test7.title_set * Test7.world) (k : str) (r : pyval) :
  Test7.CACHE (snd s) !! k = Some r ->
  Test7.CACHE
    (snd (snd (call7 document_text api_key model_choice name role s)))
  !! k = Some r.
Proof.
  destruct s as [used w]. intros Hk. unfold Test7.call_for_row.
  pose proof (generate_keeps_entries remote document_text name role api_key
                model_choice (Some used) w k r Hk) as Hkept.
  by destruct (Test7.generate_task_json _ _ _ _ _ _ _ _) as [[o used'] w'].
Qed.

Lemma loop_keeps_entries (document_text api_key model_choice : str)
    (students : list student) (acc : tally (Test7.title_set * Test7.world))
    (k : str) (r : pyval) :
  Test7.CACHE (snd (process acc)) !! k = Some r ->
  Test7.CACHE
    (snd (process
            (fold_left (loop_body (call7 document_text api_key model_choice))
                       students acc)))
  !! k = Some r.
Proof.
  revert acc. induction students as [|row rest IH]; intros acc Hk; [exact Hk|].
  cbn [fold_left]. apply IH. rewrite loop_body_process.
  by apply call_for_row_keeps_entries.
Qed.

(** A row whose name and role the cache answers adds the cached record to
    the results and leaves the rest as it is. *)
Lemma loop_body_hit (document_text api_key model_choice key : str)
    (acc : tally (Test7.title_set * Test7.world)) (row : student) (task : pyval) :
  Test7.cache_key document_text (strip (student_name_cell row))
                  (strip (role_ru_of (role_cell row))) model_choice = inr key ->
  Test7.CACHE (snd (process acc)) !! key = Some task ->
  loop_body (call7 document_text api_key model_choice) acc row
  = {| results := results acc ++ [task]; errors := errors acc;
       process := process acc; uncaught := uncaught acc |}.
Proof.
  intros Hkey Hhit. unfold loop_body, Test7.call_for_row.
  destruct (process acc) as [used w].
  by rewrite (generate_hit remote _ _ _ _ _ key (Some used) w task Hkey Hhit).
Qed.

Lemma numbered_from_app (k : nat) (rows rest : list student) :
  numbered_from k (rows ++ rest) = true -> numbered_from k rows = true.
Proof.
  revert k. induction rows as [|row rows IH]; intros k; [done|].
  cbn [app numbered_from]. destruct (idx row); [|done].
  intros [-> Hrest]%andb_true_iff. by rewrite (IH _ Hrest).
Qed.

(** With the default index the loop is the fold of its [try] statement
    over the whole roster. *)
Lemma default_index_fold {St : Type}
    (call : str -> str -> St -> (exn + pyval) * St)
    (students : list student) (s : St) :
  default_index students = true ->
  let t := for_each_row call students s in
  let t' := fold_left (loop_body call) students
                      {| results := []; errors := []; process := s;
                         uncaught := None |} in
  results t = results t' /\ errors t = errors t' /\ process t = process t'.
Proof.
  intros Hdefault%default_index_accepted.
  pose proof (for_rows_reached call (length students) students
                {| results := []; errors := []; process := s;
                   uncaught := None |}) as Hrows.
  cbv zeta in Hrows. by rewrite (reached_all _ _ Hdefault) in Hrows.
Qed.

(** X11: a roster with the default index that names a student and a role
    a second time, after a row for them that gave a task.  The later row
    gets that very task from the cache, title included; it sends no
    request, adds no error line and leaves the cache and the set of used
    titles as they are. *)
Theorem repeated_row_repeats_task (document_text api_key model_choice : str)
    (row again : student) (between : list student) (w : Test7.world)
    (task : pyval) :
  default_index (row :: between ++ [again]) = true ->
  strip (student_name_cell again) = strip (student_name_cell row) ->
  strip (role_ru_of (role_cell again)) = strip (role_ru_of (role_cell row)) ->
  results (Test7.generate_button remote document_text api_key model_choice
                                 [row] w) = [task] ->
  let t := Test7.generate_button remote document_text api_key model_choice
                                 (row :: between) w in
  let t' := Test7.generate_button remote document_text api_key model_choice
                                  (row :: between ++ [again]) w in
  head (results t') = Some task
  /\ results t' = results t ++ [task]
  /\ errors t' = errors t
  /\ process t' = process t.
Proof.
  intros Hdefault' Hname Hrole Hfirst t t'.
  assert (Hdefault : default_index (row :: between) = true).
  { apply (numbered_from_app 0 (row :: between) [again]).
    by rewrite <- app_comm_cons. }
  set (call := call7 document_text api_key model_choice).
  set (acc0 := {| results := []; errors := []; process := ([], w);
                  uncaught := None |}
               : tally (Test7.title_set * Test7.world)).
  set (acc1 := loop_body call acc0 row).
  set (f := fold_left (loop_body call) between acc1).
  assert (Hfold : fold_left (loop_body call) (row :: between) acc0 = f)
    by reflexivity.
  assert (Hfold' : fold_left (loop_body call) (row :: between ++ [again]) acc0
                   = loop_body call f again)
    by (by rewrite app_comm_cons, fold_left_app).
  assert (Hresults : results t = results f
                     /\ errors t = errors f /\ process t = process f).
  { rewrite <- Hfold.
    exact (default_index_fold call (row :: between) ([], w) Hdefault). }
  assert (Hresults' : results t' = results (loop_body call f again)
                      /\ errors t' = errors (loop_body call f again)
                      /\ process t' = process (loop_body call f again)).
  { rewrite <- Hfold'.
    exact (default_index_fold call (row :: between ++ [again]) ([], w)
             Hdefault'). }
  destruct Hresults as (Hresults & Herrors & Hprocess).
  destruct Hresults' as (Hresults' & Herrors' & Hprocess').
  assert (Hacc1 : results acc1 = [task]).
  { revert Hfirst. unfold Test7.generate_button, for_each_row.
    cbn [for_rows length]. fold call acc0 acc1.
    by destruct (progress (idx row) 1). }
  assert (Hhit : exists key,
             Test7.cache_key document_text (strip (student_name_cell row))
               (strip (role_ru_of (role_cell row))) model_choice = inr key
             /\ Test7.CACHE (snd (process acc1)) !! key = Some task).
  { revert Hacc1. unfold acc1, loop_body, call, Test7.call_for_row.
    cbn [process acc0].
    destruct (Test7.generate_task_json _ _ _ _ _ _ _ _)
      as [[[e|task'] used'] w'] eqn:Hcall; cbn [results process snd]; [done|].
    intros [= ->]. by apply generate_caches_result in Hcall. }
  destruct Hhit as (key & Hkey & Hcached).
  assert (Hlast : loop_body call f again
                  = {| results := results f ++ [task]; errors := errors f;
                       process := process f; uncaught := uncaught f |}).
  { apply loop_body_hit with (key := key); [by rewrite Hname, Hrole|].
    by apply loop_keeps_entries. }
  rewrite Hlast in Hresults', Herrors', Hprocess'.
  cbn [results errors process] in Hresults', Herrors', Hprocess'.
  rewrite Hresults', Herrors', Hprocess', Hresults, Herrors, Hprocess.
  repeat split.
  destruct (loop_appends call between acc1) as [Hf _].
  unfold f. by rewrite Hf, Hacc1.
Qed.

End Repeats.

(** ** The document reader *)

Section Document.

Lemma join_lines_nil (ls : list str) :
  Forall (fun l => l <> []) ls -> join_lines ls = [] -> ls = [].
Proof.
  destruct ls as [|l ls]; [done|]. intros Hall. simpl.
  apply Forall_cons in Hall as [Hl _]. by destruct l.
Qed.

Lemma last_joined (l : str) (qs : list str) (c : N) :
  Forall (fun q => q <> []) qs ->
  last (l ++ flat_map (fun x => NL :: x) qs) = Some c ->
  exists q, q ∈ l :: qs /\ last q = Some c.
Proof.
  revert l. induction qs as [|x qs IH]; intros l Hall; simpl.
  - rewrite app_nil_r. exists l. split; [left|done].
  - apply Forall_cons in Hall as [Hx Hall].
    change (l ++ NL :: x ++ flat_map (fun x => NL :: x) qs)
      with (l ++ (NL :: x) ++ flat_map (fun x => NL :: x) qs).
    rewrite app_assoc. intros Hlast.
    destruct (IH _ Hall Hlast) as (q & Hq & Hc).
    apply elem_of_cons in Hq as [-> | Hq].
    + exists x. split; [right; left|].
      rewrite last_app in Hc. rewrite last_cons in Hc.
      destruct (last x) eqn:E; [done|]. by apply last_None in E.
    + exists q. split; [by do 2 right | done].
Qed.

Lemma paragraphs_stripped (ps : list str) (q : str) :
  q ∈ map strip (filter (fun text => strip text <> []) ps) ->
  q <> [] /\ exists p, p ∈ ps /\ q = strip p.
Proof.
  intros (p & -> & Hp)%list_elem_of_fmap.
  apply list_elem_of_filter in Hp as [Hne Hp]. eauto.
Qed.

(** X12: the text read from a document is empty exactly when the file
    cannot be opened or every paragraph is blank; otherwise it neither
    begins nor ends with white space. *)
Theorem docx_text_empty_or_trimmed (file : docx_file) :
  (extract_text_from_docx file = []
   <-> match file with
       | None => True
       | Some doc_paragraphs => Forall (fun p => strip p = []) doc_paragraphs
       end)
  /\ (forall c,
        head (extract_text_from_docx file) = Some c
        \/ last (extract_text_from_docx file) = Some c ->
        isspace c = false).
Proof.
  destruct file as [ps|]; [|split; [done | by intros c [?|?]]].
  unfold extract_text_from_docx.
  set (qs := map strip (filter (fun text => strip text <> []) ps)).
  assert (Hqs : Forall (fun q => q <> []) qs).
  { apply Forall_forall. intros q Hq. by apply paragraphs_stripped in Hq as [? _]. }
  split; [split|].
  - intros Hnil%join_lines_nil; [|exact Hqs].
    apply Forall_forall. intros p Hp.
    destruct (decide (strip p = [])) as [|Hne]; [done|].
    assert (Hin : strip p ∈ qs).
    { apply list_elem_of_fmap. exists p. split; [done|].
      by apply list_elem_of_filter. }
    rewrite Hnil in Hin. by apply elem_of_nil in Hin.
  - intros Hblank. assert (Hnil : qs = []); [|by rewrite Hnil].
    destruct qs as [|q qs'] eqn:E; [done|].
    assert (Hq : q ∈ map strip (filter (fun text => strip text <> []) ps))
      by (fold qs; rewrite E; left).
    apply paragraphs_stripped in Hq as (Hne & p & Hp & ->).
    rewrite Forall_forall in Hblank. by rewrite (Hblank p Hp) in Hne.
  - intros c Hc.
    assert (Hfrom : exists q, q ∈ qs
                              /\ (head q = Some c \/ last q = Some c)).
    { destruct qs as [|q qs'] eqn:E; [by destruct Hc|].
      apply Forall_cons in Hqs as [Hq Hqs'].
      destruct Hc as [Hhead|Hlast].
      - exists q. split; [left|]. left. simpl in Hhead. by destruct q.
      - simpl in Hlast.
        destruct (last_joined q qs' c Hqs' Hlast) as (q' & Hq' & Hc').
        exists q'. auto. }
    destruct Hfrom as (q & Hq & Hends).
    apply paragraphs_stripped in Hq as (_ & p & _ & ->).
    by apply (strip_trimmed c p).
Qed.

End Document.

(** ** The button handler *)

Section Page.
Context `{PyRuntime}.
Variable remote : list request -> request -> http_outcome.

(** The loop ends with an exception exactly when a progress call of the
    roster raises. *)
Lemma for_rows_refused {St : Type}
    (call : str -> str -> St -> (exn + pyval) * St)
    (total : nat) (students : list student) (acc : tally St) :
  forallb (fun row => match progress (idx row) total with
                      | None => true
                      | Some _ => false
                      end) students = false ->
  exists e, uncaught (for_rows call total students acc) = Some e.
Proof.
  revert acc. induction students as [|row rest IH]; intros acc; [done|].
  cbn [forallb for_rows]. destruct (progress (idx row) total) as [e|].
  - intros _. by exists e.
  - apply IH.
Qed.

Lemma for_each_row_uncaught {St : Type}
    (call : str -> str -> St -> (exn + pyval) * St)
    (students : list student) (s : St) :
  match uncaught (for_each_row call students s) with
  | None => progress_accepted students = true
  | Some _ => progress_accepted students = false
  end.
Proof.
  unfold for_each_row. destruct (progress_accepted students) eqn:Haccepted.
  - by rewrite for_rows_all.
  - by destruct (for_rows_refused call (length students) students
                   {| results := []; errors := []; process := s;
                      uncaught := None |} Haccepted) as [e ->].
Qed.

(** The input the handler needs before it starts the loop, whatever the
    loop is. *)
Lemma button_handler_cases (i : inputs) :
  (exists file df,
      button_pressed i = true
      /\ uploaded_docx i = Some file
      /\ uploaded_csv i = Some (Some df)
      /\ effective_api_key i <> []
      /\ extract_text_from_docx file <> []
      /\ table_rows df <> []
      /\ py "student_name" ∈ columns df
      /\ py "role" ∈ columns df
      /\ forall (St T : Type)
                (batch : str -> str -> str -> list student -> St -> tally T)
                (process_of : T -> St) (s : St),
          button_handler batch process_of i s
          = let t := batch (extract_text_from_docx file) (effective_api_key i)
                           (model_choice i) (students_of df) s in
            match uncaught t with
            | Some e => (Uncaught e, process_of (process t))
            | None =>
              (GenerationFinished (results t) (errors t), process_of (process t))
            end)
  \/ (exists out,
        (forall rs es, out <> GenerationFinished rs es)
        /\ (forall e, out <> Uncaught e)
        /\ forall (St T : Type)
                  (batch : str -> str -> str -> list student -> St -> tally T)
                  (process_of : T -> St) (s : St),
            button_handler batch process_of i s = (out, s)).
Proof.
  unfold button_handler.
  destruct (button_pressed i); cbn [negb];
    [|right; by exists NothingToDo].
  destruct (uploaded_docx i) as [file|];
    [|right; by exists DocxMissing].
  destruct (uploaded_csv i) as [csv|];
    [|right; by exists CsvMissing].
  destruct (effective_api_key i) as [|c key] eqn:Hkey;
    [right; by exists ApiKeyMissing|].
  destruct (extract_text_from_docx file) as [|x text] eqn:Htext;
    [right; by exists NoTextInDocx|].
  destruct csv as [df|];
    [change (default _ (Some df)) with df
    |right; by exists WrongCsvStructure].
  destruct (df_empty df) eqn:Hempty;
    [right; by exists WrongCsvStructure|].
  destruct (bool_decide (py "student_name" ∈ columns df)) eqn:Hname;
    [|right; by exists WrongCsvStructure].
  destruct (bool_decide (py "role" ∈ columns df)) eqn:Hrole;
    [|right; by exists WrongCsvStructure].
  left. exists file, df.
  apply bool_decide_eq_true in Hname, Hrole.
  repeat split; try done; try (by rewrite Htext).
  intros Hrows. unfold df_empty in Hempty. by rewrite Hrows in Hempty.
Qed.

End Page.

Section Handlers.
Context `{PyRuntime}.
Variable remote : list request -> request -> http_outcome.

(** X13: what the handler of either script needs before it calls the
    service.  When the button was pressed, a document with some text and a
    CSV with at least one row and the columns [student_name] and [role]
    were uploaded, and a key was typed or is in the environment, the
    handler runs the batch.  When no call of the progress bar raises, it
    then shows a task or an error line for every row of the CSV; when one
    does, its exception ends the run and no outcome is shown.  In every
    other case the handler shows one of its messages or nothing, sends no
    request and leaves the cache as it is. *)
Theorem handler_runs_only_on_complete_input (i : inputs) (w : Test7.world)
    (sent : list request) :
  let shown7 := fst (extended_handler remote i w) in
  let shown5 := fst (simple_handler remote i sent) in
  let outcome_for (df : dataframe) (out : shown) :=
    match out with
    | GenerationFinished rs es =>
      progress_accepted (students_of df) = true
      /\ (length rs + length es)%nat = length (table_rows df)
    | Uncaught e => progress_accepted (students_of df) = false
    | _ => False
    end in
  (exists file df,
      button_pressed i = true
      /\ uploaded_docx i = Some file
      /\ uploaded_csv i = Some (Some df)
      /\ effective_api_key i <> []
      /\ extract_text_from_docx file <> []
      /\ table_rows df <> []
      /\ py "student_name" ∈ columns df
      /\ py "role" ∈ columns df
      /\ outcome_for df shown7
      /\ outcome_for df shown5)
  \/ (snd (extended_handler remote i w) = w
      /\ snd (simple_handler remote i sent) = sent
      /\ (forall rs es, shown7 <> GenerationFinished rs es)
      /\ (forall rs es, shown5 <> GenerationFinished rs es)
      /\ (forall e, shown7 <> Uncaught e)
      /\ (forall e, shown5 <> Uncaught e)).
Proof.
  intros shown7 shown5 outcome_for.
  unfold shown7, shown5, extended_handler, simple_handler.
  destruct (button_handler_cases i)
    as [(file & df & Hi) | (out & Hout & Hout' & Hsame)].
  - left. exists file, df.
    destruct Hi as (Hb & Hdocx & Hcsv & Hkey & Htext & Hrows & Hname & Hrole & Hrun).
    assert (Hlen : length (students_of df) = length (table_rows df))
      by (unfold students_of; apply length_map).
    repeat (split; [done|]). rewrite !Hrun. cbv zeta.
    unfold Test7.generate_button, Test5.generate_button. split.
    + pose proof (for_each_row_uncaught
                    (Test7.call_for_row remote (extract_text_from_docx file)
                       (effective_api_key i) (model_choice i))
                    (students_of df) ([], w)) as Hend.
      destruct (uncaught _) as [e|]; cbn [fst outcome_for]; [exact Hend|].
      split; [exact Hend|]. rewrite <- Hlen.
      by apply for_each_row_accepted.
    + pose proof (for_each_row_uncaught
                    (Test5.call_for_row remote (extract_text_from_docx file)
                       (effective_api_key i) (model_choice i))
                    (students_of df) sent) as Hend.
      destruct (uncaught _) as [e|]; cbn [fst outcome_for]; [exact Hend|].
      split; [exact Hend|]. rewrite <- Hlen.
      by apply for_each_row_accepted.
  - right. by rewrite !Hsame.
Qed.

Lemma effective_api_key_cases (i : inputs) :
  effective_api_key i
  = if decide (strip (api_key_input i) = []) then default [] (MISTRAL_API_KEY i)
    else strip (api_key_input i).
Proof.
  unfold effective_api_key. destruct (strip (api_key_input i)) as [|c key].
  - by rewrite decide_True.
  - by rewrite decide_False.
Qed.

(** X14: every request the handler of either script sends carries the
    model chosen on the page and, as bearer token, the key typed in the
    sidebar without the white space around it, or, when nothing but white
    space was typed, the value of [MISTRAL_API_KEY] as it is.  The
    requests sent before stay first. *)
Theorem handler_requests_carry_key_and_model (i : inputs) (w : Test7.world)
    (sent : list request) :
  let api_key :=
    if decide (strip (api_key_input i) = [])
    then default [] (MISTRAL_API_KEY i)
    else strip (api_key_input i) in
  let carries (req : request) :=
    authorization req = py "Bearer " ++ api_key
    /\ model req = model_choice i in
  (exists new,
      Test7.sent (snd (extended_handler remote i w)) = Test7.sent w ++ new
      /\ Forall carries new)
  /\ (exists new,
        snd (simple_handler remote i sent) = sent ++ new
        /\ Forall carries new).
Proof.
  intros api_key carries. unfold extended_handler, simple_handler.
  assert (Hapi : effective_api_key i = api_key) by apply effective_api_key_cases.
  destruct (button_handler_cases i)
    as [(file & df & Hi) | (out & Hout & Hout' & Hsame)].
  - destruct Hi as (_ & _ & _ & Hkey & _ & _ & _ & _ & Hrun).
    rewrite !Hrun. cbv zeta. rewrite Hapi in *.
    set (rows := reached (length (students_of df)) (students_of df)).
    split.
    + destruct (for_rows_reached
                  (Test7.call_for_row remote (extract_text_from_docx file)
                     api_key (model_choice i))
                  (length (students_of df)) (students_of df)
                  {| results := []; errors := []; process := ([], w);
                     uncaught := None |}) as (_ & _ & Hprocess).
      destruct (loop_requests remote (extract_text_from_docx file) api_key
                  (model_choice i) rows
                  {| results := []; errors := []; process := ([], w);
                     uncaught := None |})
        as (asked & _ & Hsent).
      exists (map (fun row =>
                     Test7.chat_request (extract_text_from_docx file)
                       (strip (student_name_cell row))
                       (strip (role_ru_of (role_cell row)))
                       api_key (model_choice i)) asked).
      split.
      * unfold Test7.generate_button, for_each_row.
        unfold Test7.title_set in *.
        destruct (uncaught _); cbn [snd]; rewrite Hprocess; exact Hsent.
      * apply Forall_forall. by intros req (row & -> & _)%list_elem_of_fmap.
    + destruct (for_rows_reached
                  (Test5.call_for_row remote (extract_text_from_docx file)
                     api_key (model_choice i))
                  (length (students_of df)) (students_of df)
                  {| results := []; errors := []; process := sent;
                     uncaught := None |}) as (_ & _ & Hprocess).
      eexists. split.
      * unfold Test5.generate_button, for_each_row.
        destruct (uncaught _); cbn [snd id]; rewrite Hprocess;
          apply (simple_loop_requests remote (extract_text_from_docx file)
                   api_key (model_choice i) rows
                   {| results := []; errors := []; process := sent;
                      uncaught := None |} Hkey).
      * apply Forall_forall. by intros req (row & -> & _)%list_elem_of_fmap.
  - rewrite !Hsame. cbn [snd]. split; exists []; by rewrite app_nil_r.
Qed.

Lemma simple_batch_tasks_complete (document_text api_key model_choice : str)
    (students : list student) (sent : list request) :
  Forall (fun r => has_fields Test5.required_fields r = true)
         (results (Test5.generate_button remote document_text api_key
                                         model_choice students sent)).
Proof.
  unfold Test5.generate_button.
  destruct (for_each_row_outcomes
              (Test5.call_for_row remote document_text api_key model_choice)
              students sent) as (_ & _ & -> & _).
  revert sent. generalize (reached (length students) students) as rows.
  induction rows as [|row rest IH]; intros sent.
  - constructor.
  - cbn [row_outcomes]. unfold Test5.call_for_row at 1.
    destruct (Test5.generate_task_json _ _ _ _ _ _ _) as [[e|r] sent'] eqn:Hcall.
    + apply IH.
    + unfold successes. cbn [omap list_omap]. constructor; [|apply IH].
      by destruct (simple_generate_returns_answer _ _ _ _ _ _ _ _ _ Hcall)
        as (raw_text & d & _ & _ & _ & Hfields).
Qed.

(** X15: the tasks a press of the button shows are complete.  In the
    extended variant, which starts every run of the script with an empty
    cache, each has title, description, status, priority, role, executor
    and author; in the simpler variant each has its six required fields. *)
Theorem handler_tasks_have_all_fields (i : inputs) (w : Test7.world)
    (sent : list request) :
  (Test7.CACHE w = ∅ ->
   forall rs es,
     fst (extended_handler remote i w) = GenerationFinished rs es ->
     Forall (fun r => has_fields task_fields r = true) rs)
  /\ (forall rs es,
        fst (simple_handler remote i sent) = GenerationFinished rs es ->
        Forall (fun r => has_fields Test5.required_fields r = true) rs).
Proof.
  unfold extended_handler, simple_handler.
  destruct (button_handler_cases i)
    as [(file & df & Hi) | (out & Hout & Hout' & Hsame)].
  - destruct Hi as (_ & _ & _ & _ & _ & _ & _ & _ & Hrun).
    rewrite !Hrun. cbv zeta. split.
    + intros Hempty rs es. destruct (uncaught _); [done|].
      intros [= <- _]. apply batch_tasks_complete.
      intros key r. by rewrite Hempty, lookup_empty.
    + intros rs es. destruct (uncaught _); [done|].
      intros [= <- _]. apply simple_batch_tasks_complete.
  - rewrite !Hsame. cbn [fst]. split; [intros _|]; intros rs es ->;
      by destruct (Hout rs es).
Qed.

End Handlers.

(** ** What the decoder raises *)

(** The [ValueError]s that come from the libraries: the syntax error of
    the JSON decoder, the two refusals of a header, and the limit on the
    digits of an int. *)
#[local] Abbreviation from_library msg :=
  (msg = JSONDecode \/ msg = UnicodeEncode \/ msg = InvalidHeader
   \/ msg = ExceedsDigitLimit).

Section DecoderErrors.
Context `{PyRuntime}.

(** The ways [json.loads] fails: a syntax error, too many nested objects
    and arrays, an int with too many digits. *)
#[local] Abbreviation decoder_error e :=
  (e = JSONDecodeError \/ e = RecursionError
   \/ e = ValueError ExceedsDigitLimit).












End DecoderErrors.

(** ** The error lines of a batch *)

Section ErrorLines.
Context `{PyRuntime}.
Variable remote : list request -> request -> http_outcome.







End ErrorLines.

(** ** What a batch keeps true *)

Section BatchInvariants.
Context `{PyRuntime}.
Variable remote : list request -> request -> http_outcome.

#[local] Abbreviation call7 document_text api_key model_choice :=
  (Test7.call_for_row remote document_text api_key model_choice).

(** The pair [p] is the title and the description of the record [r]. *)
#[local] Abbreviation pair_of r p :=
  (exists title description,
      getitem_key r (py "title") = inr title
      /\ getitem_key r (py "description") = inr description
      /\ hash_of title = inr (fst p)
      /\ hash_of description = inr (snd p)).

Lemma set_add_inv (x y : hashable * hashable) (used : Test7.title_set) :
  y ∈ Test7.set_add x used -> y ∈ used \/ y = x.
Proof.
  unfold Test7.set_add. destruct (Test7.set_mem x used); [by left|].
  intros [Hy | Hy%list_elem_of_singleton]%elem_of_app; auto.
Qed.

(** The pair that lines 106 to 111 add is the one of the record they
    return. *)
Lemma make_title_unique_pair (data data' : pyval) (role_ru : str)
    (used used' : Test7.title_set) :
  Test7.make_title_unique data role_ru used = inr (data', used') ->
  exists p, pair_of data' p /\ used' = Test7.set_add p used.
Proof.
  unfold Test7.make_title_unique, setitem.
  destruct (getitem_key data (py "title")) as [e|title] eqn:Htitle; [done|].
  destruct (getitem_key data (py "description")) as [e|description] eqn:Hdesc;
    [done|].
  destruct (hash_of title) as [e|t] eqn:Ht; [done|].
  destruct (hash_of description) as [e|d] eqn:Hd; [done|].
  destruct (Test7.set_mem (t, d) used).
  - destruct (str_of t) as [e|text]; [done|].
    destruct data as [| | | | | |items]; try done.
    intros [= <- <-]. eexists (_, d). split; [|reflexivity].
    exists (PStr (text ++ py " [" ++ role_ru ++ py "]")), description.
    unfold getitem_key in *. rewrite dict_get_set_eq.
    rewrite dict_get_set_ne by key_ne. by repeat split.
  - intros [= <- <-]. exists (t, d). split; [|reflexivity].
    by exists title, description.
Qed.

(** What a call of the loop does to the set of used titles. *)
Lemma call_for_row_used (document_text api_key model_choice name role : str)
    (s : Test7.title_set * Test7.world) :
  let '(o, s') := call7 document_text api_key model_choice name role s in
  fst s' = fst s
  \/ exists r p, o = inr r /\ pair_of r p /\ fst s' = Test7.set_add p (fst s).
Proof.
  destruct s as [used w]. unfold Test7.call_for_row.
  destruct (Test7.generate_task_json _ _ _ _ _ _ _ _)
    as [[[e|r] used'] w'] eqn:Hcall.
  - left. by apply failed_call_unchanged in Hcall as [-> _].
  - destruct (generate_returns remote _ _ _ _ _ _ _ _ _ _ Hcall)
      as (key & _ & [(_ & -> & _) | Hmiss]); [by left|].
    destruct Hmiss as (data & normalized & _ & _ & _ & (used1 & Huniq & ->) & _).
    right. apply make_title_unique_pair in Huniq as (p & Hp & ->).
    by exists r, p.
Qed.

(** X17: every pair of title and description that a batch of the extended
    variant has marked as used is the title and the description of a task
    among its results. *)
Theorem used_titles_belong_to_results (document_text api_key model_choice : str)
    (students : list student) (w : Test7.world) :
  let t := Test7.generate_button remote document_text api_key model_choice
                                 students w in
  Forall (fun p =>
            exists r title description,
              r ∈ results t
              /\ getitem_key r (py "title") = inr title
              /\ getitem_key r (py "description") = inr description
              /\ hash_of title = inr (fst p)
              /\ hash_of description = inr (snd p))
         (fst (process t)).
Proof.
  intros t. unfold t, Test7.generate_button, for_each_row. clear t.
  assert (Hloop : forall rows acc,
             Forall (fun p => exists r, r ∈ results acc /\ pair_of r p)
                    (fst (process acc)) ->
             let t := fold_left
                        (loop_body (call7 document_text api_key model_choice))
                        rows acc in
             Forall (fun p => exists r, r ∈ results t /\ pair_of r p)
                    (fst (process t))).
  { induction rows as [|row rest IH]; intros acc Hacc; [exact Hacc|].
    cbn [fold_left]. apply IH.
    pose proof (call_for_row_used document_text api_key model_choice
                  (strip (student_name_cell row))
                  (strip (role_ru_of (role_cell row))) (process acc)) as Hused.
    unfold loop_body.
    destruct (call7 _ _ _ _ _ _) as [[e|task] s']; cbn [results process];
      unfold Test7.title_set in *.
    - destruct Hused as [-> | (r & p & [=] & _)]. exact Hacc.
    - assert (Hold : Forall (fun p => exists r,
                                 r ∈ results acc ++ [task] /\ pair_of r p)
                            (fst (process acc))).
      { eapply Forall_impl; [exact Hacc|].
        intros p (r & Hr & Hp). exists r. split; [|exact Hp].
        apply elem_of_app. by left. }
      destruct Hused as [-> | (r & p & [= <-] & Hp & ->)]; [exact Hold|].
      apply Forall_forall. intros q [Hq | ->]%set_add_inv.
      + by apply (proj1 (Forall_forall _ _) Hold).
      + exists task. split; [|exact Hp].
        apply elem_of_app. right. by apply list_elem_of_singleton. }
  specialize (Hloop (reached (length students) students)
                    {| results := []; errors := []; process := ([], w);
                       uncaught := None |}).
  cbn [process fst] in Hloop. specialize (Hloop (Forall_nil_2 _)).
  destruct (for_rows_reached (call7 document_text api_key model_choice)
              (length students) students
              {| results := []; errors := []; process := ([], w);
                 uncaught := None |}) as (Hresults & _ & Hprocess).
  unfold Test7.title_set in *. rewrite Hresults, Hprocess.
  eapply Forall_impl; [exact Hloop|].
  intros p (r & Hr & title & description & Hp). by exists r, title, description.
Qed.

(** The record [r] names a row of [students] as its executor, with the
    role of that row. *)
#[local] Abbreviation assigned_within students r :=
  (exists row,
      row ∈ students
      /\ getitem_key r (py "executor")
         = inr (PStr (strip (student_name_cell row)))
      /\ getitem_key r (py "role")
         = inr (PStr (strip (role_ru_of (role_cell row))))).

Lemma make_title_unique_keeps (data data' : pyval) (role_ru k : str)
    (used used' : Test7.title_set) :
  Test7.make_title_unique data role_ru used = inr (data', used') ->
  k <> py "title" ->
  getitem_key data' k = getitem_key data k.
Proof.
  unfold Test7.make_title_unique, setitem. intros Huniq Hk.
  repeat case_match; simplify_eq; try done.
  unfold getitem_key. by rewrite dict_get_set_ne.
Qed.

(** A record returned for a row of the roster names a row of the roster,
    when every cached record does; and the cache keeps that. *)
Lemma call_assigns_within (document_text api_key model_choice : str)
    (students : list student) (row : student)
    (used : Test7.title_set) (used' : option Test7.title_set)
    (w w' : Test7.world) (r : pyval) :
  row ∈ students ->
  (forall key c, Test7.CACHE w !! key = Some c -> assigned_within students c) ->
  Test7.generate_task_json remote document_text
    (strip (student_name_cell row)) (strip (role_ru_of (role_cell row)))
    api_key model_choice (Some used) w
  = (inr r, used', w') ->
  assigned_within students r
  /\ forall key c, Test7.CACHE w' !! key = Some c -> assigned_within students c.
Proof.
  intros Hrow Hcache Hcall.
  destruct (generate_returns remote _ _ _ _ _ _ _ _ _ _ Hcall)
    as (key & _ & [(Hhit & _ & ->) | Hmiss]).
  - split; [by apply (Hcache key) | exact Hcache].
  - destruct Hmiss
      as (data & normalized & _ & _ & Hnorm & (used1 & Huniq & _) & ->).
    assert (Hr : assigned_within students r).
    { exists row. split; [exact Hrow|].
      rewrite !(make_title_unique_keeps _ _ _ _ _ _ Huniq) by key_ne.
      destruct data as [| | | | | |d]; try discriminate.
      destruct (normalize_fields d (strip (student_name_cell row))
                  (strip (role_ru_of (role_cell row))))
        as (n & Hn & Hrole & Hexec & _).
      rewrite Hn in Hnorm. injection Hnorm as <-.
      unfold getitem_key. by rewrite Hrole, Hexec. }
    split; [exact Hr|]. intros k c. cbn [Test7.CACHE].
    destruct (decide (key = k)) as [->|Hne].
    + rewrite lookup_insert_eq. by intros [= <-].
    + rewrite lookup_insert_ne by done. apply Hcache.
Qed.

(** X18: every task of a batch of the extended variant that starts from an
    empty cache names a row of the roster: its executor is the stripped
    name of that row and its role the localized role of that row. *)
Theorem batch_tasks_assigned_within_roster
    (document_text api_key model_choice : str)
    (students : list student) (w : Test7.world) :
  Test7.CACHE w = ∅ ->
  Forall (fun r =>
            exists row,
              row ∈ students
              /\ getitem_key r (py "executor")
                 = inr (PStr (strip (student_name_cell row)))
              /\ getitem_key r (py "role")
                 = inr (PStr (strip (role_ru_of (role_cell row)))))
         (results (Test7.generate_button remote document_text api_key
                                         model_choice students w)).
Proof.
  intros Hempty. unfold Test7.generate_button.
  destruct (for_each_row_outcomes
              (call7 document_text api_key model_choice) students ([], w))
    as (_ & _ & -> & _).
  assert (Hloop : forall rest w used,
             (forall row, row ∈ rest -> row ∈ students) ->
             (forall key c,
                 Test7.CACHE w !! key = Some c -> assigned_within students c) ->
             Forall (fun r => assigned_within students r)
                    (successes
                       (row_outcomes (call7 document_text api_key model_choice)
                                     rest (used, w)))).
  { clear w Hempty.
    induction rest as [|row rest IH]; intros w used Hrows Hcache.
    - constructor.
    - cbn [row_outcomes]. unfold Test7.call_for_row at 1.
      destruct (Test7.generate_task_json _ _ _ _ _ _ _ _)
        as [[[e|r] used'] w'] eqn:Hcall.
      + apply failed_call_unchanged in Hcall as [_ Hsame].
        apply IH; [intros x Hx; apply Hrows; by right|]. by rewrite Hsame.
      + destruct (call_assigns_within _ _ _ students row _ _ _ _ _
                    (Hrows row ltac:(left)) Hcache Hcall) as [Hr Hcache'].
        unfold successes. cbn [omap list_omap]. constructor; [exact Hr|].
        apply IH; [intros x Hx; apply Hrows; by right | exact Hcache']. }
  apply Hloop; [|intros key c; by rewrite Hempty, lookup_empty].
  intros row Hrow. destruct (reached_prefix (length students) students)
    as [rest Hrest].
  rewrite Hrest. apply elem_of_app. by left.
Qed.

(** X19: the cache key joins its four parts with "||" and so does not
    tell a name that ends in "||b" with role c from the same name without
    that ending with role "b||c".  Once a call for the first that missed
    the cache has returned a record, a call for the second returns that
    very record, which names the first as executor and c as role, and
    sends nothing. *)
Theorem cache_key_runs_parts_together
    (document_text a b c model key key1 key2 : str)
    (used1 used1' used2 : option Test7.title_set)
    (w w1 : Test7.world) (r : pyval) :
  Test7.cache_key document_text (a ++ py "||" ++ b) c model = inr key ->
  Test7.CACHE w !! key = None ->
  Test7.generate_task_json remote document_text (a ++ py "||" ++ b) c
                           key1 model used1 w
  = (inr r, used1', w1) ->
  Test7.cache_key document_text a (b ++ py "||" ++ c) model = inr key
  /\ getitem_key r (py "executor") = inr (PStr (a ++ py "||" ++ b))
  /\ getitem_key r (py "role") = inr (PStr c)
  /\ Test7.generate_task_json remote document_text a (b ++ py "||" ++ c)
                              key2 model used2 w1
     = (inr r, used2, w1).
Proof.
  intros Hkey Hmiss Hfirst.
  assert (Hsame : Test7.cache_key document_text (a ++ py "||" ++ b) c model
                  = Test7.cache_key document_text a (b ++ py "||" ++ c) model).
  { unfold Test7.cache_key. by rewrite <- !app_assoc. }
  split; [by rewrite <- Hsame|].
  assert (Hnames : getitem_key r (py "executor")
                   = inr (PStr (a ++ py "||" ++ b))
                   /\ getitem_key r (py "role") = inr (PStr c)).
  { destruct (generate_returns remote _ _ _ _ _ _ _ _ _ _ Hfirst)
      as (key' & Hkey' & [(Hhit & _) | Hmissed]).
    { rewrite Hkey in Hkey'. injection Hkey' as <-. congruence. }
    destruct Hmissed as (data & normalized & _ & _ & Hnorm & Hused & _).
    destruct data as [| | | | | |d]; try discriminate.
    destruct (normalize_fields d (a ++ py "||" ++ b) c)
      as (n & Hn & Hrole & Hexec & _).
    rewrite Hn in Hnorm. injection Hnorm as <-.
    assert (Hn' : getitem_key (PDict n) (py "executor")
                  = inr (PStr (a ++ py "||" ++ b))
                  /\ getitem_key (PDict n) (py "role") = inr (PStr c)).
    { unfold getitem_key. by rewrite Hrole, Hexec. }
    destruct used1 as [used|].
    - destruct Hused as (used' & Huniq & _).
      by rewrite !(make_title_unique_keeps _ _ _ _ _ _ Huniq) by key_ne.
    - by destruct Hused as [-> _]. }
  split; [apply Hnames|]. split; [apply Hnames|].
  destruct (generate_caches_result remote _ _ _ _ _ _ _ _ _ _ Hfirst)
    as (key' & Hkey' & Hr).
  apply generate_hit with (key := key'); [by rewrite <- Hsame | exact Hr].
Qed.

End BatchInvariants.

(** ** The decoder reads a value from the text it consumes

    What [scan_once] returns for a text depends on the part of the text it
    consumes and on whether the next character can continue a number. *)

Section DecoderFrame.
Context `{PyRuntime}.

(** A text that cannot continue a number: it is at its end, or begins
    with white space, a comma or a closing bracket or brace. *)
#[local] Abbreviation delimited r :=
  (match r with
   | [] => True
   | x :: _ => Json.is_ws x = true \/ x = 44 \/ x = 93 \/ x = 125
   end).

Lemma app_same_length {A : Type} (c r : list A) : c ++ r = r -> c = [].
Proof.
  intros Heq. apply (f_equal length) in Heq. rewrite length_app in Heq.
  destruct c; [done | simpl in Heq; lia].
Qed.

(** [scanstring] reads at least two characters after a backslash, and at
    least six when the escape is a code point. *)
Lemma scanstring_escape_length (y t r : str) :
  Json.scanstring (92 :: y) = inr (t, r) -> (length r < length y)%nat.
Proof.
  cbn [Json.scanstring]. change (92 =? 34) with false. change (92 =? 92) with true.
  cbv iota. destruct y as [|e r1]; [done|].
  repeat case_match; try done; intros Hres;
    (eapply cons_char_length; [exact Hres|]);
    intros t' r' Hrec%scanstring_length; simpl in *; lia.
Qed.

Lemma scanstring_code_point_length (y t r : str) :
  Json.scanstring (92 :: 117 :: y) = inr (t, r) ->
  exists g1 g2 g3 g4 y',
    y = g1 :: g2 :: g3 :: g4 :: y' /\ (length r < length y')%nat.
Proof.
  cbn [Json.scanstring]. change (92 =? 34) with false. change (92 =? 92) with true.
  change (117 =? 117) with true. cbv iota.
  destruct y as [|g1 [|g2 [|g3 [|g4 y']]]]; try done.
  intros Hres. exists g1, g2, g3, g4, y'. split; [done|]. revert Hres.
  repeat case_match; try done; intros Hres;
    (eapply cons_char_length; [exact Hres|]);
    intros t' r' Hrec%scanstring_length; simpl in *; lia.
Qed.

Lemma cons_char_inr (x : N) (res : exn + (str * str)) (t r : str) :
  Json.cons_char x res = inr (t, r) ->
  exists t', res = inr (t', r) /\ t = x :: t'.
Proof.
  unfold Json.cons_char. destruct res as [e|[t' r0]]; [done|].
  intros [= <- <-]. by exists t'.
Qed.

Lemma prefix_of_six (c r r3 : str) (a1 a2 a3 a4 a5 a6 : N) :
  c ++ r = a1 :: a2 :: a3 :: a4 :: a5 :: a6 :: r3 ->
  (length r < length r3)%nat ->
  exists c', c = a1 :: a2 :: a3 :: a4 :: a5 :: a6 :: c' /\ r3 = c' ++ r.
Proof.
  intros Heq Hlen.
  destruct c as [|b1 [|b2 [|b3 [|b4 [|b5 [|b6 c']]]]]]; simpl in Heq;
    try (apply (f_equal length) in Heq; simpl in Heq; lia).
  injection Heq as -> -> -> -> -> -> <-. by exists c'.
Qed.

Lemma code_point_pattern_dec (y : str) :
  (exists g1 g2 g3 g4 r3, y = 92 :: 117 :: g1 :: g2 :: g3 :: g4 :: r3)
  \/ (forall g1 g2 g3 g4 r3, y <> 92 :: 117 :: g1 :: g2 :: g3 :: g4 :: r3).
Proof.
  destruct y as [|b [|u [|g1 [|g2 [|g3 [|g4 r3]]]]]]; try (by right).
  destruct (decide (b = 92)) as [->|Hb]; [|right; congruence].
  destruct (decide (u = 117)) as [->|Hu]; [|right; congruence].
  left. by exists g1, g2, g3, g4, r3.
Qed.

(** A code point escape that no second escape follows. *)
Lemma code_point_alone (h1 h2 h3 h4 uni : N) (y : str) :
  Json.hex4 h1 h2 h3 h4 = Some uni ->
  (forall g1 g2 g3 g4 r3, y <> 92 :: 117 :: g1 :: g2 :: g3 :: g4 :: r3) ->
  Json.scanstring (92 :: 117 :: h1 :: h2 :: h3 :: h4 :: y)
  = Json.cons_char uni (Json.scanstring y).
Proof.
  intros Hhex Hno. cbn [Json.scanstring].
  change (92 =? 34) with false. change (92 =? 92) with true.
  change (117 =? 117) with true. cbv iota. rewrite Hhex.
  destruct (Json.is_high_surrogate uni); [|done].
  destruct y as [|b [|u [|g1 [|g2 [|g3 [|g4 r3]]]]]]; try done.
  destruct (N.eqb_spec b 92) as [->|Hb]; [|done].
  destruct (N.eqb_spec u 117) as [->|Hu]; [|done].
  by destruct (Hno g1 g2 g3 g4 r3).
Qed.

(** A code point escape that a second one follows. *)
Lemma code_point_pair (h1 h2 h3 h4 uni g1 g2 g3 g4 : N) (r3 : str) :
  Json.hex4 h1 h2 h3 h4 = Some uni ->
  Json.scanstring
    (92 :: 117 :: h1 :: h2 :: h3 :: h4 :: 92 :: 117 :: g1 :: g2 :: g3 :: g4 :: r3)
  = if Json.is_high_surrogate uni then
      match Json.hex4 g1 g2 g3 g4 with
      | None => inl JSONDecodeError
      | Some uni2 =>
        if Json.is_low_surrogate uni2
        then Json.cons_char (Json.join_surrogates uni uni2) (Json.scanstring r3)
        else Json.cons_char uni
               (Json.scanstring (92 :: 117 :: g1 :: g2 :: g3 :: g4 :: r3))
      end
    else Json.cons_char uni
           (Json.scanstring (92 :: 117 :: g1 :: g2 :: g3 :: g4 :: r3)).
Proof.
  intros Hhex.
  change (Json.scanstring
            (92 :: 117 :: h1 :: h2 :: h3 :: h4 :: 92 :: 117 :: g1 :: g2 :: g3
                :: g4 :: r3))
    with (match Json.hex4 h1 h2 h3 h4 with
          | None => inl JSONDecodeError
          | Some uni =>
            if Json.is_high_surrogate uni then
              match Json.hex4 g1 g2 g3 g4 with
              | None => inl JSONDecodeError
              | Some uni2 =>
                if Json.is_low_surrogate uni2
                then Json.cons_char (Json.join_surrogates uni uni2)
                                    (Json.scanstring r3)
                else Json.cons_char uni
                       (Json.scanstring
                          (92 :: 117 :: g1 :: g2 :: g3 :: g4 :: r3))
              end
            else Json.cons_char uni
                   (Json.scanstring (92 :: 117 :: g1 :: g2 :: g3 :: g4 :: r3))
          end).
  by rewrite Hhex.
Qed.

Lemma code_point_hex (h1 h2 h3 h4 : N) (y t r : str) :
  Json.scanstring (92 :: 117 :: h1 :: h2 :: h3 :: h4 :: y) = inr (t, r) ->
  exists uni, Json.hex4 h1 h2 h3 h4 = Some uni.
Proof.
  cbn [Json.scanstring]. change (92 =? 34) with false. change (92 =? 92) with true.
  change (117 =? 117) with true. cbv iota.
  destruct (Json.hex4 h1 h2 h3 h4) as [uni|]; [eauto | done].
Qed.

(** A string literal is read from the characters up to its closing quote:
    what follows them does not matter. *)
Lemma scanstring_frame_bounded (n : nat) (c r r' t : str) :
  (length c <= n)%nat ->
  Json.scanstring (c ++ r) = inr (t, r) ->
  Json.scanstring (c ++ r') = inr (t, r').
Proof.
  revert c r r' t. induction n as [|n IH]; intros c r r' t Hn Hres.
  { destruct c; [|simpl in Hn; lia]. apply scanstring_length in Hres.
    simpl in Hres. lia. }
  destruct c as [|c0 c1].
  { apply scanstring_length in Hres. simpl in Hres. lia. }
  simpl in Hn.
  assert (Hrec : forall x y t0,
             (length y <= n)%nat ->
             Json.cons_char x (Json.scanstring (y ++ r)) = inr (t0, r) ->
             Json.cons_char x (Json.scanstring (y ++ r')) = inr (t0, r')).
  { intros x y t0 Hy (t' & Hsub & ->)%cons_char_inr.
    by rewrite (IH y r r' t' Hy Hsub). }
  destruct (N.eqb_spec c0 34) as [->|Hquote].
  { revert Hres. cbn [app Json.scanstring]. change (34 =? 34) with true. cbv iota.
    intros [= <- Hc1]. by apply app_same_length in Hc1 as ->. }
  destruct (N.eqb_spec c0 92) as [->|Hback].
  - pose proof (scanstring_escape_length _ _ _ Hres) as Hlen.
    destruct c1 as [|e c2]; [simpl in Hlen; lia|].
    destruct (N.eqb_spec e 117) as [->|Hu].
    + destruct (scanstring_code_point_length _ _ _ Hres)
        as (g1 & g2 & g3 & g4 & y' & Hy & Hlen').
      destruct c2 as [|h1 [|h2 [|h3 [|h4 c6]]]]; simpl in Hy;
        try (apply (f_equal length) in Hy; simpl in Hy, Hlen'; lia).
      injection Hy as <- <- <- <- <-.
      cbn [app] in Hres |- *.
      destruct (code_point_hex _ _ _ _ _ _ _ Hres) as [uni Hhex].
      simpl in Hn.
      destruct (code_point_pattern_dec (c6 ++ r))
        as [(k1 & k2 & k3 & k4 & r3 & Hpat) | Hno].
      * rewrite Hpat, (code_point_pair _ _ _ _ uni) in Hres by done.
        assert (Hshort : (length r < length r3)%nat).
        { destruct (Json.is_high_surrogate uni);
            [destruct (Json.hex4 k1 k2 k3 k4) as [uni2|]; [|done];
             destruct (Json.is_low_surrogate uni2)|];
            apply cons_char_inr in Hres as (t' & Hsub & _).
          - by apply scanstring_length in Hsub.
          - apply scanstring_code_point_length in Hsub
              as (? & ? & ? & ? & ? & [= <- <- <- <- <-] & ?). done.
          - apply scanstring_code_point_length in Hsub
              as (? & ? & ? & ? & ? & [= <- <- <- <- <-] & ?). done. }
        destruct (prefix_of_six _ _ _ _ _ _ _ _ _ Hpat Hshort) as (c7 & -> & ->).
        cbn [app]. rewrite (code_point_pair _ _ _ _ uni) by done.
        simpl in Hn.
        destruct (Json.is_high_surrogate uni);
          [destruct (Json.hex4 k1 k2 k3 k4) as [uni2|]; [|done];
           destruct (Json.is_low_surrogate uni2)|].
        -- apply Hrec; [lia | done].
        -- apply (Hrec uni (92 :: 117 :: k1 :: k2 :: k3 :: k4 :: c7));
             [simpl; lia | done].
        -- apply (Hrec uni (92 :: 117 :: k1 :: k2 :: k3 :: k4 :: c7));
             [simpl; lia | done].
      * rewrite (code_point_alone _ _ _ _ uni) in Hres by done.
        assert (Hframe := Hrec uni c6 t ltac:(lia) Hres).
        rewrite (code_point_alone _ _ _ _ uni); [done | done |].
        intros k1 k2 k3 k4 r3 Hpat.
        apply cons_char_inr in Hframe as (t' & Hsub & _).
        rewrite Hpat in Hsub.
        apply scanstring_code_point_length in Hsub
          as (? & ? & ? & ? & ? & [= <- <- <- <- <-] & Hshort).
        destruct (prefix_of_six _ _ _ _ _ _ _ _ _ Hpat Hshort) as (c7 & -> & _).
        by apply (Hno k1 k2 k3 k4 (c7 ++ r)).
    + revert Hres. cbn [app Json.scanstring].
      change (92 =? 34) with false. change (92 =? 92) with true. cbv iota.
      destruct (N.eqb_spec e 117) as [|_]; [done|].
      destruct (Json.unescape e) as [u|]; [|done].
      apply Hrec. simpl in Hn. lia.
  - revert Hres. cbn [app Json.scanstring].
    destruct (N.eqb_spec c0 34) as [|_]; [done|].
    destruct (N.eqb_spec c0 92) as [|_]; [done|].
    destruct (c0 <? 32); [done|]. apply Hrec. lia.
Qed.

Lemma scanstring_suffix_bounded (n : nat) (s t r : str) :
  (length s <= n)%nat -> Json.scanstring s = inr (t, r) -> r `suffix_of` s.
Proof.
  revert s t r. induction n as [|n IH]; intros s t r Hn.
  - destruct s; [done | simpl in Hn; lia].
  - destruct s as [|c s]; [done|]. cbn [Json.scanstring].
    repeat case_match; try done;
      try (intros [= _ <-]; by apply suffix_cons_r);
      intros (t' & Hsub & _)%cons_char_inr;
      (apply IH in Hsub; [|simpl in *; lia]);
      repeat first [exact Hsub | apply suffix_cons_r].
Qed.

Lemma scanstring_frame (s t r : str) :
  Json.scanstring s = inr (t, r) ->
  exists c, s = c ++ r /\ forall r', Json.scanstring (c ++ r') = inr (t, r').
Proof.
  intros Hres.
  destruct (scanstring_suffix_bounded (length s) s t r ltac:(lia) Hres)
    as [c ->].
  exists c. split; [done|]. intros r'.
  by apply (scanstring_frame_bounded (length c) c r).
Qed.

(** *** Numbers *)

(** A text whose first character is not a digit. *)
#[local] Abbreviation no_digit_ahead y :=
  (match y with [] => True | x :: _ => Json.is_digit x = false end).

Lemma span_digits_frame (s ds r : str) :
  Json.span_digits s = (ds, r) ->
  s = ds ++ r
  /\ forall y, no_digit_ahead y -> Json.span_digits (ds ++ y) = (ds, y).
Proof.
  revert ds r. induction s as [|c s IH]; intros ds r; simpl.
  - intros [= <- <-]. split; [done|]. intros [|x y] Hy; simpl; [done|].
    by rewrite Hy.
  - destruct (Json.is_digit c) eqn:Hc.
    + destruct (Json.span_digits s) as [ds' r'] eqn:Hs.
      intros [= <- <-]. destruct (IH _ _ eq_refl) as [-> Hframe].
      split; [done|]. intros y Hy. simpl. by rewrite Hc, Hframe.
    + intros [= <- <-]. split; [done|]. intros [|x y] Hy; simpl; [done|].
      by rewrite Hy.
Qed.

Lemma match_integer_frame (s ip r : str) :
  Json.match_integer s = Some (ip, r) ->
  s = ip ++ r
  /\ (exists x ip', ip = x :: ip' /\ (x = 45 \/ Json.is_digit x = true))
  /\ forall y, no_digit_ahead y -> Json.match_integer (ip ++ y) = Some (ip, y).
Proof.
  unfold Json.match_integer.
  assert (Hbody : forall sign s1,
             match s1 with
             | c :: r0 =>
               if c =? 48 then Some (sign ++ [c], r0)
               else if Json.is_digit c then
                 let '(ds, r') := Json.span_digits r0 in Some (sign ++ c :: ds, r')
               else None
             | [] => None
             end = Some (ip, r) ->
             exists body x,
               ip = sign ++ body /\ s1 = body ++ r
               /\ head body = Some x /\ Json.is_digit x = true
               /\ forall y, no_digit_ahead y ->
                   match body ++ y with
                   | c :: r0 =>
                     if c =? 48 then Some (sign ++ [c], r0)
                     else if Json.is_digit c then
                       let '(ds, r') := Json.span_digits r0 in
                       Some (sign ++ c :: ds, r')
                     else None
                   | [] => None
                   end = Some (sign ++ body, y)).
  { intros sign [|c r0]; [done|].
    destruct (N.eqb_spec c 48) as [->|Hzero].
    - intros [= <- <-]. exists [48], 48. repeat split; try done.
    - destruct (Json.is_digit c) eqn:Hc; [|done].
      destruct (Json.span_digits r0) as [ds r'] eqn:Hds.
      intros [= <- <-]. apply span_digits_frame in Hds as [-> Hframe].
      exists (c :: ds), c. repeat split; try done.
      intros y Hy. cbn [app]. destruct (N.eqb_spec c 48); [done|].
      by rewrite Hc, Hframe. }
  destruct s as [|c s].
  - done.
  - destruct (N.eqb_spec c 45) as [->|Hminus].
    + intros Hres.
      apply (Hbody [45] s) in Hres as (body & x & -> & -> & Hx & Hdigit & Hframe).
      split; [done|]. split; [exists 45, body; auto|].
      intros y Hy. cbn [app]. change (45 =? 45) with true. cbv iota.
      by apply Hframe.
    + intros Hres.
      apply (Hbody [] (c :: s)) in Hres as (body & x & -> & Hs & Hx & Hdigit & Hframe).
      split; [done|]. destruct body as [|b body]; [done|].
      injection Hx as ->. injection Hs as -> ->.
      split; [exists x, body; auto|].
      intros y Hy. cbn [app]. destruct (N.eqb_spec x 45); [done|].
      by apply (Hframe y Hy).
Qed.

Lemma match_frac_frame (s frac r : str) :
  Json.match_frac s = (frac, r) ->
  s = frac ++ r
  /\ (frac = [] \/ head frac = Some 46)
  /\ forall y,
      no_digit_ahead y -> frac <> [] \/ head y <> Some 46 ->
      Json.match_frac (frac ++ y) = (frac, y).
Proof.
  unfold Json.match_frac.
  assert (Hnone : forall y,
             head y <> Some 46 ->
             match y with
             | dot :: d :: r0 =>
               if (dot =? 46) && Json.is_digit d
               then let '(ds, r') := Json.span_digits r0 in (dot :: d :: ds, r')
               else ([], y)
             | _ => ([], y)
             end = ([], y)).
  { intros [|dot [|d r0]] Hy; try done.
    destruct (N.eqb_spec dot 46) as [->|]; [done|done]. }
  destruct s as [|dot [|d r0]];
    try (intros [= <- <-]; split; [done|]; split; [by left|];
         intros y _ [?|Hy]; [done | by apply Hnone]).
  destruct ((dot =? 46) && Json.is_digit d) eqn:Hfrac.
  - apply andb_true_iff in Hfrac as [->%N.eqb_eq Hd].
    destruct (Json.span_digits r0) as [ds r'] eqn:Hds.
    intros [= <- <-]. apply span_digits_frame in Hds as [-> Hframe].
    split; [done|]. split; [by right|].
    intros y Hy _. cbn [app]. change (46 =? 46) with true. rewrite Hd.
    cbn [andb]. by rewrite Hframe.
  - intros [= <- <-]. split; [done|]. split; [by left|].
    intros y _ [?|Hy]; [done | by apply Hnone].
Qed.

Lemma match_exp_frame (s exp r : str) :
  Json.match_exp s = (exp, r) ->
  s = exp ++ r
  /\ (exp = [] \/ head exp = Some 101 \/ head exp = Some 69)
  /\ forall y,
      no_digit_ahead y ->
      exp <> [] \/ (head y <> Some 101 /\ head y <> Some 69) ->
      Json.match_exp (exp ++ y) = (exp, y).
Proof.
  assert (Hnone : forall y,
             head y <> Some 101 /\ head y <> Some 69 ->
             Json.match_exp y = ([], y)).
  { intros [|e y] [H1 H2]; [done|]. unfold Json.match_exp.
    destruct (N.eqb_spec e 101) as [->|]; [done|].
    by destruct (N.eqb_spec e 69) as [->|]. }
  assert (Hempty : forall s0 : str,
             s0 = [] ++ s0
             /\ (@nil N = [] \/ head (@nil N) = Some 101
                 \/ head (@nil N) = Some 69)
             /\ forall y,
                 no_digit_ahead y ->
                 @nil N <> [] \/ (head y <> Some 101 /\ head y <> Some 69) ->
                 Json.match_exp ([] ++ y) = ([], y)).
  { intros s0. split; [done|]. split; [by left|].
    intros y _ [?|Hy]; [done | by apply Hnone]. }
  unfold Json.match_exp at 1.
  destruct s as [|e [|d r1]]; try (intros [= <- <-]; by apply Hempty).
  { destruct ((e =? 101) || (e =? 69)); intros [= <- <-]; by apply Hempty. }
  destruct ((e =? 101) || (e =? 69)) eqn:He;
    [|intros [= <- <-]; by apply Hempty].
  assert (Hhead : head (e :: d :: r1) = Some 101 \/ head (e :: d :: r1) = Some 69).
  { apply orb_true_iff in He as [->%N.eqb_eq | ->%N.eqb_eq]; auto. }
  destruct (Json.is_digit d) eqn:Hd.
  - destruct (Json.span_digits r1) as [ds r'] eqn:Hds.
    intros [= <- <-]. apply span_digits_frame in Hds as [-> Hframe].
    split; [done|]. split; [right; exact Hhead|].
    intros y Hy _. unfold Json.match_exp. cbn [app]. rewrite He, Hd.
    by rewrite Hframe.
  - destruct ((d =? 45) || (d =? 43)) eqn:Hsign;
      [|intros [= <- <-]; by apply Hempty].
    destruct r1 as [|d1 r2]; [intros [= <- <-]; by apply Hempty|].
    destruct (Json.is_digit d1) eqn:Hd1; [|intros [= <- <-]; by apply Hempty].
    destruct (Json.span_digits r2) as [ds r'] eqn:Hds.
    intros [= <- <-]. apply span_digits_frame in Hds as [-> Hframe].
    split; [done|]. split; [right; exact Hhead|].
    intros y Hy _. unfold Json.match_exp. cbn [app].
    rewrite He, Hd, Hsign, Hd1. by rewrite Hframe.
Qed.

(** A number is read from its digits, sign, fraction and exponent, as long
    as what follows them cannot continue it. *)
Lemma match_number_frame (s r : str) (res : exn + pyval) :
  Json.match_number s = Some (res, r) ->
  exists c,
    s = c ++ r
    /\ (exists x c', c = x :: c' /\ (x = 45 \/ Json.is_digit x = true))
    /\ forall r', delimited r' -> Json.match_number (c ++ r') = Some (res, r').
Proof.
  unfold Json.match_number.
  destruct (Json.match_integer s) as [[ip r0]|] eqn:Hint; [|done].
  destruct (Json.match_frac r0) as [frac r1] eqn:Hfrac.
  destruct (Json.match_exp r1) as [exp r2] eqn:Hexp.
  apply match_integer_frame in Hint as (-> & (x & ip' & -> & Hx) & Hint).
  apply match_frac_frame in Hfrac as (-> & Hf & Hfrac).
  apply match_exp_frame in Hexp as (-> & He & Hexp).
  intros Hres.
  assert (Hr : r2 = r) by (by destruct frac, exp; simplify_eq).
  subst r2.
  exists ((x :: ip') ++ frac ++ exp). split; [by rewrite <- !app_assoc|].
  split; [by exists x, (ip' ++ frac ++ exp)|].
  intros r' Hr'.
  assert (Hstop : no_digit_ahead r'
                  /\ head r' <> Some 46
                  /\ head r' <> Some 101 /\ head r' <> Some 69).
  { destruct r' as [|y r']; [done|]. simpl.
    destruct Hr' as [Hws | [-> | [-> | ->]]]; try done.
    unfold Json.is_ws in Hws.
    repeat (apply orb_true_iff in Hws as [Hws|Hws]);
      apply N.eqb_eq in Hws as ->; done. }
  destruct Hstop as (Hdigit & Hdot & He1 & He2).
  assert (Hexp' : no_digit_ahead (exp ++ r')
                  /\ head (exp ++ r') <> Some 46).
  { destruct exp as [|e exp]; [done|]. simpl in *.
    destruct He as [?|[[= ->]|[= ->]]]; done. }
  assert (Hfrac' : no_digit_ahead (frac ++ exp ++ r')).
  { destruct frac as [|dot frac]; [apply Hexp'|]. simpl in *.
    by destruct Hf as [?|[= ->]]. }
  rewrite <- !app_assoc.
  rewrite (Hint _ Hfrac').
  rewrite (Hfrac (exp ++ r')); [|apply Hexp'|].
  2: { destruct frac; [right; apply Hexp' | by left]. }
  rewrite (Hexp r' Hdigit).
  2: { destruct exp; [by right | by left]. }
  by destruct frac, exp; simplify_eq.
Qed.

(** *** White space and the literals *)

Lemma skip_ws_split (s : str) :
  exists w, s = w ++ Json.skip_ws s /\ Forall (fun x => Json.is_ws x = true) w.
Proof.
  induction s as [|x s (w & Hs & Hw)]; simpl.
  - by exists [].
  - destruct (Json.is_ws x) eqn:Hx.
    + exists (x :: w). split; [by rewrite Hs at 1|]. by constructor.
    + by exists [].
Qed.

Lemma skip_ws_app (w y : str) :
  Forall (fun x => Json.is_ws x = true) w ->
  Json.skip_ws (w ++ y) = Json.skip_ws y.
Proof.
  induction 1 as [|x w Hx _ IH]; simpl; [done|]. by rewrite Hx.
Qed.

Lemma skip_ws_idempotent (s : str) :
  Json.skip_ws (Json.skip_ws s) = Json.skip_ws s.
Proof.
  induction s as [|x s IH]; simpl; [done|].
  destruct (Json.is_ws x) eqn:Hx; [done|]. simpl. by rewrite Hx.
Qed.

(** A text that begins with what a scanner has read begins with no white
    space, whatever follows. *)
Lemma skip_ws_value (c y y' : str) :
  c <> [] -> Json.skip_ws (c ++ y) = c ++ y -> Json.skip_ws (c ++ y') = c ++ y'.
Proof.
  destruct c as [|x c]; [done|]. intros _. simpl.
  destruct (Json.is_ws x); [|done].
  intros Heq. pose proof (skip_ws_length (c ++ y)) as Hlen.
  rewrite Heq in Hlen. simpl in Hlen. lia.
Qed.

Lemma next_is_cons (x : N) (s : str) :
  Json.next_is x s = true -> s = x :: tail s.
Proof. destruct s as [|y s]; simpl; [done|]. by intros ->%N.eqb_eq. Qed.

Lemma delimited_ws_app (w y : str) (x : N) :
  Forall (fun x => Json.is_ws x = true) w ->
  x = 44 \/ x = 93 \/ x = 125 ->
  delimited (w ++ x :: y).
Proof. intros Hw Hx. destruct Hw; simpl; auto. Qed.

Lemma strip_prefix_frame (p s r : str) :
  Json.strip_prefix p s = Some r ->
  s = p ++ r /\ forall r', Json.strip_prefix p (p ++ r') = Some r'.
Proof.
  revert s. induction p as [|a p IH]; intros s; simpl.
  - by intros [= ->].
  - destruct s as [|b s]; [done|].
    destruct (N.eqb_spec a b) as [->|]; [|done].
    intros [-> Hframe]%IH. split; [done|]. intros r'.
    by rewrite N.eqb_refl.
Qed.

(** *** Arrays and objects *)

(** Brings nested appends to the right. *)
Ltac reassociate :=
  repeat first [rewrite <- app_assoc | progress cbn [app]].

(** A scanner that reads a value from the text it consumes. *)
#[local] Abbreviation framed scan :=
  (forall (s : str) (v : pyval) (r : str),
      scan s = inr (v, r) ->
      exists c,
        s = c ++ r
        /\ forall r', delimited r' -> scan (c ++ r') = inr (v, r')).

Lemma parse_members_frame (scan : str -> exn + (pyval * str)) (k : nat)
    (s r : str) (acc : list (str * pyval)) (v : pyval) :
  Json.consumes scan -> framed scan ->
  Json.parse_members scan k s acc = inr (v, r) ->
  exists c,
    s = c ++ 125 :: r
    /\ forall r' k',
        (length (c ++ 125%N :: r') <= k')%nat ->
        Json.parse_members scan k' (c ++ 125 :: r') acc = inr (v, r').
Proof.
  intros Hcons Hframe. revert s acc.
  induction k as [|k IH]; intros s acc; [done|].
  cbn [Json.parse_members].
  destruct (Json.next_is 34 s) eqn:Hquote; [|done].
  apply next_is_cons in Hquote. destruct s as [|q s1]; [done|].
  injection Hquote as ->. cbn [tail].
  destruct (Json.scanstring s1) as [e|[key r1]] eqn:Hkey; [done|].
  apply scanstring_frame in Hkey as (ck & -> & Hkey). cbn zeta.
  destruct (skip_ws_split r1) as (w1 & Hr1 & Hw1).
  destruct (Json.next_is 58 (Json.skip_ws r1)) eqn:Hcolon; [|done].
  apply next_is_cons in Hcolon.
  set (r2t := tail (Json.skip_ws r1)) in *.
  destruct (skip_ws_split r2t) as (w2 & Hr2t & Hw2).
  destruct (scan (Json.skip_ws r2t)) as [e|[v0 r3]] eqn:Hv; [done|].
  pose proof (Hcons _ _ _ Hv) as Hvlen.
  destruct (Hframe _ _ _ Hv) as (cv & Hsv & Hvframe).
  assert (Hcv : cv <> []).
  { intros ->. rewrite Hsv in Hvlen. simpl in Hvlen. lia. }
  destruct (skip_ws_split r3) as (w3 & Hr3 & Hw3).
  assert (Hfixed : forall y, Json.skip_ws (cv ++ y) = cv ++ y).
  { intros y. apply (skip_ws_value cv r3); [done|].
    rewrite <- Hsv. apply skip_ws_idempotent. }
  assert (Hshape : forall x y,
             x = 44 \/ x = 125 ->
             34 :: ck ++ w1 ++ 58 :: w2 ++ cv ++ w3 ++ x :: y
             = (34 :: ck ++ w1 ++ 58 :: w2 ++ cv ++ w3) ++ x :: y).
  { intros x y _. by reassociate. }
  assert (Hstep : forall x y k',
             x = 44 \/ x = 125 ->
             Json.parse_members scan (S k')
               (34 :: ck ++ w1 ++ 58 :: w2 ++ cv ++ w3 ++ x :: y) acc
             = if x =? 125 then inr (PDict (dict_set key v0 acc), y)
               else Json.parse_members scan k' (Json.skip_ws y)
                                       (dict_set key v0 acc)).
  { intros x y k' Hx. cbn [Json.parse_members Json.next_is tail].
    change (34 =? 34) with true. cbv iota. rewrite Hkey. cbn zeta.
    rewrite (skip_ws_app w1) by done. cbn [Json.skip_ws].
    change (Json.is_ws 58) with false. cbv iota. cbn [Json.next_is tail].
    change (58 =? 58) with true. cbv iota.
    rewrite (skip_ws_app w2), Hfixed by done.
    rewrite Hvframe.
    2: { apply delimited_ws_app; [done|]. destruct Hx; auto. }
    rewrite (skip_ws_app w3) by done.
    destruct Hx as [-> | ->]; cbn [Json.skip_ws];
      [change (Json.is_ws 44) with false | change (Json.is_ws 125) with false];
      cbv iota; cbn [Json.next_is tail]; done. }
  assert (Hs : forall y,
             Json.skip_ws r3 = y ->
             34 :: ck ++ r1 = 34 :: ck ++ w1 ++ 58 :: w2 ++ cv ++ w3 ++ y).
  { intros y Hy. rewrite Hr1 at 1. rewrite Hcolon at 1. fold r2t.
    rewrite Hr2t at 1. rewrite Hsv at 1. rewrite Hr3 at 1. by rewrite Hy. }
  destruct (Json.next_is 125 (Json.skip_ws r3)) eqn:Hclose.
  - apply next_is_cons in Hclose. intros [= <- <-].
    exists (34 :: ck ++ w1 ++ 58 :: w2 ++ cv ++ w3).
    rewrite <- Hshape by auto. split; [by apply Hs|].
    intros r' [|k'] Hk'; [simpl in Hk'; lia|].
    rewrite <- Hshape by auto. by rewrite Hstep by auto.
  - destruct (Json.next_is 44 (Json.skip_ws r3)) eqn:Hcomma; [|done].
    apply next_is_cons in Hcomma. intros Hrest.
    destruct (skip_ws_split (tail (Json.skip_ws r3))) as (w4 & Hr4 & Hw4).
    destruct (IH _ _ Hrest) as (c2 & Hc2 & Hrec).
    assert (Hc2fixed : forall y,
               Json.skip_ws (c2 ++ 125 :: y) = c2 ++ 125 :: y).
    { intros y.
      change (c2 ++ 125 :: y) with (c2 ++ [125] ++ y). rewrite app_assoc.
      apply (skip_ws_value (c2 ++ [125]) r); [by destruct c2|].
      rewrite <- app_assoc. cbn [app]. rewrite <- Hc2.
      apply skip_ws_idempotent. }
    exists ((34 :: ck ++ w1 ++ 58 :: w2 ++ cv ++ w3) ++ 44 :: w4 ++ c2).
    assert (Hjoin : forall y,
               ((34 :: ck ++ w1 ++ 58 :: w2 ++ cv ++ w3) ++ 44 :: w4 ++ c2)
                 ++ 125 :: y
               = 34 :: ck ++ w1 ++ 58 :: w2 ++ cv ++ w3
                    ++ 44 :: w4 ++ c2 ++ 125 :: y).
    { intros y. by reassociate. }
    split.
    + rewrite Hjoin. apply Hs. rewrite Hcomma at 1. f_equal.
      rewrite Hr4 at 1. by rewrite Hc2.
    + intros r' [|k'] Hk'; [simpl in Hk'; lia|].
      rewrite Hjoin in Hk' |- *. rewrite Hstep by auto.
      change (44 =? 125) with false. cbv iota.
      rewrite (skip_ws_app w4), Hc2fixed by done.
      apply Hrec. revert Hk'. cbn [length app].
      rewrite !length_app. cbn [length]. rewrite !length_app.
      cbn [length]. rewrite !length_app. cbn [length]. lia.
Qed.

Lemma parse_elements_frame (scan : str -> exn + (pyval * str)) (k : nat)
    (s r : str) (acc : list pyval) (v : pyval) :
  Json.consumes scan -> framed scan ->
  Json.parse_elements scan k s acc = inr (v, r) ->
  exists c,
    s = c ++ 93 :: r
    /\ forall r' k',
        (length (c ++ 93%N :: r') <= k')%nat ->
        Json.parse_elements scan k' (c ++ 93 :: r') acc = inr (v, r').
Proof.
  intros Hcons Hframe. revert s acc.
  induction k as [|k IH]; intros s acc; [done|].
  cbn [Json.parse_elements].
  destruct (scan s) as [e|[v0 r3]] eqn:Hv; [done|].
  destruct (Hframe _ _ _ Hv) as (cv & -> & Hvframe). cbn zeta.
  destruct (skip_ws_split r3) as (w3 & Hr3 & Hw3).
  assert (Hstep : forall x y k',
             x = 44 \/ x = 93 ->
             Json.parse_elements scan (S k') (cv ++ w3 ++ x :: y) acc
             = if x =? 93 then inr (PList (acc ++ [v0]), y)
               else Json.parse_elements scan k' (Json.skip_ws y) (acc ++ [v0])).
  { intros x y k' Hx. cbn [Json.parse_elements].
    rewrite Hvframe.
    2: { apply delimited_ws_app; [done|]. destruct Hx; auto. }
    cbn zeta. rewrite (skip_ws_app w3) by done.
    destruct Hx as [-> | ->]; cbn [Json.skip_ws];
      [change (Json.is_ws 44) with false | change (Json.is_ws 93) with false];
      cbv iota; cbn [Json.next_is tail]; done. }
  destruct (Json.next_is 93 (Json.skip_ws r3)) eqn:Hclose.
  - apply next_is_cons in Hclose. intros [= <- <-].
    exists (cv ++ w3). split.
    + rewrite <- app_assoc. f_equal. rewrite Hr3 at 1. by rewrite Hclose at 1.
    + intros r' [|k'] Hk'; [rewrite !length_app in Hk'; simpl in Hk'; lia|].
      rewrite <- app_assoc. by rewrite Hstep by auto.
  - destruct (Json.next_is 44 (Json.skip_ws r3)) eqn:Hcomma; [|done].
    apply next_is_cons in Hcomma. intros Hrest.
    destruct (skip_ws_split (tail (Json.skip_ws r3))) as (w4 & Hr4 & Hw4).
    destruct (IH _ _ Hrest) as (c2 & Hc2 & Hrec).
    assert (Hc2fixed : forall y,
               Json.skip_ws (c2 ++ 93 :: y) = c2 ++ 93 :: y).
    { intros y.
      change (c2 ++ 93 :: y) with (c2 ++ [93] ++ y). rewrite app_assoc.
      apply (skip_ws_value (c2 ++ [93]) r); [by destruct c2|].
      rewrite <- app_assoc. cbn [app]. rewrite <- Hc2.
      apply skip_ws_idempotent. }
    exists (cv ++ w3 ++ 44 :: w4 ++ c2).
    assert (Hjoin : forall y,
               (cv ++ w3 ++ 44 :: w4 ++ c2) ++ 93 :: y
               = cv ++ w3 ++ 44 :: w4 ++ c2 ++ 93 :: y).
    { intros y. by reassociate. }
    split.
    + rewrite Hjoin. f_equal. rewrite Hr3 at 1. f_equal.
      rewrite Hcomma at 1. f_equal. rewrite Hr4 at 1. by rewrite Hc2.
    + intros r' [|k'] Hk'; [rewrite !length_app in Hk'; simpl in Hk'; lia|].
      rewrite Hjoin in Hk' |- *. rewrite Hstep by auto.
      change (44 =? 93) with false. cbv iota.
      rewrite (skip_ws_app w4), Hc2fixed by done.
      apply Hrec. revert Hk'. rewrite !length_app. cbn [length].
      rewrite !length_app. cbn [length]. lia.
Qed.

(** *** One value *)

Lemma number_head_no_letter (x : N) :
  x = 45 \/ Json.is_digit x = true ->
  (x =? 34) = false /\ (x =? 123) = false /\ (x =? 91) = false
  /\ (x =? 110) = false /\ (x =? 116) = false /\ (x =? 102) = false.
Proof.
  intros [-> | Hx]; [done|]. unfold Json.is_digit in Hx.
  apply andb_true_iff in Hx as [Hlo%N.leb_le Hhi%N.leb_le].
  repeat split; apply N.eqb_neq; lia.
Qed.

Lemma scan_scalar_frame (s r : str) (v : pyval) :
  match Json.strip_prefix (py "null") s, Json.strip_prefix (py "true") s,
        Json.strip_prefix (py "false") s with
  | Some r1, _, _ => inr (PNone, r1)
  | _, Some r1, _ => inr (PBool true, r1)
  | _, _, Some r1 => inr (PBool false, r1)
  | None, None, None =>
    match Json.match_number s with
    | Some (number, r1) => let* v := number in inr (v, r1)
    | None =>
      match Json.strip_prefix (py "NaN") s, Json.strip_prefix (py "Infinity") s,
            Json.strip_prefix (py "-Infinity") s with
      | Some r1, _, _ => inr (PFloat (float_of_str (py "nan")), r1)
      | _, Some r1, _ => inr (PFloat (float_of_str (py "inf")), r1)
      | _, _, Some r1 => inr (PFloat (float_of_str (py "-inf")), r1)
      | None, None, None => @inl exn (pyval * str) JSONDecodeError
      end
    end
  end = inr (v, r) ->
  exists c,
    s = c ++ r
    /\ forall r', delimited r' ->
        match Json.strip_prefix (py "null") (c ++ r'),
              Json.strip_prefix (py "true") (c ++ r'),
              Json.strip_prefix (py "false") (c ++ r') with
        | Some r1, _, _ => inr (PNone, r1)
        | _, Some r1, _ => inr (PBool true, r1)
        | _, _, Some r1 => inr (PBool false, r1)
        | None, None, None =>
          match Json.match_number (c ++ r') with
          | Some (number, r1) => let* v := number in inr (v, r1)
          | None =>
            match Json.strip_prefix (py "NaN") (c ++ r'),
                  Json.strip_prefix (py "Infinity") (c ++ r'),
                  Json.strip_prefix (py "-Infinity") (c ++ r') with
            | Some r1, _, _ => inr (PFloat (float_of_str (py "nan")), r1)
            | _, Some r1, _ => inr (PFloat (float_of_str (py "inf")), r1)
            | _, _, Some r1 => inr (PFloat (float_of_str (py "-inf")), r1)
            | None, None, None => @inl exn (pyval * str) JSONDecodeError
            end
          end
        end = inr (v, r').
Proof.
  destruct (Json.strip_prefix (py "null") s) as [r1|] eqn:Hnull.
  { intros [= <- <-]. apply strip_prefix_frame in Hnull as [-> _].
    exists (py "null"). split; [done|]. intros r' _. by vm_compute. }
  destruct (Json.strip_prefix (py "true") s) as [r1|] eqn:Htrue.
  { intros [= <- <-]. apply strip_prefix_frame in Htrue as [-> _].
    exists (py "true"). split; [done|]. intros r' _. by vm_compute. }
  destruct (Json.strip_prefix (py "false") s) as [r1|] eqn:Hfalse.
  { intros [= <- <-]. apply strip_prefix_frame in Hfalse as [-> _].
    exists (py "false"). split; [done|]. intros r' _. by vm_compute. }
  destruct (Json.match_number s) as [[number r1]|] eqn:Hnumber.
  { destruct number as [e|v0]; [done|]. intros [= <- <-].
    apply match_number_frame in Hnumber
      as (c & -> & (x & c' & -> & Hx) & Hframe).
    exists (x :: c'). split; [done|]. intros r' Hr'.
    rewrite (Hframe r' Hr').
    apply number_head_no_letter in Hx as (_ & _ & _ & Hn & Ht & Hf).
    cbn [app].
    by rewrite !(strip_prefix_other_head _ _ x (c' ++ r'))
      by (first [eassumption | reflexivity]). }
  destruct (Json.strip_prefix (py "NaN") s) as [r1|] eqn:Hnan.
  { intros [= <- <-]. apply strip_prefix_frame in Hnan as [-> _].
    exists (py "NaN"). split; [done|]. intros r' _. by vm_compute. }
  destruct (Json.strip_prefix (py "Infinity") s) as [r1|] eqn:Hinf.
  { intros [= <- <-]. apply strip_prefix_frame in Hinf as [-> _].
    exists (py "Infinity"). split; [done|]. intros r' _. by vm_compute. }
  destruct (Json.strip_prefix (py "-Infinity") s) as [r1|] eqn:Hminf; [|done].
  intros [= <- <-]. apply strip_prefix_frame in Hminf as [-> _].
  exists (py "-Infinity"). split; [done|]. intros r' _. by vm_compute.
Qed.

Lemma scan_scalar_not_dict (s r : str) (v : pyval) (d : list (str * pyval)) :
  match Json.strip_prefix (py "null") s, Json.strip_prefix (py "true") s,
        Json.strip_prefix (py "false") s with
  | Some r1, _, _ => inr (PNone, r1)
  | _, Some r1, _ => inr (PBool true, r1)
  | _, _, Some r1 => inr (PBool false, r1)
  | None, None, None =>
    match Json.match_number s with
    | Some (number, r1) => let* v := number in inr (v, r1)
    | None =>
      match Json.strip_prefix (py "NaN") s, Json.strip_prefix (py "Infinity") s,
            Json.strip_prefix (py "-Infinity") s with
      | Some r1, _, _ => inr (PFloat (float_of_str (py "nan")), r1)
      | _, Some r1, _ => inr (PFloat (float_of_str (py "inf")), r1)
      | _, _, Some r1 => inr (PFloat (float_of_str (py "-inf")), r1)
      | None, None, None => @inl exn (pyval * str) JSONDecodeError
      end
    end
  end = inr (v, r) ->
  v <> PDict d.
Proof.
  destruct (Json.strip_prefix (py "null") s); [by intros [= <- _]|].
  destruct (Json.strip_prefix (py "true") s); [by intros [= <- _]|].
  destruct (Json.strip_prefix (py "false") s); [by intros [= <- _]|].
  destruct (Json.match_number s) as [[number r1]|] eqn:Hnumber.
  - unfold Json.match_number in Hnumber.
    destruct (Json.match_integer s) as [[ip r0]|]; [|done].
    destruct (Json.match_frac r0) as [frac r2].
    destruct (Json.match_exp r2) as [exp r3].
    destruct number as [e|v0]; [done|]. intros [= <- _].
    destruct frac, exp; simplify_eq; try done.
    by destruct (Json.int_of_str ip); simplify_eq.
  - repeat case_match; by intros [= <- _].
Qed.

(** The value, the consumed text and the independence of what follows,
    for one scanner. *)
#[local] Abbreviation reads_its_text scan :=
  (forall (s : str) (v : pyval) (r : str),
      scan s = inr (v, r) ->
      exists c,
        s = c ++ r
        /\ (forall d, v = PDict d -> exists m, c = 123 :: m ++ [125])
        /\ forall r', delimited r' -> scan (c ++ r') = inr (v, r')).

Lemma scan_string_frame (depth : nat) (s0 r : str) (v : pyval) :
  Json.scan_once depth (34 :: s0) = inr (v, r) ->
  exists c,
    34 :: s0 = c ++ r
    /\ (forall d, v = PDict d -> exists m, c = 123 :: m ++ [125])
    /\ forall r', delimited r' -> Json.scan_once depth (c ++ r') = inr (v, r').
Proof.
  assert (Hunfold : forall y,
             Json.scan_once depth (34 :: y)
             = let* (t, r1) := Json.scanstring y in inr (PStr t, r1))
    by (by destruct depth).
  rewrite Hunfold.
  destruct (Json.scanstring s0) as [e|[t r1]] eqn:Hs; [done|].
  intros [= <- <-]. apply scanstring_frame in Hs as (ck & -> & Hk).
  exists (34 :: ck). split; [done|]. split; [done|].
  intros r' _. cbn [app]. by rewrite Hunfold, Hk.
Qed.

Lemma scan_scalar_case (depth : nat) (c0 : N) (s0 r : str) (v : pyval) :
  (c0 =? 34) = false -> (c0 =? 123) = false -> (c0 =? 91) = false ->
  Json.scan_once depth (c0 :: s0) = inr (v, r) ->
  exists c,
    c0 :: s0 = c ++ r
    /\ (forall d, v = PDict d -> exists m, c = 123 :: m ++ [125])
    /\ forall r', delimited r' -> Json.scan_once depth (c ++ r') = inr (v, r').
Proof.
  intros Hq Hb Hk Hres.
  pose proof (scan_once_consumes depth _ _ _ Hres) as Hlen.
  revert Hres. destruct depth; cbn [Json.scan_once]; rewrite Hq, Hb, Hk;
    intros Hres;
    (destruct (scan_scalar_frame _ _ _ Hres) as (c & Hs & Hframe));
    (destruct c as [|x c'];
     [apply (f_equal length) in Hs; simpl in Hs, Hlen; lia|]);
    injection Hs as <- ->;
    (exists (c0 :: c'); split; [done|]; split;
     [intros d ->; by destruct (scan_scalar_not_dict _ _ _ d Hres)|]);
    intros r' Hr'; cbn [app Json.scan_once]; rewrite Hq, Hb, Hk;
    apply (Hframe r' Hr').
Qed.

Lemma parse_elements_list (scan : str -> exn + (pyval * str)) (k : nat)
    (s r : str) (acc : list pyval) (v : pyval) (d : list (str * pyval)) :
  Json.parse_elements scan k s acc = inr (v, r) -> v <> PDict d.
Proof.
  revert s acc. induction k as [|k IH]; intros s acc; [done|].
  cbn [Json.parse_elements].
  destruct (scan s) as [e|[v0 r0]]; [done|]. cbn zeta.
  destruct (Json.next_is 93 _); [by intros [= <- _]|].
  destruct (Json.next_is 44 _); [apply IH | done].
Qed.

(** [scan_once] reads a value from the text it consumes, and an object
    from a text between braces. *)
Lemma scan_once_frame (depth : nat) : reads_its_text (Json.scan_once depth).
Proof.
  induction depth as [|depth IH]; intros s v r;
    (destruct s as [|c0 s0]; [done|]);
    (destruct (c0 =? 34) eqn:Hq;
     [apply N.eqb_eq in Hq as ->; apply scan_string_frame|]);
    (destruct (c0 =? 123) eqn:Hb;
     [apply N.eqb_eq in Hb as ->
     |destruct (c0 =? 91) eqn:Hk;
      [apply N.eqb_eq in Hk as -> | by apply scan_scalar_case]]);
    try done.
  - (* an object *)
    assert (Hinner : framed (Json.scan_once depth)).
    { intros s1 v1 r1 Hs1. destruct (IH _ _ _ Hs1) as (c & ? & _ & ?). eauto. }
    assert (Hunfold : forall y,
               Json.scan_once (S depth) (123 :: y)
               = if Json.next_is 125 (Json.skip_ws y)
                 then inr (PDict [], tail (Json.skip_ws y))
                 else Json.parse_members (Json.scan_once depth)
                        (length (Json.skip_ws y)) (Json.skip_ws y) [])
      by done.
    rewrite Hunfold.
    destruct (skip_ws_split s0) as (w & Hs0 & Hw).
    destruct (Json.next_is 125 (Json.skip_ws s0)) eqn:Hclose.
    + intros [= <- <-]. apply next_is_cons in Hclose.
      exists (123 :: w ++ [125]). split.
      { reassociate. f_equal. rewrite Hs0 at 1. by rewrite Hclose at 1. }
      split; [intros d _; by exists w|].
      intros r' _. reassociate. rewrite Hunfold, (skip_ws_app w) by done.
      cbn [Json.skip_ws]. change (Json.is_ws 125) with false. by cbv iota.
    + intros Hm.
      apply parse_members_frame in Hm as (c2 & Hc2 & Hrec);
        [|apply scan_once_consumes | exact Hinner].
      exists (123 :: w ++ c2 ++ [125]). split.
      { reassociate. f_equal. rewrite Hs0 at 1. by rewrite Hc2. }
      split.
      { intros d _. exists (w ++ c2). by reassociate. }
      intros r' _. reassociate. rewrite Hunfold, (skip_ws_app w) by done.
      assert (Hfixed : Json.skip_ws (c2 ++ 125 :: r') = c2 ++ 125 :: r').
      { change (c2 ++ 125 :: r') with (c2 ++ [125] ++ r'). rewrite app_assoc.
        apply (skip_ws_value (c2 ++ [125]) r); [by destruct c2|].
        rewrite <- app_assoc. cbn [app]. rewrite <- Hc2.
        apply skip_ws_idempotent. }
      rewrite Hfixed.
      assert (Hopen : Json.next_is 125 (c2 ++ 125 :: r') = false).
      { rewrite Hc2 in Hclose. by destruct c2. }
      rewrite Hopen. by apply Hrec.
  - (* an array *)
    assert (Hinner : framed (Json.scan_once depth)).
    { intros s1 v1 r1 Hs1. destruct (IH _ _ _ Hs1) as (c & ? & _ & ?). eauto. }
    assert (Hunfold : forall y,
               Json.scan_once (S depth) (91 :: y)
               = if Json.next_is 93 (Json.skip_ws y)
                 then inr (PList [], tail (Json.skip_ws y))
                 else Json.parse_elements (Json.scan_once depth)
                        (length (Json.skip_ws y)) (Json.skip_ws y) [])
      by done.
    rewrite Hunfold.
    destruct (skip_ws_split s0) as (w & Hs0 & Hw).
    destruct (Json.next_is 93 (Json.skip_ws s0)) eqn:Hclose.
    + intros [= <- <-]. apply next_is_cons in Hclose.
      exists (91 :: w ++ [93]). split.
      { reassociate. f_equal. rewrite Hs0 at 1. by rewrite Hclose at 1. }
      split; [done|].
      intros r' _. reassociate. rewrite Hunfold, (skip_ws_app w) by done.
      cbn [Json.skip_ws]. change (Json.is_ws 93) with false. by cbv iota.
    + intros Hm.
      assert (Hlist : forall d, v <> PDict d)
        by (intros d; by eapply parse_elements_list).
      apply parse_elements_frame in Hm as (c2 & Hc2 & Hrec);
        [|apply scan_once_consumes | exact Hinner].
      exists (91 :: w ++ c2 ++ [93]). split.
      { reassociate. f_equal. rewrite Hs0 at 1. by rewrite Hc2. }
      split; [intros d Hd; by destruct (Hlist d)|].
      intros r' _. reassociate. rewrite Hunfold, (skip_ws_app w) by done.
      assert (Hfixed : Json.skip_ws (c2 ++ 93 :: r') = c2 ++ 93 :: r').
      { change (c2 ++ 93 :: r') with (c2 ++ [93] ++ r'). rewrite app_assoc.
        apply (skip_ws_value (c2 ++ [93]) r); [by destruct c2|].
        rewrite <- app_assoc. cbn [app]. rewrite <- Hc2.
        apply skip_ws_idempotent. }
      rewrite Hfixed.
      assert (Hopen : Json.next_is 93 (c2 ++ 93 :: r') = false).
      { rewrite Hc2 in Hclose. by destruct c2. }
      rewrite Hopen. by apply Hrec.
Qed.

Lemma skip_ws_nil (s : str) :
  Json.skip_ws s = [] -> Forall (fun x => Json.is_ws x = true) s.
Proof.
  induction s as [|x s IH]; simpl; [by constructor|].
  destruct (Json.is_ws x) eqn:Hx; [|done]. intros Hs. constructor; auto.
Qed.

Lemma ws_without (x : N) (w : str) :
  Json.is_ws x = false -> Forall (fun y => Json.is_ws y = true) w -> x ∉ w.
Proof.
  intros Hx Hw Hin. rewrite Forall_forall in Hw. apply Hw in Hin. congruence.
Qed.

(** A text that [json.loads] reads as an object is that object between
    white space. *)
Lemma loads_object_text (text : str) (d : list (str * pyval)) :
  Json.loads text = inr (PDict d) ->
  exists before m after,
    text = before ++ 123 :: m ++ 125 :: after
    /\ Forall (fun x => Json.is_ws x = true) before
    /\ Forall (fun x => Json.is_ws x = true) after
    /\ Json.loads (123 :: m ++ [125]) = inr (PDict d).
Proof.
  unfold Json.loads at 1.
  destruct (Json.next_is 65279 text); [done|].
  destruct (Json.scan_once recursion_limit (Json.skip_ws text))
    as [e|[v r]] eqn:Hscan; [done|].
  cbn. destruct (Json.skip_ws r) eqn:Hr; [|done]. intros [= ->].
  destruct (skip_ws_split text) as (w & Htext & Hw).
  destruct (scan_once_frame _ _ _ _ Hscan) as (c & Hc & Hobj & Hframe).
  destruct (Hobj d eq_refl) as (m & ->).
  apply skip_ws_nil in Hr.
  exists w, m, r. repeat split; [|done|done|].
  { rewrite Htext at 1. rewrite Hc. by reassociate. }
  unfold Json.loads. cbn [Json.next_is Json.skip_ws app].
  change (123 =? 65279) with false. change (Json.is_ws 123) with false.
  cbv iota.
  specialize (Hframe [] I). rewrite app_nil_r in Hframe.
  cbn [app] in Hframe. by rewrite Hframe.
Qed.

(** X20: the search for an object finds an object that the answer wraps.
    When the answer is a text that [json.loads] reads as an object, with
    any text without an opening brace before it and any text without a
    closing brace after it, the pattern extracts that text without the white
    space around it, and the extract decodes to the same object; so does
    the answer of a response whose content it is.  With nothing around the
    object this is the answer that is an object already. *)
Theorem extraction_finds_wrapped_object
    (before object after : str) (d : list (str * pyval)) :
  Json.loads object = inr (PDict d) ->
  123 ∉ before -> 125 ∉ after ->
  let text := before ++ object ++ after in
  (exists w w',
      object = w ++ Test7.extract_json_from_text text ++ w'
      /\ Forall (fun x => Json.is_ws x = true) w
      /\ Forall (fun x => Json.is_ws x = true) w')
  /\ Json.loads (Test7.extract_json_from_text text) = inr (PDict d)
  /\ forall (student_name : str) (o : http_outcome),
      raw_text_of o = inr text ->
      Test7.parse_answer student_name o = inr (PDict d).
Proof.
  intros Hloads Hbefore Hafter text.
  destruct (loads_object_text _ _ Hloads) as (w & m & w' & Hobject & Hw & Hw' & Hm).
  assert (Hfound : Test7.extract_json_from_text text = 123 :: m ++ [125]).
  { unfold Test7.extract_json_from_text, text. rewrite Hobject.
    replace (before ++ (w ++ 123 :: m ++ 125 :: w') ++ after)
      with ((before ++ w) ++ 123 :: m ++ 125 :: (w' ++ after))
      by (by reassociate).
    rewrite re_search_object; [done| |].
    - rewrite elem_of_app. intros [Hin|Hin]; [done|].
      by apply (ws_without 123 w).
    - rewrite elem_of_app. intros [Hin|Hin]; [|done].
      by apply (ws_without 125 w'). }
  rewrite Hfound. split.
  { exists w, w'. repeat split; [|done|done]. rewrite Hobject at 1. by reassociate. }
  split; [exact Hm|].
  intros student_name o Hraw. unfold Test7.parse_answer.
  rewrite Hraw. cbn. by rewrite Hfound, Hm.
Qed.

End DecoderFrame.

(** * Closed examples

    Each property above that has a premise is run once on concrete data,
    and the properties that the code does not have as the specification
    words them are refuted on concrete data. *)

#[local] Existing Instance Demo.text_floats.

(** Evaluates both sides of an equation between closed terms. *)
Ltac by_evaluation :=
  vm_compute; repeat split; first [reflexivity | discriminate].

(** The decoder and the digest on known values. *)
Example md5_of_abc :
  Md5.hexdigest (py "abc") = py "900150983cd24fb0d6963f7d28e17f72".
Proof. by_evaluation. Qed.

(** The prompts are the texts of the scripts: their digests are the ones
    [hashlib] gives for the source literals. *)
Example md5_of_system_prompts :
  Md5.hexdigest <$> encode_utf8 Test7.system_prompt
  = Some (py "63495ed325e4929dfef97d0588b21027")
  /\ Md5.hexdigest <$> encode_utf8 Test5.system_prompt
     = Some (py "001a4500b907cc0d663d3a6d4f6c7894").
Proof. by_evaluation. Qed.

Example md5_of_user_prompts :
  Md5.hexdigest
    <$> encode_utf8 (Test7.user_prompt Demo.document (py "Иван Иванов")
                                       (py "Аналитик"))
  = Some (py "63a16f9153c2778ecb22b859df4cda41")
  /\ Md5.hexdigest
       <$> encode_utf8 (Test5.user_prompt Demo.document (py "Иван Иванов")
                                          (py "Аналитик"))
     = Some (py "ef27479ab7bdbf18c9041ef6abb66ef5").
Proof. by_evaluation. Qed.

Example str_of_ints :
  map (fun z => str_of (HInt z)) [0; 9; 10; -1203; 18446744073709551616]%Z
  = map inr [py "0"; py "9"; py "10"; py "-1203"; py "18446744073709551616"].
Proof. by_evaluation. Qed.

Example role_ru_of_tester :
  role_ru_of (py "Tester") = py "Тестировщик"
  /\ role_ru_of (py "Architect") = py "Architect".
Proof. by_evaluation. Qed.

Example loads_object :
  Json.loads (pyq "{`a`: [1, true, null], `a`: `\u0041`}")
  = inr (PDict [(py "a", PStr (py "A"))]).
Proof. by_evaluation. Qed.

Example extract_greedy :
  Test7.extract_json_from_text (py "x {a} y {b} z") = py "{a} y {b}".
Proof. by_evaluation. Qed.

(** A batch of three rows whose second request is answered with status
    500: two tasks, one error line for the second row, and the second task
    of the batch gets the role of its row appended. *)
Example batch_with_one_failure :
  let t := Test7.generate_button (Demo.second_fails Demo.bare_answer)
             Demo.document Demo.api_key Demo.model Demo.roster Test7.fresh in
  map (fun r => getitem_key r (py "title")) (results t)
  = [inr (PStr (py "Collect requirements"));
     inr (PStr (py "Collect requirements [Architect]"))]
  /\ map (fun r => getitem_key r (py "executor")) (results t)
     = [inr (PStr (py "Иван Иванов")); inr (PStr (py "Alex"))]
  /\ errors t
     = [{| failed_student := py "Мария Петрова";
           failed_role := py "Тестировщик";
           raised := HTTPError 500 |}].
Proof. by_evaluation. Qed.



(** C1 on concrete data: two documents that agree on their first 1000
    characters, another student's call in between. *)
Lemma second_call_returns_cached_record_witness :
  let remote := Demo.answering Demo.bare_answer in
  let first :=
    Test7.generate_task_json remote (Demo.long_document 120) (py "Ann")
      (py "Tester") Demo.api_key Demo.model (Some []) Test7.fresh in
  let between :=
    [{| Test7.call_document_text := Demo.document;
        Test7.call_student_name := py "Bob";
        Test7.call_role_ru := py "Tester";
        Test7.call_api_key := Demo.api_key;
        Test7.call_model := Demo.model;
        Test7.call_used_titles := None |}] in
  let w2 := Test7.after_calls remote between (snd first) in
  exists r,
    fst (fst first) = inr r
    /\ Test7.generate_task_json remote (Demo.long_document 121) (py "Ann")
         (py "Tester") (py "another key") Demo.model None w2
       = (inr r, None, w2).
Proof.
  intros remote first between w2.
  let outcome := eval vm_compute in (fst (fst first)) in
  match outcome with
  | inr ?r =>
    exists r; split; [by_evaluation|];
    apply (second_call_returns_cached_record remote
             (Demo.long_document 120) (Demo.long_document 121) (py "Ann")
             (py "Tester") Demo.model Demo.api_key (py "another key")
             (Some []) (snd (fst first)) None Test7.fresh (snd first) between r);
    by_evaluation
  end.
Defined.

(** C10 on concrete data: the process after one call for Ann, then a second
    call for her with a set that already holds her title and description. *)
Lemma cache_hit_leaves_used_titles_witness :
  let remote := Demo.answering Demo.bare_answer in
  let w :=
    snd (Test7.generate_task_json remote Demo.document (py "Ann") (py "Tester")
           Demo.api_key Demo.model None Test7.fresh) in
  let used := [(HStr (py "Collect requirements"), HStr (py "D"))] in
  exists cached,
    getitem_key cached (py "title") = inr (PStr (py "Collect requirements"))
    /\ Test7.generate_task_json remote Demo.document (py "Ann") (py "Tester")
         Demo.api_key Demo.model (Some used) w
       = (inr cached, Some used, w).
Proof.
  intros remote w used.
  let entry := eval vm_compute in
      (Test7.CACHE w !! py "968aab9a0837fffe59a8d3cf2e2d02f9") in
  match entry with
  | Some ?cached =>
    exists cached; split; [by_evaluation|];
    apply (cache_hit_leaves_used_titles remote Demo.document (py "Ann")
             (py "Tester") Demo.api_key Demo.model
             (py "968aab9a0837fffe59a8d3cf2e2d02f9") (Some used) w cached);
    by_evaluation
  end.
Defined.

(** C7 on concrete data: a title with a line break inside and a space at
    its end. *)
Lemma normalize_removes_newlines_witness :
  let raw_title := py "Collect" ++ [NL] ++ py "requirements " in
  exists r t,
    Test7.normalize_json_result (PDict [(py "title", PStr raw_title)])
                                (py "Ann") (py "Tester")
    = inr (PDict r)
    /\ dict_get (py "title") r = Some (PStr t)
    /\ t = py "Collect requirements"
    /\ (NL ∉ t).
Proof.
  intros raw_title.
  destruct (normalize_removes_newlines [(py "title", PStr raw_title)]
              (py "Ann") (py "Tester") (py "title") raw_title)
    as (r & t & Hr & Ht & Heq & Hnl & _).
  - by left.
  - by_evaluation.
  - exists r, t. split; [exact Hr|]. split; [exact Ht|].
    split; [rewrite Heq; by_evaluation | exact Hnl].
Defined.

(** C5, where the claim fails: three rows of one batch with the same role
    and the same answer.  The answers of the second and the third row carry
    the same title and description, but the third record gets the very
    title of the second, not that title with the role appended, and the two
    calls store one pair between them: the set holds two pairs for three
    records. *)
Lemma third_duplicate_repeats_title :
  let remote := Demo.answering Demo.bare_answer in
  let row label name :=
    {| idx := IntLabel label; student_name_cell := name;
       role_cell := py "Architect" |} in
  let t := Test7.generate_button remote Demo.document Demo.api_key Demo.model
             [row 0%Z (py "Ann"); row 1%Z (py "Bob"); row 2%Z (py "Carl")]
             Test7.fresh in
  let second := py "Collect requirements [Architect]" in
  map (fun r => getitem_key r (py "title")) (results t)
  = [inr (PStr (py "Collect requirements")); inr (PStr second);
     inr (PStr second)]
  /\ second <> second ++ py " [Architect]"
  /\ fst (process t)
     = [(HStr (py "Collect requirements"), HStr (py "D"));
        (HStr second, HStr (py "D"))]
  /\ uncaught t = None.
Proof. by_evaluation. Qed.

(** C5 on concrete data: Ann and Bob of one batch get the same answer, with
    Carl between them. *)
Lemma duplicate_title_gets_role_suffix_witness :
  let remote := Demo.answering Demo.bare_answer in
  let call := Test7.call_for_row remote Demo.document Demo.api_key Demo.model in
  let title :=
    Test7.without_line_breaks (py "Collect" ++ [NL] ++ py "requirements ") in
  let description := Test7.without_line_breaks (py "D") in
  let title2 := title ++ py " [" ++ py "Tester" ++ py "]" in
  let after_first := snd (call (py "Ann") (py "Analyst") ([], Test7.fresh)) in
  let before_second :=
    fold_left (fun st row => snd (call (fst row) (snd row) st))
              [(py "Carl", py "Manager")] after_first in
  (title = py "Collect requirements"
   /\ title2 = py "Collect requirements [Tester]")
  /\ exists r1 r2 used2 w2,
      call (py "Ann") (py "Analyst") ([], Test7.fresh)
      = (inr (PDict r1), after_first)
      /\ call (py "Bob") (py "Tester") before_second
         = (inr (PDict r2), (used2, w2))
      /\ dict_get (py "title") r1 = Some (PStr title)
      /\ dict_get (py "title") r2 = Some (PStr title2)
      /\ (HStr title, HStr description) ∈ used2
      /\ (HStr title2, HStr description) ∈ used2
      /\ Test7.tuple_eqb (HStr title, HStr description)
                         (HStr title2, HStr description)
         = false.
Proof.
  intros remote call title description title2 after_first before_second.
  split; [by_evaluation|].
  let answer := eval vm_compute in (Json.loads Demo.bare_answer) in
  match answer with
  | inr (PDict ?d) =>
    apply (duplicate_title_gets_role_suffix remote Demo.document
             Demo.api_key Demo.model (py "Ann") (py "Analyst") (py "Bob")
             (py "Tester")
             (py "4650742586cdbf42ac5565d8421e1f89")
             (py "e2cfc2706a82d2a7f44aba385b3fc149")
             [(py "Carl", py "Manager")]
             [] Test7.fresh d d
             (py "Collect" ++ [NL] ++ py "requirements ") (py "D"))
  end;
    first [by_evaluation | vm_compute; discriminate].
Defined.


(** C8, where the claim fails: the extended variant called without a
    used-title set on an answer that has no fields returns, and caches, a
    record with neither title nor description. *)
Lemma extended_record_without_title :
  let outcome :=
    fst (fst (Test7.generate_task_json (Demo.answering Demo.empty_answer)
                Demo.document (py "Ann") (py "Tester") Demo.api_key Demo.model
                None Test7.fresh)) in
  let record :=
    [(py "role", PStr (py "Tester"));
     (py "executor", PStr (py "Ann"));
     (py "author", PStr (py "AI"));
     (py "status", PStr (py "new"));
     (py "priority", PStr (py "medium"))] in
  outcome = inr (PDict record)
  /\ dict_get (py "title") record = None
  /\ dict_get (py "description") record = None
  /\ has_fields task_fields (PDict record) = false.
Proof. by_evaluation. Qed.

(** C8 on concrete data: the same call with a used-title set raises, and
    one on an answer with a title and a description returns a record with
    all seven fields; without a set, the record of the answer with no
    fields has no title, as the answer has none. *)
Lemma returned_record_fields_witness :
  let call answer :=
    Test7.generate_task_json (Demo.answering answer) Demo.document (py "Ann")
      (py "Tester") Demo.api_key Demo.model (Some []) Test7.fresh in
  let bare :=
    Test7.generate_task_json (Demo.answering Demo.empty_answer) Demo.document
      (py "Ann") (py "Tester") Demo.api_key Demo.model None Test7.fresh in
  fst (fst (call Demo.empty_answer)) = inl (KeyError (Key (py "title")))
  /\ (exists r,
        fst (fst (call Demo.bare_answer)) = inr r
        /\ has_fields task_fields r = true
        /\ cache_holds task_fields (Test7.CACHE (snd (call Demo.bare_answer))))
  /\ exists answer record,
      fst (fst bare) = inr (PDict record)
      /\ dict_has (py "title") answer = false
      /\ dict_has (py "title") record = dict_has (py "title") answer
      /\ dict_has (py "description") record
         = dict_has (py "description") answer.
Proof.
  intros call bare. split; [by_evaluation|].
  destruct (returned_record_fields (Demo.answering Demo.bare_answer)
              Demo.document (py "Ann") (py "Tester") Demo.api_key Demo.model)
    as (_ & _ & Hcomplete & _).
  destruct (returned_record_fields (Demo.answering Demo.empty_answer)
              Demo.document (py "Ann") (py "Tester") Demo.api_key Demo.model)
    as (_ & _ & _ & Hbare).
  split.
  - let outcome := eval vm_compute in (fst (fst (call Demo.bare_answer))) in
    match outcome with
    | inr ?r =>
      exists r; split; [by_evaluation|];
      apply (Hcomplete [] (snd (fst (call Demo.bare_answer))) Test7.fresh
               (snd (call Demo.bare_answer)) r)
    end.
    + intros key r Hr. simpl in Hr. by rewrite lookup_empty in Hr.
    + by_evaluation.
  - let outcome := eval vm_compute in (fst (fst bare)) in
    match outcome with
    | inr ?r =>
      destruct (Hbare (snd (fst bare)) Test7.fresh (snd bare) r
                  (py "968aab9a0837fffe59a8d3cf2e2d02f9"))
        as (answer & record & Hanswer & Hrecord & Htitle & Hdescription);
        [by_evaluation | by_evaluation | by_evaluation |]
    end.
    exists answer, record. repeat split; try done.
    + by rewrite <- Hrecord.
    + revert Hanswer. vm_compute. by intros [= <-].
Defined.

(** C9, where the claim fails: the simpler variant returns an answer whose
    status is "Done" with that status. *)
Lemma simple_variant_status_not_forced :
  let outcome :=
    fst (Test5.generate_task_json (Demo.answering Demo.done_answer) Demo.document
           (py "Ann") (py "Tester") Demo.api_key Demo.model []) in
  let record :=
    [(py "title", PStr (py "X"));
     (py "description", PStr (py "Y"));
     (py "status", PStr (py "Done"));
     (py "role", PStr (py "R"));
     (py "executor", PStr (py "E"));
     (py "author", PStr (py "AI"))] in
  outcome = inr (PDict record)
  /\ dict_get (py "status") record = Some (PStr (py "Done"))
  /\ py "Done" <> py "Todo".
Proof. by_evaluation. Qed.

(** C9 on concrete data: the status of the returned record is the one of
    the answer. *)
Lemma simple_variant_status_from_answer_witness :
  let remote := Demo.answering Demo.done_answer in
  let call :=
    Test5.generate_task_json remote Demo.document (py "Ann") (py "Tester")
                             Demo.api_key Demo.model [] in
  exists r raw_text status,
    fst call = inr r
    /\ raw_text = Demo.done_answer
    /\ Json.loads raw_text = inr r
    /\ getitem_key r (py "status") = inr status
    /\ status = PStr (py "Done").
Proof.
  intros remote call.
  let outcome := eval vm_compute in (fst call) in
  match outcome with
  | inr ?r =>
    destruct (simple_variant_status_from_answer remote Demo.document
                (py "Ann") (py "Tester") Demo.api_key Demo.model []
                (snd call) r)
      as (raw_text & status & Hraw & Hloads & Hstatus);
    [by_evaluation|];
    exists r, raw_text, status
  end.
  assert (Htext : raw_text = Demo.done_answer).
  { revert Hraw. vm_compute. by intros [= <-]. }
  repeat split; try done; try by_evaluation.
  revert Hstatus. vm_compute. by intros [= <-].
Defined.

(** ** The further properties on concrete data *)

(** X3 on concrete data: the answer with a line break in its title,
    normalized for Ann. *)
Lemma normalize_idempotent_witness :
  exists data normalized,
    Json.loads Demo.bare_answer = inr data
    /\ Test7.normalize_json_result data (py "Ann") (py "Tester") = inr normalized
    /\ getitem_key normalized (py "title")
       = inr (PStr (py "Collect requirements"))
    /\ Test7.normalize_json_result normalized (py "Ann") (py "Tester")
       = inr normalized.
Proof.
  let answer := eval vm_compute in (Json.loads Demo.bare_answer) in
  match answer with
  | inr ?data =>
    let outcome := eval vm_compute in
        (Test7.normalize_json_result data (py "Ann") (py "Tester")) in
    match outcome with
    | inr ?normalized =>
      exists data, normalized;
      split; [by_evaluation|]; split; [by_evaluation|];
      split; [by_evaluation|];
      apply (normalize_idempotent data normalized (py "Ann") (py "Tester"));
      by_evaluation
    end
  end.
Defined.

(** X5 on concrete data: an answer that is not JSON, for the first student
    of a batch. *)
Lemma failed_call_keeps_titles_and_cache_witness :
  let remote := Demo.answering (py "no task today") in
  let call :=
    Test7.generate_task_json remote Demo.document (py "Ann") (py "Tester")
      Demo.api_key Demo.model (Some []) Test7.fresh in
  fst (fst call)
  = inl (ValueError (JsonError (py "Ann") (py "no task today") JSONDecodeError))
  /\ snd (fst call) = Some []
  /\ Test7.CACHE (snd call) = Test7.CACHE Test7.fresh
  /\ (Test7.sent (snd call) = Test7.sent Test7.fresh
      \/ Test7.sent (snd call)
         = Test7.sent Test7.fresh
           ++ [Test7.chat_request Demo.document (py "Ann") (py "Tester")
                                  Demo.api_key Demo.model]).
Proof.
  intros remote call. split; [by_evaluation|].
  apply (failed_call_keeps_titles_and_cache remote Demo.document (py "Ann")
           (py "Tester") Demo.api_key Demo.model (Some []) (snd (fst call))
           Test7.fresh (snd call)
           (ValueError (JsonError (py "Ann") (py "no task today")
                                  JSONDecodeError))).
  by_evaluation.
Defined.

(** X6 on concrete data: the answer with no field at all. *)
Lemma answer_without_title_witness :
  let remote := Demo.answering Demo.empty_answer in
  let req :=
    Test7.chat_request Demo.document (py "Ann") (py "Tester") Demo.api_key
                       Demo.model in
  let key := py "968aab9a0837fffe59a8d3cf2e2d02f9" in
  Test7.generate_task_json remote Demo.document (py "Ann") (py "Tester")
                           Demo.api_key Demo.model (Some []) Test7.fresh
  = (inl (KeyError (Key (py "title"))), Some [],
     {| Test7.CACHE := Test7.CACHE Test7.fresh;
        Test7.sent := Test7.sent Test7.fresh ++ [req] |})
  /\ exists r,
      Test7.generate_task_json remote Demo.document (py "Ann") (py "Tester")
                               Demo.api_key Demo.model None Test7.fresh
      = (inr (PDict r), None,
         {| Test7.CACHE := <[key := PDict r]> (Test7.CACHE Test7.fresh);
            Test7.sent := Test7.sent Test7.fresh ++ [req] |})
      /\ dict_get (py "title") r = None.
Proof.
  intros remote req key.
  apply (answer_without_title remote Demo.document (py "Ann") (py "Tester")
           Demo.api_key Demo.model key [] Test7.fresh []);
    by_evaluation.
Defined.

(** X7 on concrete data: a third record with the title and description of
    two earlier ones of the same role. *)
Lemma suffixed_title_may_repeat_witness :
  let r := [(py "title", PStr (py "Plan")); (py "description", PStr (py "D"))] in
  let used :=
    [(HStr (py "Plan"), HStr (py "D"));
     (HStr (py "Plan [Tester]"), HStr (py "D"))] in
  Test7.make_title_unique (PDict r) (py "Tester") used
  = inr (PDict (dict_set (py "title")
                         (PStr (py "Plan" ++ py " [" ++ py "Tester" ++ py "]")) r),
         used).
Proof.
  intros r used.
  apply (suffixed_title_may_repeat r (py "Tester") (py "Plan") (py "D") used);
    first [ by_evaluation | apply list_elem_of_In; vm_compute; tauto ].
Defined.

(** X9 on concrete data: the roster of three, the second request answered
    with status 500. *)
Lemma simple_batch_sends_one_request_per_row_witness :
  let t := Test5.generate_button (Demo.second_fails Demo.done_answer)
             Demo.document Demo.api_key Demo.model Demo.roster [] in
  let request_of row :=
    Test5.chat_request Demo.document (strip (student_name_cell row))
                       (strip (role_ru_of (role_cell row)))
                       Demo.api_key Demo.model in
  (length (process t) = 3%nat /\ progress_accepted Demo.roster = true)
  /\ process t
     = [] ++ map request_of (reached (length Demo.roster) Demo.roster)
  /\ (progress_accepted Demo.roster = true ->
      process t = [] ++ map request_of Demo.roster).
Proof.
  intros t request_of. split; [by_evaluation|].
  apply (simple_batch_sends_one_request_per_row
           (Demo.second_fails Demo.done_answer) Demo.document Demo.api_key
           Demo.model Demo.roster []).
  vm_compute. discriminate.
Defined.

(** X10 on concrete data: the roster of three and a service that cannot be
    reached. *)
Lemma batch_without_service_witness :
  let t7 := Test7.generate_button Demo.unreachable Demo.document Demo.api_key
              Demo.model Demo.roster Test7.fresh in
  let t5 := Test5.generate_button Demo.unreachable Demo.document Demo.api_key
              Demo.model Demo.roster [] in
  let rows := reached (length Demo.roster) Demo.roster in
  map raised (errors t7) = [ConnectionError; ConnectionError; ConnectionError]
  /\ Test7.CACHE (snd (process t7)) = Test7.CACHE Test7.fresh
  /\ Forall (fun task => exists key, Test7.CACHE Test7.fresh !! key = Some task)
            (results t7)
  /\ (Test7.CACHE Test7.fresh = ∅ ->
      results t7 = [] /\ length (errors t7) = length rows)
  /\ results t5 = [] /\ length (errors t5) = length rows
  /\ (progress_accepted Demo.roster = true -> rows = Demo.roster).
Proof.
  intros t7 t5 rows. split; [by_evaluation|].
  apply (batch_without_service Demo.unreachable Demo.document Demo.api_key
           Demo.model Demo.roster Test7.fresh []).
  intros h r. by exists ConnectionError.
Defined.

(** X11 on concrete data: the roster of three with its first student
    named again at the end. *)
Lemma repeated_row_repeats_task_witness :
  let remote := Demo.answering Demo.bare_answer in
  let row :=
    {| idx := IntLabel 0;
       student_name_cell := py "Иван Иванов"; role_cell := py "Analyst" |} in
  let again :=
    {| idx := IntLabel 3;
       student_name_cell := py " Иван Иванов "; role_cell := py "Analyst" |} in
  let between := tail Demo.roster in
  let t := Test7.generate_button remote Demo.document Demo.api_key Demo.model
             (row :: between) Test7.fresh in
  let t' := Test7.generate_button remote Demo.document Demo.api_key Demo.model
              (row :: between ++ [again]) Test7.fresh in
  exists task,
    getitem_key task (py "title") = inr (PStr (py "Collect requirements"))
    /\ head (results t') = Some task
    /\ results t' = results t ++ [task]
    /\ errors t' = errors t
    /\ process t' = process t.
Proof.
  intros remote row again between t t'.
  let first := eval vm_compute in
      (results (Test7.generate_button remote Demo.document Demo.api_key
                  Demo.model [row] Test7.fresh)) in
  match first with
  | [?task] =>
    exists task; split; [by_evaluation|];
    apply (repeated_row_repeats_task remote Demo.document Demo.api_key
             Demo.model row again between Test7.fresh task);
    by_evaluation
  end.
Defined.

(** X18 on concrete data: the roster of three, every request answered with
    the same object. *)
Lemma batch_tasks_assigned_within_roster_witness :
  let remote := Demo.answering Demo.bare_answer in
  let t := Test7.generate_button remote Demo.document Demo.api_key Demo.model
             Demo.roster Test7.fresh in
  length (results t) = 3%nat
  /\ Forall (fun r =>
               exists row,
                 row ∈ Demo.roster
                 /\ getitem_key r (py "executor")
                    = inr (PStr (strip (student_name_cell row)))
                 /\ getitem_key r (py "role")
                    = inr (PStr (strip (role_ru_of (role_cell row)))))
            (results t).
Proof.
  intros remote t. split; [by_evaluation|].
  apply (batch_tasks_assigned_within_roster remote Demo.document Demo.api_key
           Demo.model Demo.roster Test7.fresh).
  reflexivity.
Defined.

(** X19 on concrete data: a student named "A||B" with role "C", then a
    student named "A" with role "B||C". *)
Lemma cache_key_runs_parts_together_witness :
  let remote := Demo.answering Demo.bare_answer in
  exists r w1 key,
    Test7.cache_key Demo.document (py "A" ++ py "||" ++ py "B") (py "C")
                    Demo.model
    = inr key
    /\ Test7.generate_task_json remote Demo.document
         (py "A" ++ py "||" ++ py "B") (py "C") Demo.api_key Demo.model None
         Test7.fresh
       = (inr r, None, w1)
    /\ Test7.cache_key Demo.document (py "A") (py "B" ++ py "||" ++ py "C")
                       Demo.model
       = inr key
    /\ getitem_key r (py "executor")
       = inr (PStr (py "A" ++ py "||" ++ py "B"))
    /\ getitem_key r (py "role") = inr (PStr (py "C"))
    /\ Test7.generate_task_json remote Demo.document (py "A")
         (py "B" ++ py "||" ++ py "C") Demo.api_key Demo.model (Some []) w1
       = (inr r, Some [], w1).
Proof.
  intros remote.
  let call := eval vm_compute in
      (Test7.generate_task_json remote Demo.document
         (py "A" ++ py "||" ++ py "B") (py "C") Demo.api_key Demo.model None
         Test7.fresh) in
  let k := eval vm_compute in
      (Test7.cache_key Demo.document (py "A" ++ py "||" ++ py "B") (py "C")
                       Demo.model) in
  match call with
  | (inr ?r, _, ?w1) =>
    match k with
    | inr ?key =>
      exists r, w1, key; split; [by_evaluation|]; split; [by_evaluation|];
      apply (cache_key_runs_parts_together remote Demo.document (py "A")
               (py "B") (py "C") Demo.model key Demo.api_key Demo.api_key
               None None (Some []) Test7.fresh w1 r);
      by_evaluation
    end
  end.
Defined.

(** X20 on concrete data: the answer inside a fence of back quotes, as
    a chat model often writes it. *)
Lemma extraction_finds_wrapped_object_witness :
  let before := py "```json" ++ [NL] in
  let object := py " " ++ Demo.bare_answer ++ [NL] in
  let after := py "```" in
  let text := before ++ object ++ after in
  exists d,
    Json.loads object = inr (PDict d)
    /\ Json.loads text = inl JSONDecodeError
    /\ Test7.extract_json_from_text text = Demo.bare_answer
    /\ (exists w w',
           object = w ++ Test7.extract_json_from_text text ++ w'
           /\ Forall (fun x => Json.is_ws x = true) w
           /\ Forall (fun x => Json.is_ws x = true) w')
    /\ Json.loads (Test7.extract_json_from_text text) = inr (PDict d)
    /\ forall (student_name : str) (o : http_outcome),
        raw_text_of o = inr text ->
        Test7.parse_answer student_name o = inr (PDict d).
Proof.
  intros before object after text.
  let answer := eval vm_compute in (Json.loads object) in
  match answer with
  | inr (PDict ?d) =>
    exists d; split; [by_evaluation|]; split; [by_evaluation|];
    split; [by_evaluation|];
    apply (extraction_finds_wrapped_object before object after d);
    first [ by_evaluation
          | intros Hin; apply list_elem_of_In in Hin; vm_compute in Hin;
            intuition discriminate ]
  end.
Defined.
